(** * Non-local control transfer in eztex: a shallow embedding

    Two C translation units are embedded here.

    - [src/csrc/wasm/sjlj_rt.c]: the run-time support of the
      exception-based setjmp/longjmp lowering for WebAssembly
      ([__wasm_setjmp], [__wasm_setjmp_test], [__wasm_longjmp]).
    - [src/pkg/tectonic/src/bridge_core/support.c]: the global abort
      channel of the engine ([_tt_abort], [ttbc_global_engine_enter],
      [ttbc_global_engine_exit], the checkpoint callback and the
      printf-style wrappers that share [format_buf]).

    Pointers are integers ([Z]) with [NULL = 0]; the objects a pointer may
    designate live in a finite store keyed by address, so that two calls
    on the same address see the same object. *)

From Stdlib Require Import ZArith Lia List String Ascii DecimalString.
From stdpp Require Import base option gmap list.

Local Open Scope Z_scope.

Definition ptr : Type := Z.
Definition NULL : ptr := 0.

(** ** The wasm setjmp/longjmp runtime ([sjlj_rt.c]) *)
Module Sjlj.

(** [struct jmp_buf_impl].  The nested [struct arg] is flattened into the
    two fields [arg_env] and [arg_val]. *)
Record jmp_buf_impl : Type := mk_jmp_buf {
  func_invocation_id : ptr;
  label : Z;        (* uint32_t *)
  arg_env : ptr;    (* arg.env *)
  arg_val : Z       (* arg.val, int *)
}.

(** Linear memory, restricted to the [jmp_buf] objects it holds. *)
Abbreviation memory := (gmap ptr jmp_buf_impl).

(** How a call of the runtime ends. *)
Inductive result (A : Type) : Type :=
| Returned (a : A) (m : memory)              (* normal return *)
| Trapped                                    (* __builtin_trap() *)
| Thrown (tag : Z) (payload : ptr) (m : memory)  (* __builtin_wasm_throw *)
| Fault.                                     (* [env] designates no jmp_buf *)
Arguments Returned {A} a m.
Arguments Trapped {A}.
Arguments Thrown {A} tag payload m.
Arguments Fault {A}.

Definition C_LONGJMP : Z := 1.

Definition set_target (jb : jmp_buf_impl) (id : ptr) (l : Z) : jmp_buf_impl :=
  {| func_invocation_id := id; label := l;
     arg_env := arg_env jb; arg_val := arg_val jb |}.

Definition set_arg (jb : jmp_buf_impl) (e : ptr) (v : Z) : jmp_buf_impl :=
  {| func_invocation_id := func_invocation_id jb; label := label jb;
     arg_env := e; arg_val := v |}.

(** [void __wasm_setjmp(void *env, uint32_t label, void *func_invocation_id)].
    Both checks come before the first access through [jb]. *)
Definition __wasm_setjmp (m : memory) (env : ptr) (l : Z) (id : ptr)
  : result unit :=
  if l =? 0 then Trapped
  else if id =? NULL then Trapped
  else match m !! env with
       | None => Fault
       | Some jb => Returned tt (<[env := set_target jb id l]> m)
       end.

(** [uint32_t __wasm_setjmp_test(void *env, void *func_invocation_id)].
    [jb->label] is read before the token is checked. *)
Definition __wasm_setjmp_test (m : memory) (env : ptr) (id : ptr)
  : result Z :=
  match m !! env with
  | None => Fault
  | Some jb =>
      if label jb =? 0 then Trapped
      else if id =? NULL then Trapped
      else if func_invocation_id jb =? id then Returned (label jb) m
      else Returned 0 m
  end.

(** [void __wasm_longjmp(void *env, int val)].  The payload of the
    exception is [&jb->arg]; it is represented by the address of the
    [jmp_buf] that contains it. *)
Definition __wasm_longjmp (m : memory) (env : ptr) (val : Z) : result unit :=
  match m !! env with
  | None => Fault
  | Some jb =>
      let val := if val =? 0 then 1 else val in
      Thrown C_LONGJMP env (<[env := set_arg jb env val]> m)
  end.

(** What a handler reads through the payload pointer. *)
Definition payload_arg (m : memory) (payload : ptr) : option (ptr * Z) :=
  jb ← m !! payload; Some (arg_env jb, arg_val jb).

(** The header comment of [sjlj_rt.c] describes the code the compiler
    puts after each setjmp call site: a catch of the C_LONGJMP tag that
    calls [__wasm_setjmp_test(env, &invocation_id)] with the [env] of the
    payload; a nonzero result is the label to dispatch to, and on zero the
    exception goes on to the next enclosing activation.  [frames] lists
    the invocation ids of the live activations with such a catch, the
    innermost first. *)
Inductive landing : Type :=
| Resumed (id : ptr) (l : Z) (val : Z)  (* activation [id] resumes at [l] *)
| Uncaught                              (* no activation took it *)
| Stopped.                              (* a catch trapped or faulted *)

Fixpoint unwind (m : memory) (payload : ptr) (frames : list ptr) : landing :=
  match frames with
  | [] => Uncaught
  | id :: outer =>
      match payload_arg m payload with
      | None => Stopped
      | Some (env, val) =>
          match __wasm_setjmp_test m env id with
          | Returned l _ =>
              if l =? 0 then unwind m payload outer else Resumed id l val
          | _ => Stopped
          end
      end
  end.

(** A zero-filled [jmp_buf], as static storage starts out. *)
Definition zero_jmp_buf : jmp_buf_impl :=
  {| func_invocation_id := NULL; label := 0; arg_env := NULL; arg_val := 0 |}.

End Sjlj.

(** ** The abort channel of the engine ([support.c]) *)
Module Support.

Definition BUF_SIZE : nat := 1024.
Definition NUL : ascii := Ascii.zero.

(** The variadic arguments of the printf-style entry points. *)
Inductive printf_arg : Type :=
| arg_int (z : Z)              (* %d *)
| arg_ulong (z : Z)            (* %lu *)
| arg_str (s : list ascii).    (* %s *)

(** Calls that leave [support.c]: the bridge functions [ttbc_*] of the
    embedder, the checkpoint callback reached through the registered
    function pointer, and the allocator.  They are recorded in call
    order, with the text a [char *] argument designates at the time of
    the call. *)
Inductive event : Type :=
| ev_diag_append (diag : ptr) (text : list ascii)
| ev_issue_warning (text : list ascii)
| ev_issue_error (text : list ascii)
| ev_output_write (handle : ptr) (data : list ascii) (len : Z)
| ev_input_get_mtime (handle : ptr)
| ev_input_seek (handle : ptr) (offset whence : Z)
| ev_input_close (handle : ptr)
| ev_checkpoint (fn userdata : ptr) (checkpoint_id : Z)
| ev_malloc (size : Z)
| ev_calloc (nelem elsize : Z)
| ev_realloc (old_ptr : ptr) (size : Z)
| ev_strcpy (dst : ptr) (src : list ascii).

(** What the surroundings of [support.c] answer.  [vformat] is the text
    a printf conversion of the C library produces for a format and its
    arguments: the complete text, or, when the conversion fails
    ([vformat_error]: an encoding error, say), the text produced up to
    the failure.  The bridge and the allocator answer as a function of
    the calls made so far. *)
Class Host : Type := {
  vformat : string -> list printf_arg -> list ascii;
  vformat_error : string -> list printf_arg -> bool;
  ttbc_input_get_mtime : list event -> ptr -> Z;
  ttbc_input_seek : list event -> ptr -> Z -> Z -> Z * Z; (* rv, *internal_error *)
  ttbc_input_close : list event -> ptr -> Z;
  malloc : list event -> Z -> ptr;
  calloc : list event -> Z -> Z -> ptr;
  realloc : list event -> ptr -> Z -> ptr
}.

(** A [jmp_buf] holds the control point saved by the last [setjmp] on
    it, if any.  Control points are numbered in the order in which they
    are saved. *)
Definition jmp_buf : Type := option nat.

(** The file-scope objects of [support.c], the function-local static
    [fprintf_buf], and the calls made so far. *)
Record state : Type := mk_state {
  format_buf : list ascii;                 (* char[BUF_SIZE] *)
  fprintf_buf : list ascii;                (* char[BUF_SIZE] *)
  jump_buffer : jmp_buf;
  tectonic_checkpoint_fn : ptr;
  tectonic_checkpoint_userdata : ptr;
  setjmp_count : nat;
  trace : list event
}.

(** Static initialisation: both buffers are [""], the pointers [NULL]. *)
Definition initial_state : state :=
  {| format_buf := replicate BUF_SIZE NUL;
     fprintf_buf := replicate BUF_SIZE NUL;
     jump_buffer := None;
     tectonic_checkpoint_fn := NULL;
     tectonic_checkpoint_userdata := NULL;
     setjmp_count := 0%nat;
     trace := [] |}.

Definition with_format_buf (s : state) (b : list ascii) : state :=
  {| format_buf := b; fprintf_buf := fprintf_buf s;
     jump_buffer := jump_buffer s;
     tectonic_checkpoint_fn := tectonic_checkpoint_fn s;
     tectonic_checkpoint_userdata := tectonic_checkpoint_userdata s;
     setjmp_count := setjmp_count s; trace := trace s |}.

Definition with_fprintf_buf (s : state) (b : list ascii) : state :=
  {| format_buf := format_buf s; fprintf_buf := b;
     jump_buffer := jump_buffer s;
     tectonic_checkpoint_fn := tectonic_checkpoint_fn s;
     tectonic_checkpoint_userdata := tectonic_checkpoint_userdata s;
     setjmp_count := setjmp_count s; trace := trace s |}.

Definition with_checkpoint (s : state) (fn userdata : ptr) : state :=
  {| format_buf := format_buf s; fprintf_buf := fprintf_buf s;
     jump_buffer := jump_buffer s;
     tectonic_checkpoint_fn := fn;
     tectonic_checkpoint_userdata := userdata;
     setjmp_count := setjmp_count s; trace := trace s |}.

Definition with_saved_context (s : state) : state :=
  {| format_buf := format_buf s; fprintf_buf := fprintf_buf s;
     jump_buffer := Some (setjmp_count s);
     tectonic_checkpoint_fn := tectonic_checkpoint_fn s;
     tectonic_checkpoint_userdata := tectonic_checkpoint_userdata s;
     setjmp_count := S (setjmp_count s); trace := trace s |}.

Definition log (s : state) (e : event) : state :=
  {| format_buf := format_buf s; fprintf_buf := fprintf_buf s;
     jump_buffer := jump_buffer s;
     tectonic_checkpoint_fn := tectonic_checkpoint_fn s;
     tectonic_checkpoint_userdata := tectonic_checkpoint_userdata s;
     setjmp_count := setjmp_count s; trace := trace s ++ [e] |}.

(** The string a [char *] designates: the bytes before the first NUL. *)
Fixpoint c_str (l : list ascii) : list ascii :=
  match l with
  | [] => []
  | c :: l' => if Ascii.eqb c NUL then [] else c :: c_str l'
  end.

Definition INT_MAX : Z := 2 ^ 31 - 1.

(** The [int] a printf conversion returns: the length of the text, or a
    negative value when the conversion failed or the length does not
    fit an [int]. *)
Definition conversion_result (out : list ascii) (failed : bool) : Z :=
  if failed || (INT_MAX <? Z.of_nat (length out)) then -1
  else Z.of_nat (length out).

(** [vsnprintf(buf, n, format, ap)] of the C library, given the text
    [out] of the conversion and whether it failed: at most [n - 1]
    characters of [out] are stored at the start of [buf], a NUL follows
    them, the rest of [buf] is left as it was, and the result of the
    conversion is returned. *)
Definition vsnprintf (buf : list ascii) (n : nat) (out : list ascii)
    (failed : bool) : list ascii * Z :=
  match n with
  | O => (buf, conversion_result out failed)
  | S n' =>
      let written := take n' out in
      (written ++ NUL :: drop (S (length written)) buf,
       conversion_result out failed)
  end.

(** *** Control flow: normal return, or [longjmp] *)
Inductive outcome (A : Type) : Type :=
| Returns (a : A) (s : state)
| Longjmp (env : jmp_buf) (val : Z) (s : state).
Arguments Returns {A} a s.
Arguments Longjmp {A} env val s.

Definition M (A : Type) : Type := state -> outcome A.

Definition ret {A} (a : A) : M A := fun s => Returns a s.

Definition bind {A B} (c : M A) (k : A -> M B) : M B :=
  fun s => match c s with
           | Returns a s' => k a s'
           | Longjmp env val s' => Longjmp env val s'
           end.

Definition longjmp {A} (env : jmp_buf) (val : Z) : M A :=
  fun s => Longjmp env val s.

Declare Scope c_scope.
Delimit Scope c_scope with C.
Notation "x <- c ;; k" := (bind c (fun x => k))
  (at level 100, c at next level, right associativity) : c_scope.
Notation "c ;; k" := (bind c (fun _ => k))
  (at level 100, right associativity) : c_scope.
Local Open Scope c_scope.

(** The address of a file-scope object is represented by its name. *)
Inductive object : Type := obj_format_buf | obj_fprintf_buf | obj_jump_buffer.

(** The string found through a [const char *] into one of the objects. *)
Definition c_str_at (s : state) (p : object) : list ascii :=
  match p with
  | obj_format_buf => c_str (format_buf s)
  | obj_fprintf_buf => c_str (fprintf_buf s)
  | obj_jump_buffer => []
  end.

(** What the caller of [setjmp] sees of the code it protects. *)
Inductive observation (A : Type) : Type :=
| Completed (a : A) (s : state)   (* setjmp returned 0, the body returned *)
| Diverted (val : Z) (s : state)  (* setjmp returned again, with [val] *)
| Escaped (env : jmp_buf) (val : Z) (s : state).
                                  (* a longjmp through a [jmp_buf] that
                                     holds another control point, or
                                     none: this [setjmp] does not return
                                     again, and C leaves undefined what
                                     happens instead *)
Arguments Completed {A} a s.
Arguments Diverted {A} val s.
Arguments Escaped {A} env val s.

Section WithHost.
Context `{Host}.

(** The statement [vsnprintf(format_buf, BUF_SIZE, format, ap);]. *)
Definition vsnprintf_format_buf (format : string) (ap : list printf_arg)
  : M Z :=
  fun s =>
    let r := vsnprintf (format_buf s) BUF_SIZE (vformat format ap)
               (vformat_error format ap) in
    Returns (snd r) (with_format_buf s (fst r)).

(** [void ttstub_diag_vprintf(ttbc_diagnostic_t *diag, const char *format, va_list ap)] *)
Definition ttstub_diag_vprintf (diag : ptr) (format : string)
    (ap : list printf_arg) : M unit :=
  vsnprintf_format_buf format ap ;;
  fun s => Returns tt (log s (ev_diag_append diag (c_str_at s obj_format_buf))).

(** [void ttstub_diag_printf(ttbc_diagnostic_t *diag, const char *format, ...)] *)
Definition ttstub_diag_printf (diag : ptr) (format : string)
    (args : list printf_arg) : M unit :=
  ttstub_diag_vprintf diag format args.

(** [void ttbc_set_checkpoint_callback(ttbc_checkpoint_fn fn, void *userdata)] *)
Definition ttbc_set_checkpoint_callback (fn userdata : ptr) : M unit :=
  fun s => Returns tt (with_checkpoint s fn userdata).

(** [void ttbc_fire_checkpoint(int checkpoint_id)] *)
Definition ttbc_fire_checkpoint (checkpoint_id : Z) : M unit :=
  fun s =>
    if negb (tectonic_checkpoint_fn s =? NULL) then
      Returns tt (log s (ev_checkpoint (tectonic_checkpoint_fn s)
                           (tectonic_checkpoint_userdata s) checkpoint_id))
    else Returns tt s.

(** [NORETURN int _tt_abort(const char *format, ...)] *)
Definition _tt_abort (format : string) (args : list printf_arg) : M Z :=
  vsnprintf_format_buf format args ;;
  fun s => longjmp (jump_buffer s) 1 s.

(** [const char *_ttbc_get_error_message(void)] *)
Definition _ttbc_get_error_message : M object := ret obj_format_buf.

(** [jmp_buf *ttbc_global_engine_enter(void)] *)
Definition ttbc_global_engine_enter : M object := ret obj_jump_buffer.

(** [void ttbc_global_engine_exit(void)] *)
Definition ttbc_global_engine_exit : M unit := ret tt.

(** [void *xcalloc(size_t nelem, size_t elsize)] *)
Definition xcalloc (nelem elsize : Z) : M ptr :=
  new_mem <- (fun s =>
    let n := if negb (nelem =? 0) then nelem else 1 in
    let e := if negb (elsize =? 0) then elsize else 1 in
    Returns (calloc (trace s) n e) (log s (ev_calloc n e))) ;;
  (if new_mem =? NULL then
     _tt_abort "xcalloc request for %lu elements of size %lu failed"
       [arg_ulong nelem; arg_ulong elsize] ;; ret tt
   else ret tt) ;;
  ret new_mem.

(** [void *xmalloc(size_t size)] *)
Definition xmalloc (size : Z) : M ptr :=
  new_mem <- (fun s =>
    let n := if negb (size =? 0) then size else 1 in
    Returns (malloc (trace s) n) (log s (ev_malloc n))) ;;
  (if new_mem =? NULL then
     _tt_abort "xmalloc request for %lu bytes failed" [arg_ulong size] ;;
     ret tt
   else ret tt) ;;
  ret new_mem.

(** [void *xrealloc(void *old_ptr, size_t size)] *)
Definition xrealloc (old_ptr : ptr) (size : Z) : M ptr :=
  if old_ptr =? NULL then xmalloc size
  else
    new_mem <- (fun s =>
      let n := if negb (size =? 0) then size else 1 in
      Returns (realloc (trace s) old_ptr n) (log s (ev_realloc old_ptr n))) ;;
    (if new_mem =? NULL then
       _tt_abort "xrealloc() to %lu bytes failed" [arg_ulong size] ;; ret tt
     else ret tt) ;;
    ret new_mem.

(** [char *xstrdup(const char *s)]; [s] is the string the argument
    designates. *)
Definition xstrdup (s : list ascii) : M ptr :=
  new_string <- xmalloc (Z.of_nat (length s) + 1) ;;
  fun st => Returns new_string (log st (ev_strcpy new_string s)).

(** [void ttstub_issue_warning(const char *format, ...)] *)
Definition ttstub_issue_warning (format : string) (args : list printf_arg)
  : M unit :=
  vsnprintf_format_buf format args ;;
  fun s => Returns tt (log s (ev_issue_warning (c_str_at s obj_format_buf))).

(** [void ttstub_issue_error(const char *format, ...)] *)
Definition ttstub_issue_error (format : string) (args : list printf_arg)
  : M unit :=
  vsnprintf_format_buf format args ;;
  fun s => Returns tt (log s (ev_issue_error (c_str_at s obj_format_buf))).

(** [int ttstub_fprintf(rust_output_handle_t handle, const char *format, ...)] *)
Definition ttstub_fprintf (handle : ptr) (format : string)
    (args : list printf_arg) : M Z :=
  fun s =>
    let r := vsnprintf (fprintf_buf s) BUF_SIZE (vformat format args)
               (vformat_error format args) in
    let len := snd r in
    let s := with_fprintf_buf s (fst r) in
    let '(len, s) :=
      if Z.of_nat BUF_SIZE <=? len then
        let len := Z.of_nat BUF_SIZE - 1 in
        (len, with_fprintf_buf s (<[Z.to_nat len := NUL]> (fprintf_buf s)))
      else (len, s) in
    let s :=
      if 0 <=? len then
        log s (ev_output_write handle
                 (take (Z.to_nat len) (fprintf_buf s)) len)
      else s in
    Returns len s.

(** [time_t ttstub_input_get_mtime(rust_input_handle_t handle)] *)
Definition ttstub_input_get_mtime (handle : ptr) : M Z :=
  fun s =>
    let ti := ttbc_input_get_mtime (trace s) handle in
    Returns ti (log s (ev_input_get_mtime handle)).

(** [size_t ttstub_input_seek(rust_input_handle_t handle, ssize_t offset, int whence)] *)
Definition ttstub_input_seek (handle : ptr) (offset whence : Z) : M Z :=
  fun s =>
    let '(rv, internal_error) :=
      ttbc_input_seek (trace s) handle offset whence in
    let s := log s (ev_input_seek handle offset whence) in
    if negb (internal_error =? 0) then longjmp (jump_buffer s) 1 s
    else Returns rv s.

(** [int ttstub_input_close(rust_input_handle_t handle)] *)
Definition ttstub_input_close (handle : ptr) : M Z :=
  fun s =>
    let r := ttbc_input_close (trace s) handle in
    let s := log s (ev_input_close handle) in
    if negb (r =? 0) then longjmp (jump_buffer s) 1 s
    else Returns 0 s.

(** *** The protected region

    The header [tectonic_bridge_core.h] prescribes how the global state
    functions are used:
<<
    int myentrypoint(void)
    {
        if (setjmp( *ttbc_global_engine_enter() )) {
            ttbc_global_engine_exit();
            return MY_FATAL_ABORT_CODE;
        }
        my_result_code = my_main_implementation();
        ttbc_global_engine_exit();
        return my_result_code;
    }
>>
    [setjmp] saves a fresh control point in the [jmp_buf] it is given and
    returns 0; a [longjmp] through a [jmp_buf] that holds this control
    point makes it return a second time, with a nonzero value. *)

Definition setjmp_at (p : object) (s : state) : state :=
  match p with
  | obj_jump_buffer => with_saved_context s
  | _ => s
  end.

Definition setjmp_region {A} (body : M A) (s : state) : observation A :=
  match ttbc_global_engine_enter s with
  | Returns p s0 =>
      let saved := Some (setjmp_count s0) in
      match body (setjmp_at p s0) with
      | Returns a s1 => Completed a s1
      | Longjmp env val s1 =>
          if decide (env = saved)
          then Diverted (if val =? 0 then 1 else val) s1
          else Escaped env val s1
      end
  | Longjmp env val s0 => Escaped env val s0
  end.

Definition myentrypoint (MY_FATAL_ABORT_CODE : Z)
    (my_main_implementation : M Z) : M Z :=
  fun s =>
    match setjmp_region my_main_implementation s with
    | Diverted _ s1 => (ttbc_global_engine_exit ;; ret MY_FATAL_ABORT_CODE) s1
    | Completed my_result_code s1 =>
        (ttbc_global_engine_exit ;; ret my_result_code) s1
    | Escaped env val s1 => Longjmp env val s1
    end.

(** *** Client code: sequences of calls into [support.c] *)
Inductive call : Type :=
| call_xcalloc (nelem elsize : Z)
| call_xmalloc (size : Z)
| call_xrealloc (old_ptr : ptr) (size : Z)
| call_xstrdup (s : list ascii)
| call_diag_printf (diag : ptr) (format : string) (args : list printf_arg)
| call_set_checkpoint_callback (fn userdata : ptr)
| call_fire_checkpoint (checkpoint_id : Z)
| call_tt_abort (format : string) (args : list printf_arg)
| call_get_error_message
| call_global_engine_enter
| call_global_engine_exit
| call_issue_warning (format : string) (args : list printf_arg)
| call_issue_error (format : string) (args : list printf_arg)
| call_fprintf (handle : ptr) (format : string) (args : list printf_arg)
| call_input_get_mtime (handle : ptr)
| call_input_seek (handle : ptr) (offset whence : Z)
| call_input_close (handle : ptr).

Inductive value : Type :=
| v_void
| v_int (z : Z)
| v_addr (p : object).

Definition perform (c : call) : M value :=
  match c with
  | call_xcalloc nelem elsize => r <- xcalloc nelem elsize ;; ret (v_int r)
  | call_xmalloc size => r <- xmalloc size ;; ret (v_int r)
  | call_xrealloc old_ptr size => r <- xrealloc old_ptr size ;; ret (v_int r)
  | call_xstrdup s => r <- xstrdup s ;; ret (v_int r)
  | call_diag_printf diag format args =>
      ttstub_diag_printf diag format args ;; ret v_void
  | call_set_checkpoint_callback fn userdata =>
      ttbc_set_checkpoint_callback fn userdata ;; ret v_void
  | call_fire_checkpoint checkpoint_id =>
      ttbc_fire_checkpoint checkpoint_id ;; ret v_void
  | call_tt_abort format args => r <- _tt_abort format args ;; ret (v_int r)
  | call_get_error_message => p <- _ttbc_get_error_message ;; ret (v_addr p)
  | call_global_engine_enter => p <- ttbc_global_engine_enter ;; ret (v_addr p)
  | call_global_engine_exit => ttbc_global_engine_exit ;; ret v_void
  | call_issue_warning format args =>
      ttstub_issue_warning format args ;; ret v_void
  | call_issue_error format args =>
      ttstub_issue_error format args ;; ret v_void
  | call_fprintf handle format args =>
      r <- ttstub_fprintf handle format args ;; ret (v_int r)
  | call_input_get_mtime handle =>
      r <- ttstub_input_get_mtime handle ;; ret (v_int r)
  | call_input_seek handle offset whence =>
      r <- ttstub_input_seek handle offset whence ;; ret (v_int r)
  | call_input_close handle => r <- ttstub_input_close handle ;; ret (v_int r)
  end.

(** A client makes one call after the other; each result may decide
    what it does next. *)
Inductive prog : Type :=
| p_return (r : Z)
| p_call (c : call) (k : value -> prog).

Fixpoint exec (p : prog) : M Z :=
  match p with
  | p_return r => ret r
  | p_call c k => fun s =>
      match perform c s with
      | Returns v s1 => exec (k v) s1
      | Longjmp env val s1 => Longjmp env val s1
      end
  end.

(** The calls a client makes when started in [s], in order. *)
Fixpoint performed (p : prog) (s : state) : list call :=
  match p with
  | p_return _ => []
  | p_call c k =>
      c :: match perform c s with
           | Returns v s1 => performed (k v) s1
           | Longjmp _ _ _ => []
           end
  end.

(** The functions whose body formats into [format_buf]. *)
Definition writes_format_buf (c : call) : bool :=
  match c with
  | call_tt_abort _ _ | call_issue_warning _ _ | call_issue_error _ _
  | call_diag_printf _ _ _ => true
  | _ => false
  end.

Definition is_abort (c : call) : bool :=
  match c with call_tt_abort _ _ => true | _ => false end.



End WithHost.

(** *** A printf conversion for the directives the messages use

    [%d], [%lu], [%s] and [%%], as the C library converts them.  A
    directive without a matching argument converts to nothing. *)
Definition decimal (z : Z) : list ascii :=
  list_ascii_of_string (NilZero.string_of_int (Z.to_int z)).

Fixpoint printf_convert (format : list ascii) (args : list printf_arg)
  : list ascii :=
  match format with
  | [] => []
  | "%"%char :: "%"%char :: rest => "%"%char :: printf_convert rest args
  | "%"%char :: "d"%char :: rest =>
      match args with
      | arg_int z :: args' => decimal z ++ printf_convert rest args'
      | _ => printf_convert rest args
      end
  | "%"%char :: "l"%char :: "u"%char :: rest =>
      match args with
      | arg_ulong z :: args' => decimal z ++ printf_convert rest args'
      | _ => printf_convert rest args
      end
  | "%"%char :: "s"%char :: rest =>
      match args with
      | arg_str t :: args' => c_str t ++ printf_convert rest args'
      | _ => printf_convert rest args
      end
  | c :: rest => c :: printf_convert rest args
  end.

(** A host whose bridge always succeeds, and one whose input functions
    always report an error; both allocate at address 4096. *)
Definition quiet_host : Host :=
  {| vformat := fun format args =>
       printf_convert (list_ascii_of_string format) args;
     vformat_error := fun _ _ => false;
     ttbc_input_get_mtime := fun _ _ => 0;
     ttbc_input_seek := fun _ _ offset _ => (offset, 0);
     ttbc_input_close := fun _ _ => 0;
     malloc := fun _ _ => 4096;
     calloc := fun _ _ _ => 4096;
     realloc := fun _ _ _ => 4096 |}.

Definition failing_host : Host :=
  {| vformat := fun format args =>
       printf_convert (list_ascii_of_string format) args;
     vformat_error := fun _ _ => false;
     ttbc_input_get_mtime := fun _ _ => 0;
     ttbc_input_seek := fun _ _ _ _ => (0, 1);
     ttbc_input_close := fun _ _ => 1;
     malloc := fun _ _ => 4096;
     calloc := fun _ _ _ => 4096;
     realloc := fun _ _ _ => 4096 |}.

(** A host whose printf conversions fail before producing anything. *)
Definition garbling_host : Host :=
  {| vformat := fun _ _ => [];
     vformat_error := fun _ _ => true;
     ttbc_input_get_mtime := fun _ _ => 0;
     ttbc_input_seek := fun _ _ offset _ => (offset, 0);
     ttbc_input_close := fun _ _ => 0;
     malloc := fun _ _ => 4096;
     calloc := fun _ _ _ => 4096;
     realloc := fun _ _ _ => 4096 |}.


Fixpoint exit_times (n : nat) : M unit :=
  match n with
  | O => ret tt
  | S n' => ttbc_global_engine_exit ;; exit_times n'
  end.

(** Two small clients: one issues a warning, one closes an input. *)
Definition warning_region : prog :=
  p_call (call_issue_warning "late" []) (fun _ => p_return 0).

Definition close_region : prog :=
  p_call (call_input_close 5) (fun _ => p_return 0).

(** A region that runs a whole region of its own, as the header
    prescribes it, and then aborts: when it aborts, the region entered
    last has exited and the outer one has not. *)
Definition nested_abort `{Host} : M Z :=
  myentrypoint 7 (exec (p_return 0)) ;;
  _tt_abort "fatal" [].

End Support.

(** ** Sequences of calls into the wasm runtime *)
Module SjljOps.
Import Sjlj.

(** One call of the runtime, as the generated code makes it. *)
Inductive op : Type :=
| op_setjmp (env : ptr) (l : Z) (id : ptr)
| op_setjmp_test (env : ptr) (id : ptr)
| op_longjmp (env : ptr) (val : Z).

Definition op_env (o : op) : ptr :=
  match o with
  | op_setjmp env _ _ | op_setjmp_test env _ | op_longjmp env _ => env
  end.

(** The memory a call leaves behind for the code that runs next: the
    caller after a return, a catch after a throw.  Nothing runs after a
    trap or a fault. *)
Definition memory_after {A} (r : result A) : option memory :=
  match r with
  | Returned _ m | Thrown _ _ m => Some m
  | Trapped | Fault => None
  end.

Definition step (o : op) (m : memory) : option memory :=
  match o with
  | op_setjmp env l id => memory_after (__wasm_setjmp m env l id)
  | op_setjmp_test env id => memory_after (__wasm_setjmp_test m env id)
  | op_longjmp env val => memory_after (__wasm_longjmp m env val)
  end.

Fixpoint run (ops : list op) (m : memory) : option memory :=
  match ops with
  | [] => Some m
  | o :: rest => m1 ← step o m; run rest m1
  end.

End SjljOps.

(** ** Sessions of protected regions *)
Module Sessions.
Import Support.
Local Open Scope c_scope.

Section WithHost.
Context `{Host}.

(** One protected region after the other, each around its own client;
    the results of the regions are collected in order. *)
Fixpoint session (MY_FATAL_ABORT_CODE : Z) (bodies : list prog)
  : M (list Z) :=
  match bodies with
  | [] => ret []
  | body :: rest =>
      r <- myentrypoint MY_FATAL_ABORT_CODE (exec body) ;;
      rs <- session MY_FATAL_ABORT_CODE rest ;;
      ret (r :: rs)
  end.

(** What a session does, region by region: [rs] are the results and
    [s1] the final state of the regions [bodies] run from [s] when each
    body is run once, in order, from the state the region before it
    left and with its own, fresh control point, and gives its result
    or, when it jumps to that control point, the abort code. *)
Fixpoint regions_ran (MY_FATAL_ABORT_CODE : Z) (bodies : list prog)
    (s : state) (rs : list Z) (s1 : state) : Prop :=
  match bodies, rs with
  | [], [] => s1 = s
  | body :: rest, r :: rs' =>
      exists s0,
        (exec body (setjmp_at obj_jump_buffer s) = Returns r s0 \/
         (r = MY_FATAL_ABORT_CODE /\
          exec body (setjmp_at obj_jump_buffer s)
            = Longjmp (Some (setjmp_count s)) 1 s0)) /\
        regions_ran MY_FATAL_ABORT_CODE rest s0 rs' s1
  | _, _ => False
  end.

End WithHost.

(** Both buffers have their declared size and hold a terminator. *)
Definition buffers_ok (s : state) : Prop :=
  length (format_buf s) = BUF_SIZE /\ NUL ∈ format_buf s /\
  length (fprintf_buf s) = BUF_SIZE /\ NUL ∈ fprintf_buf s.

(** A host whose allocator is exhausted. *)
Definition exhausted_host : Host :=
  {| vformat := fun format args =>
       printf_convert (list_ascii_of_string format) args;
     vformat_error := fun _ _ => false;
     ttbc_input_get_mtime := fun _ _ => 0;
     ttbc_input_seek := fun _ _ offset _ => (offset, 0);
     ttbc_input_close := fun _ _ => 0;
     malloc := fun _ _ => NULL;
     calloc := fun _ _ _ => NULL;
     realloc := fun _ _ _ => NULL |}.

End Sessions.

(** ** The public operations of both layers *)
Module Subsystem.
Import Support.

(** The operations the subsystem offers: the three entry points of the
    wasm runtime, and the functions of [support.c], among them [Abort]
    ([call_tt_abort]), [Enter], [Exit], [GetLastErrorMessage] and the
    checkpoint functions. *)
Inductive operation : Type :=
| Mark (env : ptr) (label : Z) (token : ptr)     (* __wasm_setjmp *)
| Test (env : ptr) (token : ptr)                 (* __wasm_setjmp_test *)
| Transfer (env : ptr) (value : Z)               (* __wasm_longjmp *)
| Channel (c : call).

(** The objects the operations work on. *)
Record machine : Type := mk_machine {
  jmp_bufs : Sjlj.memory;
  channel : Support.state
}.

(** How an operation ends, for its caller. *)
Inductive ending : Type :=
| Returns_normally (m : machine)
| Traps                              (* __builtin_trap() *)
| Faults                             (* [env] designates no jmp_buf *)
| Throws (tag : Z) (payload : ptr) (m : machine)
                                     (* the exception of [__wasm_longjmp] *)
| Diverts (env : jmp_buf) (val : Z) (m : machine).
                                     (* [longjmp(jump_buffer, val)] *)

Definition of_runtime {A} (s : Support.state) (r : Sjlj.result A) : ending :=
  match r with
  | Sjlj.Returned _ m => Returns_normally (mk_machine m s)
  | Sjlj.Trapped => Traps
  | Sjlj.Thrown tag payload m => Throws tag payload (mk_machine m s)
  | Sjlj.Fault => Faults
  end.

Definition of_channel {A} (m : Sjlj.memory) (r : Support.outcome A) : ending :=
  match r with
  | Returns _ s => Returns_normally (mk_machine m s)
  | Longjmp env val s => Diverts env val (mk_machine m s)
  end.

Definition run `{Host} (o : operation) (m : machine) : ending :=
  match o with
  | Mark env label token =>
      of_runtime (channel m) (Sjlj.__wasm_setjmp (jmp_bufs m) env label token)
  | Test env token =>
      of_runtime (channel m) (Sjlj.__wasm_setjmp_test (jmp_bufs m) env token)
  | Transfer env value =>
      of_runtime (channel m) (Sjlj.__wasm_longjmp (jmp_bufs m) env value)
  | Channel c => of_channel (jmp_bufs m) (perform c (channel m))
  end.


End Subsystem.

(** ** FreeType and HarfBuzz set-up ([layout.c]) *)
Module Layout.
Import Support.

(** The line feed that ends the messages written to [stderr]. *)
Definition LF : string := String (ascii_of_nat 10) EmptyString.

(** The file kinds [initialize_ft] asks the bridge for. *)
Inductive file_format : Type :=
| TTBC_FILE_FORMAT_OPEN_TYPE
| TTBC_FILE_FORMAT_TRUE_TYPE
| TTBC_FILE_FORMAT_TYPE1
| TTBC_FILE_FORMAT_AFM.

Inductive sfnt_tag : Type := FT_SFNT_POST | FT_SFNT_OS2.

(** The callbacks [get_font_funcs] installs. *)
Inductive font_func : Type :=
| nominal_glyph_func | variation_glyph_func
| glyph_h_advance_func | glyph_v_advance_func
| glyph_h_origin_func | glyph_v_origin_func
| glyph_h_kerning_func | glyph_extents_func
| glyph_contour_point_func | glyph_name_func.

(** Calls that leave [layout.c], in call order and with what they
    answered: the C library, FreeType, HarfBuzz and the bridge functions
    it calls directly.  ([ttstub_input_close] is the function of
    [support.c]; its bridge call is recorded there.) *)
Inductive lib_event : Type :=
| ev_FT_Init_FreeType (err : Z) (stored : option ptr)
| ev_FT_Done_FreeType (lib : ptr)
| ev_stderr (format : string) (args : list printf_arg)
| ev_input_open (path : list ascii) (format : file_format) (is_gz : Z)
    (handle : ptr)
| ev_input_get_size (handle : ptr) (size : Z)
| ev_input_read (handle : ptr) (data : ptr) (len : Z) (nread : Z)
| ev_malloc (size : Z) (p : ptr)
| ev_free (p : ptr)
| ev_strdup (s : list ascii) (p : ptr)
| ev_FT_New_Memory_Face (lib : ptr) (data : ptr) (size : Z) (face_index : Z)
    (err : Z) (stored : option ptr)
| ev_FT_Done_Face (face : ptr)
| ev_FT_Attach_Stream (face : ptr) (memory_base : ptr) (memory_size : Z)
| ev_FT_Get_Sfnt_Table (face : ptr) (tag : sfnt_tag) (table : ptr)
| ev_FT_Load_Sfnt_Table (face : ptr) (tag : Z) (buffer : ptr) (length : Z)
    (err : Z) (length_out : Z)
| ev_store_hb_face_data (hb_data : ptr) (face : ptr)
| ev_hb_face_create_for_tables (user_data : ptr) (hb_face : ptr)
| ev_hb_face_set_index (hb_face : ptr) (face_index : Z)
| ev_hb_face_set_upem (hb_face : ptr) (upem : Z)
| ev_hb_font_create (hb_face : ptr) (hb_font : ptr)
| ev_hb_face_destroy (hb_face : ptr)
| ev_hb_font_funcs_create (funcs : ptr)
| ev_hb_font_funcs_set (funcs : ptr) (which : font_func)
| ev_hb_font_funcs_make_immutable (funcs : ptr)
| ev_hb_font_set_funcs (hb_font : ptr) (funcs : ptr) (font_data : ptr)
| ev_hb_font_set_user_data (hb_font : ptr) (data : ptr)
| ev_hb_font_set_scale (hb_font : ptr) (x_scale y_scale : Z)
| ev_hb_font_set_ppem (hb_font : ptr) (x_ppem y_ppem : Z).

(** What the libraries answer, as a function of the calls made so far.
    A call that stores through a pointer argument answers with the value
    it stores, if it stores one.  Single-precision arithmetic is not
    interpreted: [float] is any type, and the two conversions the code
    computes in floating point are functions into it.  [to_FT_Long] is
    the conversion from [size_t] to [FT_Long] of the target. *)
Class FontHost (float : Type) : Type := {
  FT_Init_FreeType : list lib_event -> Z * option ptr;
  ttbc_input_open : list lib_event -> list ascii -> file_format -> Z -> ptr;
  ttbc_input_get_size : list lib_event -> ptr -> Z;
  ttbc_input_read : list lib_event -> ptr -> ptr -> Z -> Z;
  libc_malloc : list lib_event -> Z -> ptr;
  libc_strdup : list lib_event -> list ascii -> ptr;
  FT_New_Memory_Face :
    list lib_event -> ptr -> ptr -> Z -> Z -> Z * option ptr;
  FT_IS_SCALABLE : list lib_event -> ptr -> bool;
  FT_IS_SFNT : list lib_event -> ptr -> bool;
  face_units_per_EM : list lib_event -> ptr -> Z;
  face_ascender : list lib_event -> ptr -> Z;
  face_descender : list lib_event -> ptr -> Z;
  FT_Get_Sfnt_Table : list lib_event -> ptr -> sfnt_tag -> ptr;
  post_italicAngle : list lib_event -> ptr -> Z;
  os2_sCapHeight : list lib_event -> ptr -> Z;
  os2_sxHeight : list lib_event -> ptr -> Z;
  FT_Load_Sfnt_Table :
    list lib_event -> ptr -> Z -> ptr -> Z -> Z * Z;  (* error, *length *)
  hb_face_create_for_tables : list lib_event -> ptr -> ptr;
  hb_font_create : list lib_event -> ptr -> ptr;
  hb_font_funcs_create : list lib_event -> ptr;
  sizeof_hb_face_data : Z;
  to_FT_Long : Z -> Z;
  (* (float)font_units_to_points(f, (double)units), from point_size,
     units and units_per_em *)
  units_to_points : float -> Z -> Z -> float;
  (* (float)fix_to_d((Fixed)f) *)
  fixed_to_float : Z -> float
}.

Section WithHosts.
Context {float : Type}.

(** [struct XeTeXFont_rec] *)
Record XeTeXFont_rec : Type := mk_font {
  units_per_em : Z;       (* uint16_t *)
  point_size : float;
  ascent : float;
  descent : float;
  cap_height : float;
  x_height : float;
  italic_angle : float;
  vertical : Z;
  filename : ptr;         (* char * *)
  index : Z;              (* uint32_t *)
  ft_face : ptr;
  hb_font : ptr;
  font_data : ptr;
  font_data_size : Z
}.

(** The objects of [support.c], the file-scope objects of [layout.c],
    the font record the [font] argument designates, and the calls made
    so far. *)
Record world : Type := mk_world {
  support : Support.state;
  ft_lib : ptr;
  ft_face_count : Z;              (* int *)
  ft_lib_shutdown_pending : Z;    (* int *)
  custom_font_funcs : ptr;
  font : XeTeXFont_rec;
  calls : list lib_event
}.

Definition font_with_units_per_em (f : XeTeXFont_rec) (v : Z) : XeTeXFont_rec :=
  {| units_per_em := v; point_size := point_size f; ascent := ascent f;
     descent := descent f; cap_height := cap_height f;
     x_height := x_height f; italic_angle := italic_angle f;
     vertical := vertical f; filename := filename f; index := index f;
     ft_face := ft_face f; hb_font := hb_font f; font_data := font_data f;
     font_data_size := font_data_size f |}.

Definition font_with_ascent (f : XeTeXFont_rec) (v : float) : XeTeXFont_rec :=
  {| units_per_em := units_per_em f; point_size := point_size f;
     ascent := v; descent := descent f; cap_height := cap_height f;
     x_height := x_height f; italic_angle := italic_angle f;
     vertical := vertical f; filename := filename f; index := index f;
     ft_face := ft_face f; hb_font := hb_font f; font_data := font_data f;
     font_data_size := font_data_size f |}.

Definition font_with_descent (f : XeTeXFont_rec) (v : float) : XeTeXFont_rec :=
  {| units_per_em := units_per_em f; point_size := point_size f;
     ascent := ascent f; descent := v; cap_height := cap_height f;
     x_height := x_height f; italic_angle := italic_angle f;
     vertical := vertical f; filename := filename f; index := index f;
     ft_face := ft_face f; hb_font := hb_font f; font_data := font_data f;
     font_data_size := font_data_size f |}.

Definition font_with_cap_height (f : XeTeXFont_rec) (v : float) : XeTeXFont_rec :=
  {| units_per_em := units_per_em f; point_size := point_size f;
     ascent := ascent f; descent := descent f; cap_height := v;
     x_height := x_height f; italic_angle := italic_angle f;
     vertical := vertical f; filename := filename f; index := index f;
     ft_face := ft_face f; hb_font := hb_font f; font_data := font_data f;
     font_data_size := font_data_size f |}.

Definition font_with_x_height (f : XeTeXFont_rec) (v : float) : XeTeXFont_rec :=
  {| units_per_em := units_per_em f; point_size := point_size f;
     ascent := ascent f; descent := descent f; cap_height := cap_height f;
     x_height := v; italic_angle := italic_angle f; vertical := vertical f;
     filename := filename f; index := index f; ft_face := ft_face f;
     hb_font := hb_font f; font_data := font_data f;
     font_data_size := font_data_size f |}.

Definition font_with_italic_angle (f : XeTeXFont_rec) (v : float) : XeTeXFont_rec :=
  {| units_per_em := units_per_em f; point_size := point_size f;
     ascent := ascent f; descent := descent f; cap_height := cap_height f;
     x_height := x_height f; italic_angle := v; vertical := vertical f;
     filename := filename f; index := index f; ft_face := ft_face f;
     hb_font := hb_font f; font_data := font_data f;
     font_data_size := font_data_size f |}.

Definition font_with_filename (f : XeTeXFont_rec) (v : ptr) : XeTeXFont_rec :=
  {| units_per_em := units_per_em f; point_size := point_size f;
     ascent := ascent f; descent := descent f; cap_height := cap_height f;
     x_height := x_height f; italic_angle := italic_angle f;
     vertical := vertical f; filename := v; index := index f;
     ft_face := ft_face f; hb_font := hb_font f; font_data := font_data f;
     font_data_size := font_data_size f |}.

Definition font_with_index (f : XeTeXFont_rec) (v : Z) : XeTeXFont_rec :=
  {| units_per_em := units_per_em f; point_size := point_size f;
     ascent := ascent f; descent := descent f; cap_height := cap_height f;
     x_height := x_height f; italic_angle := italic_angle f;
     vertical := vertical f; filename := filename f; index := v;
     ft_face := ft_face f; hb_font := hb_font f; font_data := font_data f;
     font_data_size := font_data_size f |}.

Definition font_with_ft_face (f : XeTeXFont_rec) (v : ptr) : XeTeXFont_rec :=
  {| units_per_em := units_per_em f; point_size := point_size f;
     ascent := ascent f; descent := descent f; cap_height := cap_height f;
     x_height := x_height f; italic_angle := italic_angle f;
     vertical := vertical f; filename := filename f; index := index f;
     ft_face := v; hb_font := hb_font f; font_data := font_data f;
     font_data_size := font_data_size f |}.

Definition font_with_hb_font (f : XeTeXFont_rec) (v : ptr) : XeTeXFont_rec :=
  {| units_per_em := units_per_em f; point_size := point_size f;
     ascent := ascent f; descent := descent f; cap_height := cap_height f;
     x_height := x_height f; italic_angle := italic_angle f;
     vertical := vertical f; filename := filename f; index := index f;
     ft_face := ft_face f; hb_font := v; font_data := font_data f;
     font_data_size := font_data_size f |}.

Definition font_with_font_data (f : XeTeXFont_rec) (v : ptr) : XeTeXFont_rec :=
  {| units_per_em := units_per_em f; point_size := point_size f;
     ascent := ascent f; descent := descent f; cap_height := cap_height f;
     x_height := x_height f; italic_angle := italic_angle f;
     vertical := vertical f; filename := filename f; index := index f;
     ft_face := ft_face f; hb_font := hb_font f; font_data := v;
     font_data_size := font_data_size f |}.

Definition font_with_font_data_size (f : XeTeXFont_rec) (v : Z) : XeTeXFont_rec :=
  {| units_per_em := units_per_em f; point_size := point_size f;
     ascent := ascent f; descent := descent f; cap_height := cap_height f;
     x_height := x_height f; italic_angle := italic_angle f;
     vertical := vertical f; filename := filename f; index := index f;
     ft_face := ft_face f; hb_font := hb_font f; font_data := font_data f;
     font_data_size := v |}.

Definition with_support (w : world) (v : Support.state) : world :=
  {| support := v; ft_lib := ft_lib w; ft_face_count := ft_face_count w;
     ft_lib_shutdown_pending := ft_lib_shutdown_pending w;
     custom_font_funcs := custom_font_funcs w; font := font w;
     calls := calls w |}.

Definition with_ft_lib (w : world) (v : ptr) : world :=
  {| support := support w; ft_lib := v; ft_face_count := ft_face_count w;
     ft_lib_shutdown_pending := ft_lib_shutdown_pending w;
     custom_font_funcs := custom_font_funcs w; font := font w;
     calls := calls w |}.

Definition with_ft_face_count (w : world) (v : Z) : world :=
  {| support := support w; ft_lib := ft_lib w; ft_face_count := v;
     ft_lib_shutdown_pending := ft_lib_shutdown_pending w;
     custom_font_funcs := custom_font_funcs w; font := font w;
     calls := calls w |}.

Definition with_ft_lib_shutdown_pending (w : world) (v : Z) : world :=
  {| support := support w; ft_lib := ft_lib w;
     ft_face_count := ft_face_count w; ft_lib_shutdown_pending := v;
     custom_font_funcs := custom_font_funcs w; font := font w;
     calls := calls w |}.

Definition with_custom_font_funcs (w : world) (v : ptr) : world :=
  {| support := support w; ft_lib := ft_lib w;
     ft_face_count := ft_face_count w;
     ft_lib_shutdown_pending := ft_lib_shutdown_pending w;
     custom_font_funcs := v; font := font w; calls := calls w |}.

Definition with_font (w : world) (v : XeTeXFont_rec) : world :=
  {| support := support w; ft_lib := ft_lib w;
     ft_face_count := ft_face_count w;
     ft_lib_shutdown_pending := ft_lib_shutdown_pending w;
     custom_font_funcs := custom_font_funcs w; font := v;
     calls := calls w |}.

Definition called (w : world) (e : lib_event) : world :=
  {| support := support w; ft_lib := ft_lib w;
     ft_face_count := ft_face_count w;
     ft_lib_shutdown_pending := ft_lib_shutdown_pending w;
     custom_font_funcs := custom_font_funcs w; font := font w;
     calls := calls w ++ [e] |}.

(** Normal return, or a [longjmp] out of [ttstub_input_close]. *)
Inductive result (A : Type) : Type :=
| Ret (a : A) (w : world)
| Jump (env : jmp_buf) (val : Z) (w : world).

End WithHosts.
Arguments XeTeXFont_rec float : clear implicits.
Arguments world float : clear implicits.
Arguments result float A : clear implicits.
Arguments Ret {float A} a w.
Arguments Jump {float A} env val w.

(** The blob [hb_reference_table_func] returns, by the call that makes
    it: [hb_blob_get_empty()], or [hb_blob_create(data, length,
    HB_MEMORY_MODE_WRITABLE, user_data, free)]. *)
Inductive hb_blob : Type :=
| hb_blob_get_empty
| hb_blob_create_writable_free (data : ptr) (length : Z) (user_data : ptr).

(** [strrchr(s, c)] for a character other than NUL: the position of the
    last [c] in [s]. *)
Fixpoint strrchr (s : list ascii) (c : ascii) : option nat :=
  match s with
  | [] => None
  | x :: rest =>
      match strrchr rest c with
      | Some i => Some (S i)
      | None => if Ascii.eqb x c then Some O else None
      end
  end.

(** The name [initialize_ft] builds in [afm_name]:
    [strcpy(afm_name, pathname)], then [".afm"] copied over the last
    dot, or appended when there is none. *)
Definition afm_name_of (pathname : list ascii) : list ascii :=
  match strrchr pathname "."%char with
  | Some dot => take dot pathname ++ list_ascii_of_string ".afm"
  | None => pathname ++ list_ascii_of_string ".afm"
  end.

Declare Scope l_scope.
Delimit Scope l_scope with L.

Section Functions.
Context {float : Type} `{Host} `{FontHost float}.

Definition LM (A : Type) : Type := world float -> result float A.

Definition lret {A} (a : A) : LM A := fun w => Ret a w.

Definition lbind {A B} (c : LM A) (k : A -> LM B) : LM B :=
  fun w => match c w with
           | Ret a w1 => k a w1
           | Jump env val w1 => Jump env val w1
           end.

Notation "x <- c ;; k" := (lbind c (fun x => k))
  (at level 100, c at next level, right associativity) : l_scope.
Notation "c ;; k" := (lbind c (fun _ => k))
  (at level 100, right associativity) : l_scope.
Local Open Scope l_scope.

(** A call of a library function: it answers from the calls made so
    far, and is recorded with its answer. *)
Definition ask {A} (answer : list lib_event -> A) (e : A -> lib_event)
  : LM A :=
  fun w => let a := answer (calls w) in Ret a (called w (e a)).

Definition tell (e : lib_event) : LM unit := fun w => Ret tt (called w e).

Definition get {A} (f : world float -> A) : LM A := fun w => Ret (f w) w.

Definition modify (f : world float -> world float) : LM unit :=
  fun w => Ret tt (f w).

Definition set_font (f : XeTeXFont_rec float -> XeTeXFont_rec float)
  : LM unit :=
  modify (fun w => with_font w (f (font w))).

(** A call of a function of [support.c]. *)
Definition support_call {A} (c : Support.M A) : LM A :=
  fun w => match c (support w) with
           | Returns a s => Ret a (with_support w s)
           | Longjmp env val s => Jump env val (with_support w s)
           end.

(** [FT_Library get_ft_library(void)] *)
Definition get_ft_library : LM ptr :=
  lib <- get ft_lib ;;
  if negb (lib =? NULL) then get ft_lib
  else
    r <- ask FT_Init_FreeType
           (fun r => ev_FT_Init_FreeType (fst r) (snd r)) ;;
    match snd r with
    | Some stored => modify (fun w => with_ft_lib w stored)
    | None => lret tt
    end ;;
    let err := fst r in
    if negb (err =? 0) then
      tell (ev_stderr ("xetex_layout: FT_Init_FreeType failed: %d" ++ LF)
              [arg_int err]) ;;
      lret NULL
    else get ft_lib.

(** [void maybe_shutdown_ft(void)] *)
Definition maybe_shutdown_ft : LM unit :=
  fun w =>
    if negb (ft_lib_shutdown_pending w =? 0) && (ft_face_count w =? 0)
       && negb (ft_lib w =? NULL)
    then
      (tell (ev_FT_Done_FreeType (ft_lib w)) ;;
       modify (fun w => with_ft_lib w NULL) ;;
       modify (fun w => with_ft_lib_shutdown_pending w 0)) w
    else Ret tt w.

(** [static hb_font_funcs_t *get_font_funcs(void)] *)
Definition get_font_funcs : LM ptr :=
  funcs <- get custom_font_funcs ;;
  (if negb (funcs =? NULL) then lret tt
   else
     created <- ask hb_font_funcs_create ev_hb_font_funcs_create ;;
     modify (fun w => with_custom_font_funcs w created) ;;
     tell (ev_hb_font_funcs_set created nominal_glyph_func) ;;
     tell (ev_hb_font_funcs_set created variation_glyph_func) ;;
     tell (ev_hb_font_funcs_set created glyph_h_advance_func) ;;
     tell (ev_hb_font_funcs_set created glyph_v_advance_func) ;;
     tell (ev_hb_font_funcs_set created glyph_h_origin_func) ;;
     tell (ev_hb_font_funcs_set created glyph_v_origin_func) ;;
     tell (ev_hb_font_funcs_set created glyph_h_kerning_func) ;;
     tell (ev_hb_font_funcs_set created glyph_extents_func) ;;
     tell (ev_hb_font_funcs_set created glyph_contour_point_func) ;;
     tell (ev_hb_font_funcs_set created glyph_name_func) ;;
     tell (ev_hb_font_funcs_make_immutable created)) ;;
  get custom_font_funcs.

(** [static hb_blob_t *hb_reference_table_func(hb_face_t *face,
    hb_tag_t tag, void *user_data)]; [face] is [data->ft_face]. *)
Definition hb_reference_table_func (face : ptr) (tag : Z) : LM hb_blob :=
  r <- ask (fun h => FT_Load_Sfnt_Table h face tag NULL 0)
           (fun r => ev_FT_Load_Sfnt_Table face tag NULL 0 (fst r) (snd r)) ;;
  let err := fst r in
  let length := snd r in
  if negb (err =? 0) || (length =? 0) then lret hb_blob_get_empty
  else
    buffer <- ask (fun h => libc_malloc h length) (ev_malloc length) ;;
    if buffer =? NULL then lret hb_blob_get_empty
    else
      r <- ask (fun h => FT_Load_Sfnt_Table h face tag buffer length)
               (fun r => ev_FT_Load_Sfnt_Table face tag buffer length
                           (fst r) (snd r)) ;;
      let err := fst r in
      let length := snd r in
      if negb (err =? 0) then
        tell (ev_free buffer) ;; lret hb_blob_get_empty
      else lret (hb_blob_create_writable_free buffer length buffer).

(** [int initialize_hb_font(struct XeTeXFont_rec *font)] *)
Definition initialize_hb_font : LM Z :=
  hb_data <- ask (fun h => libc_malloc h sizeof_hb_face_data)
                 (ev_malloc sizeof_hb_face_data) ;;
  if hb_data =? NULL then lret (-1)
  else
    face <- get (fun w => ft_face (font w)) ;;
    tell (ev_store_hb_face_data hb_data face) ;;
    hb_face <- ask (fun h => hb_face_create_for_tables h hb_data)
                   (ev_hb_face_create_for_tables hb_data) ;;
    idx <- get (fun w => index (font w)) ;;
    tell (ev_hb_face_set_index hb_face idx) ;;
    upem <- get (fun w => units_per_em (font w)) ;;
    tell (ev_hb_face_set_upem hb_face upem) ;;
    created <- ask (fun h => hb_font_create h hb_face)
                   (ev_hb_font_create hb_face) ;;
    set_font (fun f => font_with_hb_font f created) ;;
    tell (ev_hb_face_destroy hb_face) ;;
    funcs <- get_font_funcs ;;
    hbf <- get (fun w => hb_font (font w)) ;;
    face <- get (fun w => ft_face (font w)) ;;
    tell (ev_hb_font_set_funcs hbf funcs face) ;;
    tell (ev_hb_font_set_user_data hbf face) ;;
    upem <- get (fun w => units_per_em (font w)) ;;
    tell (ev_hb_font_set_scale hbf upem upem) ;;
    tell (ev_hb_font_set_ppem hbf 0 0) ;;
    lret 0.

(** The block of [initialize_ft] that looks for metrics beside a font
    that is not SFNT ([if (index == 0 && !FT_IS_SFNT(font->ft_face))]). *)
Definition attach_afm (pathname : list ascii) : LM unit :=
  let plen := Z.of_nat (length pathname) in
  afm_name <- ask (fun h => libc_malloc h (plen + 5)) (ev_malloc (plen + 5)) ;;
  if afm_name =? NULL then lret tt
  else
    let name := afm_name_of pathname in
    afm_handle <- ask (fun h => ttbc_input_open h name TTBC_FILE_FORMAT_AFM 0)
                      (ev_input_open name TTBC_FILE_FORMAT_AFM 0) ;;
    (if afm_handle =? NULL then lret tt
     else
       afm_sz <- ask (fun h => ttbc_input_get_size h afm_handle)
                     (ev_input_get_size afm_handle) ;;
       afm_data <- ask (fun h => libc_malloc h afm_sz) (ev_malloc afm_sz) ;;
       (if afm_data =? NULL then lret tt
        else
          afm_nread <- ask (fun h => ttbc_input_read h afm_handle afm_data afm_sz)
                           (ev_input_read afm_handle afm_data afm_sz) ;;
          if 0 <? afm_nread then
            face <- get (fun w => ft_face (font w)) ;;
            tell (ev_FT_Attach_Stream face afm_data (to_FT_Long afm_sz))
          else lret tt) ;;
       support_call (ttstub_input_close afm_handle) ;;
       lret tt) ;;
    tell (ev_free afm_name).

(** The end of [initialize_ft]: the fields read off the face, then
    [initialize_hb_font]. *)
Definition record_metrics (pathname : list ascii) (index_arg : Z) : LM Z :=
  name <- ask (fun h => libc_strdup h pathname) (ev_strdup pathname) ;;
  set_font (fun f => font_with_filename f name) ;;
  set_font (fun f => font_with_index f (index_arg mod 2 ^ 32)) ;;
  face <- get (fun w => ft_face (font w)) ;;
  upem <- get (fun w => face_units_per_EM (calls w) face) ;;
  set_font (fun f => font_with_units_per_em f (upem mod 2 ^ 16)) ;;
  asc <- get (fun w => face_ascender (calls w) face) ;;
  set_font (fun f => font_with_ascent f
                       (units_to_points (point_size f) asc (units_per_em f))) ;;
  desc <- get (fun w => face_descender (calls w) face) ;;
  set_font (fun f => font_with_descent f
                       (units_to_points (point_size f) desc (units_per_em f))) ;;
  post <- ask (fun h => FT_Get_Sfnt_Table h face FT_SFNT_POST)
              (ev_FT_Get_Sfnt_Table face FT_SFNT_POST) ;;
  (if negb (post =? NULL) then
     angle <- get (fun w => post_italicAngle (calls w) post) ;;
     set_font (fun f => font_with_italic_angle f (fixed_to_float angle))
   else lret tt) ;;
  os2 <- ask (fun h => FT_Get_Sfnt_Table h face FT_SFNT_OS2)
             (ev_FT_Get_Sfnt_Table face FT_SFNT_OS2) ;;
  (if negb (os2 =? NULL) then
     cap <- get (fun w => os2_sCapHeight (calls w) os2) ;;
     set_font (fun f => font_with_cap_height f
                          (units_to_points (point_size f) cap
                             (units_per_em f))) ;;
     xh <- get (fun w => os2_sxHeight (calls w) os2) ;;
     set_font (fun f => font_with_x_height f
                          (units_to_points (point_size f) xh (units_per_em f)))
   else lret tt) ;;
  initialize_hb_font.

(** [static int initialize_ft(struct XeTeXFont_rec *font,
    const char *pathname, int index)] *)
Definition initialize_ft (pathname : list ascii) (index_arg : Z) : LM Z :=
  lib <- get_ft_library ;;
  if lib =? NULL then lret (-1)
  else
    handle <- ask (fun h => ttbc_input_open h pathname
                              TTBC_FILE_FORMAT_OPEN_TYPE 0)
                  (ev_input_open pathname TTBC_FILE_FORMAT_OPEN_TYPE 0) ;;
    handle <- (if handle =? NULL then
                 ask (fun h => ttbc_input_open h pathname
                                 TTBC_FILE_FORMAT_TRUE_TYPE 0)
                     (ev_input_open pathname TTBC_FILE_FORMAT_TRUE_TYPE 0)
               else lret handle) ;;
    handle <- (if handle =? NULL then
                 ask (fun h => ttbc_input_open h pathname
                                 TTBC_FILE_FORMAT_TYPE1 0)
                     (ev_input_open pathname TTBC_FILE_FORMAT_TYPE1 0)
               else lret handle) ;;
    if handle =? NULL then
      tell (ev_stderr ("xetex_layout: cannot open font file '%s'" ++ LF)
              [arg_str pathname]) ;;
      lret (-1)
    else
      sz <- ask (fun h => ttbc_input_get_size h handle)
                (ev_input_get_size handle) ;;
      data <- ask (fun h => libc_malloc h sz) (ev_malloc sz) ;;
      if data =? NULL then
        support_call (ttstub_input_close handle) ;;
        lret (-1)
      else
        nread <- ask (fun h => ttbc_input_read h handle data sz)
                     (ev_input_read handle data sz) ;;
        support_call (ttstub_input_close handle) ;;
        if (nread <? 0) || negb (nread =? sz) then
          tell (ev_free data) ;;
          lret (-1)
        else
          set_font (fun f => font_with_font_data f data) ;;
          set_font (fun f => font_with_font_data_size f sz) ;;
          r <- ask (fun h => FT_New_Memory_Face h lib data (to_FT_Long sz)
                               index_arg)
                   (fun r => ev_FT_New_Memory_Face lib data (to_FT_Long sz)
                               index_arg (fst r) (snd r)) ;;
          match snd r with
          | Some face => set_font (fun f => font_with_ft_face f face)
          | None => lret tt
          end ;;
          let err := fst r in
          if negb (err =? 0) then
            tell (ev_stderr
                    ("xetex_layout: FT_New_Memory_Face failed for '%s': %d"
                     ++ LF) [arg_str pathname; arg_int err]) ;;
            tell (ev_free data) ;;
            set_font (fun f => font_with_font_data f NULL) ;;
            lret (-1)
          else
            modify (fun w => with_ft_face_count w (ft_face_count w + 1)) ;;
            face <- get (fun w => ft_face (font w)) ;;
            scalable <- get (fun w => FT_IS_SCALABLE (calls w) face) ;;
            if negb scalable then
              tell (ev_FT_Done_Face face) ;;
              modify (fun w => with_ft_face_count w (ft_face_count w - 1)) ;;
              set_font (fun f => font_with_ft_face f NULL) ;;
              tell (ev_free data) ;;
              set_font (fun f => font_with_font_data f NULL) ;;
              lret (-1)
            else
              sfnt <- get (fun w => FT_IS_SFNT (calls w) face) ;;
              (if (index_arg =? 0) && negb sfnt then attach_afm pathname
               else lret tt) ;;
              record_metrics pathname index_arg.

End Functions.

(** The world a call leaves behind, however it ends. *)
Definition world_of {float A} (r : result float A) : world float :=
  match r with
  | Ret _ w | Jump _ _ w => w
  end.

(** *** Reading a record of calls *)

(** The handles the bridge handed out, and the handles given back to
    [ttstub_input_close]. *)
Definition opened (es : list lib_event) : list ptr :=
  omap (fun e => match e with
                 | ev_input_open _ _ _ handle =>
                     if handle =? NULL then None else Some handle
                 | _ => None
                 end) es.

Definition closed (es : list Support.event) : list ptr :=
  omap (fun e => match e with
                 | Support.ev_input_close handle => Some handle
                 | _ => None
                 end) es.

(** The blocks obtained from [malloc] and [strdup], and the blocks given
    to [free]. *)
Definition allocated (es : list lib_event) : list ptr :=
  omap (fun e => match e with
                 | ev_malloc _ p | ev_strdup _ p =>
                     if p =? NULL then None else Some p
                 | _ => None
                 end) es.

Definition freed (es : list lib_event) : list ptr :=
  omap (fun e => match e with ev_free p => Some p | _ => None end) es.

(** The faces FreeType made (calls of [FT_New_Memory_Face] without
    error) and the faces given to [FT_Done_Face]. *)
Definition faces_made (es : list lib_event) : list (option ptr) :=
  omap (fun e => match e with
                 | ev_FT_New_Memory_Face _ _ _ _ err stored =>
                     if err =? 0 then Some stored else None
                 | _ => None
                 end) es.

Definition faces_done (es : list lib_event) : list ptr :=
  omap (fun e => match e with ev_FT_Done_Face face => Some face | _ => None end)
       es.

(** The errors of the calls of [FT_Init_FreeType]. *)
Definition library_inits (es : list lib_event) : list Z :=
  omap (fun e => match e with
                 | ev_FT_Init_FreeType err _ => Some err
                 | _ => None
                 end) es.

(** *** A font host for examples

    Every call succeeds.  Handles, blocks and HarfBuzz objects are
    numbered by the calls made so far, a file holds 12 bytes, and the
    face is scalable and not SFNT, so that index 0 looks for an AFM file
    beside the font.  Floating point is not interpreted. *)
Definition plain_fonts : FontHost unit :=
  {| FT_Init_FreeType := fun _ => (0, Some 64);
     ttbc_input_open := fun h _ _ _ => 256 + Z.of_nat (length h);
     ttbc_input_get_size := fun _ _ => 12;
     ttbc_input_read := fun _ _ _ len => len;
     libc_malloc := fun h _ => 4096 + Z.of_nat (length h);
     libc_strdup := fun h _ => 4096 + Z.of_nat (length h);
     FT_New_Memory_Face := fun _ _ _ _ _ => (0, Some 128);
     FT_IS_SCALABLE := fun _ _ => true;
     FT_IS_SFNT := fun _ _ => false;
     face_units_per_EM := fun _ _ => 1000;
     face_ascender := fun _ _ => 800;
     face_descender := fun _ _ => -200;
     FT_Get_Sfnt_Table := fun _ _ _ => NULL;
     post_italicAngle := fun _ _ => 0;
     os2_sCapHeight := fun _ _ => 700;
     os2_sxHeight := fun _ _ => 500;
     FT_Load_Sfnt_Table := fun _ _ _ _ _ => (0, 8);
     hb_face_create_for_tables := fun h _ => 512 + Z.of_nat (length h);
     hb_font_create := fun h _ => 512 + Z.of_nat (length h);
     hb_font_funcs_create := fun h => 512 + Z.of_nat (length h);
     sizeof_hb_face_data := 4;
     to_FT_Long := fun n => n;
     units_to_points := fun _ _ _ => tt;
     fixed_to_float := fun _ => tt |}.

(** A font record not yet set up, and the state of a program that has
    not called [layout.c] or [support.c] yet. *)
Definition blank_font : XeTeXFont_rec unit :=
  {| units_per_em := 0; point_size := tt; ascent := tt; descent := tt;
     cap_height := tt; x_height := tt; italic_angle := tt; vertical := 0;
     filename := NULL; index := 0; ft_face := NULL; hb_font := NULL;
     font_data := NULL; font_data_size := 0 |}.

Definition fresh_world : world unit :=
  {| support := Support.initial_state; ft_lib := NULL; ft_face_count := 0;
     ft_lib_shutdown_pending := 0; custom_font_funcs := NULL;
     font := blank_font; calls := [] |}.

Definition font_path : list ascii := list_ascii_of_string "fonts/cm.pfb".

End Layout.

(** * [csrc/wasm/posix.c]

    [mkstemp] makes a temporary file from a template that ends in
    [XXXXXX].  The template is a C string, modelled by its characters
    before the NUL, and by its address, which the function mixes into
    the names it tries. *)
Module Posix.

(** A call of [open(path, O_RDWR | O_CREAT | O_EXCL, 0600)], with the
    descriptor it returned and the value of [errno] after it. *)
Inductive open_event : Type :=
| ev_open (path : list ascii) (fd : Z) (errno_after : Z).

Definition path_of (e : open_event) : list ascii :=
  match e with ev_open path _ _ => path end.

(** The C library of the target: the two error numbers of [<errno.h>]
    the code names, and what [open] answers, from the calls made so
    far. *)
Class Libc : Type := {
  EINVAL : Z;
  EEXIST : Z;
  open_excl : list open_event -> list ascii -> Z * Z
}.

(** The function-local [static unsigned counter], [errno], and the calls
    of [open] made so far. *)
Record state : Type := mk_state {
  counter : Z;     (* unsigned *)
  errno : Z;       (* int *)
  opens : list open_event
}.

Definition with_errno (s : state) (e : Z) : state :=
  {| counter := counter s; errno := e; opens := opens s |}.

(** [const char charset[]] *)
Definition charset : list ascii :=
  list_ascii_of_string "abcdefghijklmnopqrstuvwxyz0123456789".

(** The inner loop, [suffix[i] = charset[val % 36]; val /= 36] for [i]
    from [n - 1] down to 0; [written] holds the characters already
    stored, to the right of [i]. *)
Fixpoint fill_suffix (n : nat) (val : Z) (written : list ascii) : list ascii :=
  match n with
  | O => written
  | S n' =>
      fill_suffix n' (val / 36)
        (nth (Z.to_nat (val mod 36)) charset Ascii.zero :: written)
  end.

(** [counter ^ (unsigned)(size_t)tmpl ^ (unsigned)attempt] *)
Definition mixed (count : Z) (addr : ptr) (attempt : Z) : Z :=
  Z.lxor (Z.lxor count (addr mod 2 ^ 32)) attempt.

Section WithLibc.
Context `{Libc}.

(** The retry loop [for (; attempt < 100; attempt++)], with [remaining]
    iterations to go; [prefix] is the template before its suffix.  Past
    the last iteration, [errno = EEXIST; return -1]. *)
Fixpoint attempts (remaining : nat) (attempt : Z) (addr : ptr)
    (prefix tmpl : list ascii) (s : state) : Z * list ascii * state :=
  match remaining with
  | O => (-1, tmpl, with_errno s EEXIST)
  | S remaining' =>
      let count := (counter s + 1) mod 2 ^ 32 in
      let val := mixed count addr attempt in
      let tmpl := prefix ++ fill_suffix 6 val [] in
      let r := open_excl (opens s) tmpl in
      let s := {| counter := count; errno := snd r;
                  opens := opens s ++ [ev_open tmpl (fst r) (snd r)] |} in
      let fd := fst r in
      if 0 <=? fd then (fd, tmpl, s)
      else if negb (errno s =? EEXIST) then (-1, tmpl, s)
      else attempts remaining' (attempt + 1) addr prefix tmpl s
  end.

(** [int mkstemp(char *tmpl)]: the result, the template as the call
    leaves it, and the state. *)
Definition mkstemp (addr : ptr) (tmpl : list ascii) (s : state)
  : Z * list ascii * state :=
  let len := length tmpl in
  if (len <? 6)%nat then (-1, tmpl, with_errno s EINVAL)
  else
    let suffix := drop (len - 6) tmpl in
    if forallb (fun c => Ascii.eqb c "X") suffix then
      attempts 100 0 addr (take (len - 6) tmpl) tmpl s
    else (-1, tmpl, with_errno s EINVAL).

End WithLibc.

(** The suffix a template must end in. *)
Definition six_x : list ascii := list_ascii_of_string "XXXXXX".

(** The name of attempt [k] of a call entered with [counter = count]. *)
Definition name_tried (count : Z) (addr : ptr) (prefix : list ascii) (k : nat)
  : list ascii :=
  prefix ++
  fill_suffix 6 (mixed ((count + Z.of_nat k + 1) mod 2 ^ 32) addr (Z.of_nat k))
    [].

(** Reading a suffix back: the place of a character in [charset], and
    the number a suffix spells in base 36. *)
Fixpoint position (c : ascii) (l : list ascii) : nat :=
  match l with
  | [] => O
  | x :: rest => if Ascii.eqb x c then O else S (position c rest)
  end.

Definition spelled (suffix : list ascii) : Z :=
  fold_left (fun n c => n * 36 + Z.of_nat (position c charset)) suffix 0.

(** A directory in which every name is taken, and an empty one that
    hands out descriptor 3. *)
Definition full_directory : Libc :=
  {| EINVAL := 28; EEXIST := 20; open_excl := fun _ _ => (-1, 20) |}.

Definition empty_directory : Libc :=
  {| EINVAL := 28; EEXIST := 20; open_excl := fun _ _ => (3, 0) |}.

Definition initial_state : state :=
  {| counter := 0; errno := 0; opens := [] |}.

End Posix.

(** * Properties of the wasm runtime *)
Section SjljFacts.
Import Sjlj.

Implicit Types (m : memory) (env id : ptr) (jb : jmp_buf_impl).

Lemma setjmp_stores m env jb l id :
  m !! env = Some jb -> l <> 0 -> id <> NULL ->
  __wasm_setjmp m env l id = Returned tt (<[env := set_target jb id l]> m).
Proof.
  intros Hjb Hl Hid. unfold __wasm_setjmp.
  destruct (Z.eqb_spec l 0) as [|_]; [contradiction|].
  destruct (Z.eqb_spec id NULL) as [|_]; [contradiction|].
  by rewrite Hjb.
Qed.

Lemma setjmp_test_matches m env jb id :
  m !! env = Some jb -> label jb <> 0 -> id <> NULL ->
  __wasm_setjmp_test m env id =
    Returned (if decide (func_invocation_id jb = id) then label jb else 0) m.
Proof.
  intros Hjb Hl Hid. unfold __wasm_setjmp_test. rewrite Hjb.
  destruct (Z.eqb_spec (label jb) 0) as [|_]; [contradiction|].
  destruct (Z.eqb_spec id NULL) as [|_]; [contradiction|].
  destruct (Z.eqb_spec (func_invocation_id jb) id); by case_decide.
Qed.

Lemma longjmp_throws m env jb val :
  m !! env = Some jb ->
  __wasm_longjmp m env val =
    Thrown C_LONGJMP env
      (<[env := set_arg jb env (if val =? 0 then 1 else val)]> m).
Proof. intros Hjb. unfold __wasm_longjmp. by rewrite Hjb. Qed.

Lemma mark_then_test_aux m env jb L T :
  m !! env = Some jb -> L <> 0 -> T <> NULL ->
  __wasm_setjmp m env L T = Returned tt (<[env := set_target jb T L]> m) /\
  __wasm_setjmp_test (<[env := set_target jb T L]> m) env T
    = Returned L (<[env := set_target jb T L]> m).
Proof.
  intros Hjb HL HT. split; [by apply setjmp_stores|].
  rewrite (setjmp_test_matches _ env (set_target jb T L) T); simpl;
    [by case_decide | apply lookup_insert_eq | done | done].
Qed.

(** C1: after [Mark(env, L, T)] with [L] nonzero and [T] non-null, on an
    [env] that designates a jump buffer, [Test(env, T')] returns [L] when
    [T'] is [T] and 0 when [T'] is another non-null token. *)
Theorem mark_then_test m env L T T' :
  is_Some (m !! env) -> L <> 0 -> T <> NULL -> T' <> NULL ->
  exists m1,
    __wasm_setjmp m env L T = Returned tt m1 /\
    __wasm_setjmp_test m1 env T = Returned L m1 /\
    (T' = T -> __wasm_setjmp_test m1 env T' = Returned L m1) /\
    (T' <> T -> __wasm_setjmp_test m1 env T' = Returned 0 m1).
Proof.
  intros [jb Hjb] HL HT HT'.
  exists (<[env := set_target jb T L]> m).
  split; [by apply setjmp_stores|].
  assert (Hself : __wasm_setjmp_test (<[env := set_target jb T L]> m) env T
                  = Returned L (<[env := set_target jb T L]> m)).
  { rewrite (setjmp_test_matches _ env (set_target jb T L) T); simpl;
      [by case_decide | apply lookup_insert_eq | done | done]. }
  split; [exact Hself|]. split.
  - intros ->. exact Hself.
  - intros Hne.
    rewrite (setjmp_test_matches _ env (set_target jb T L) T'); simpl;
      [case_decide; [congruence | done] | apply lookup_insert_eq | done | done].
Qed.

Lemma mark_then_test_witness :
  exists m1,
    __wasm_setjmp {[64 := zero_jmp_buf]} 64 3 1000 = Returned tt m1 /\
    __wasm_setjmp_test m1 64 1000 = Returned 3 m1 /\
    (2000 = 1000 -> __wasm_setjmp_test m1 64 2000 = Returned 3 m1) /\
    (2000 <> 1000 -> __wasm_setjmp_test m1 64 2000 = Returned 0 m1).
Proof.
  apply (mark_then_test {[64 := zero_jmp_buf]} 64 3 1000 2000).
  - exists zero_jmp_buf. reflexivity.
  - discriminate.
  - discriminate.
  - discriminate.
Defined.

(** C2: [Transfer(env, v)] turns the value 0 into 1 and keeps any other
    value, stores [env] and that value in the [arg] area of [env]'s
    record without touching the recorded target, and throws the
    C_LONGJMP tag with that area as payload; it never returns.  After
    [Mark(env, L, T)], [Transfer(env, 0)] leaves [Test(env, T) = L] and
    the value handed to the mark site is 1. *)
Theorem transfer_payload m env jb v :
  m !! env = Some jb ->
  let v' := if v =? 0 then 1 else v in
  let m' := <[env := set_arg jb env v']> m in
  __wasm_longjmp m env v = Thrown C_LONGJMP env m' /\
  payload_arg m' env = Some (env, v') /\
  v' <> 0 /\ (v = 0 -> v' = 1) /\ (v <> 0 -> v' = v) /\
  (func_invocation_id <$> m' !! env) = Some (func_invocation_id jb) /\
  (label <$> m' !! env) = Some (label jb) /\
  (forall e, e <> env -> m' !! e = m !! e) /\
  (forall L T, L <> 0 -> T <> NULL ->
     exists m1 m2,
       __wasm_setjmp m env L T = Returned tt m1 /\
       __wasm_longjmp m1 env 0 = Thrown C_LONGJMP env m2 /\
       payload_arg m2 env = Some (env, 1) /\
       __wasm_setjmp_test m2 env T = Returned L m2 /\
       unwind m2 env [T] = Resumed T L 1).
Proof.
  intros Hjb v' m'. subst m'.
  split; [by apply longjmp_throws|].
  split; [unfold payload_arg; by rewrite lookup_insert_eq|].
  split; [subst v'; destruct (Z.eqb_spec v 0); lia|].
  split; [intros ->; reflexivity|].
  split; [intros Hv; subst v'; by destruct (Z.eqb_spec v 0)|].
  split; [by rewrite lookup_insert_eq|].
  split; [by rewrite lookup_insert_eq|].
  split; [intros e He; by rewrite lookup_insert_ne|].
  intros L T HL HT.
  set (jb1 := set_target jb T L).
  set (m1 := <[env := jb1]> m).
  set (m2 := <[env := set_arg jb1 env 1]> m1).
  assert (Htest : __wasm_setjmp_test m2 env T = Returned L m2).
  { rewrite (setjmp_test_matches m2 env (set_arg jb1 env 1) T); simpl;
      [by case_decide | apply lookup_insert_eq | done | done]. }
  exists m1, m2.
  split; [by apply setjmp_stores|].
  split; [apply (longjmp_throws m1 env jb1 0), lookup_insert_eq|].
  split; [unfold payload_arg, m2; by rewrite lookup_insert_eq|].
  split; [exact Htest|].
  simpl. unfold payload_arg at 1. unfold m2 at 1.
  rewrite lookup_insert_eq. simpl. rewrite Htest.
  by destruct (Z.eqb_spec L 0).
Qed.

Lemma transfer_payload_witness :
  __wasm_longjmp {[64 := zero_jmp_buf]} 64 0
    = Thrown C_LONGJMP 64 (<[64 := set_arg zero_jmp_buf 64 1]> {[64 := zero_jmp_buf]}).
Proof.
  apply (transfer_payload {[64 := zero_jmp_buf]} 64 zero_jmp_buf 0).
  reflexivity.
Defined.

(** C3: [Mark] traps exactly when the label is 0 or the token is null;
    [Test] traps exactly when the label recorded in [env] is 0 or the token
    is null; with a nonzero label and a non-null token [Mark] returns,
    and [Test] on the [env] it marked returns. *)
Theorem protocol_violations_trap m env jb L T :
  m !! env = Some jb ->
  (__wasm_setjmp m env L T = Trapped <-> L = 0 \/ T = NULL) /\
  (__wasm_setjmp_test m env T = Trapped <-> label jb = 0 \/ T = NULL) /\
  (__wasm_setjmp_test (<[env := zero_jmp_buf]> m) env T = Trapped) /\
  (L <> 0 -> T <> NULL ->
     exists m1 l,
       __wasm_setjmp m env L T = Returned tt m1 /\
       __wasm_setjmp_test m1 env T = Returned l m1).
Proof.
  intros Hjb. repeat split.
  - unfold __wasm_setjmp. rewrite Hjb.
    destruct (Z.eqb_spec L 0); [auto|].
    destruct (Z.eqb_spec T NULL); [auto | discriminate].
  - intros [-> | ->]; unfold __wasm_setjmp; [done|].
    by destruct (L =? 0).
  - unfold __wasm_setjmp_test. rewrite Hjb.
    destruct (Z.eqb_spec (label jb) 0); [auto|].
    destruct (Z.eqb_spec T NULL); [auto|].
    destruct (func_invocation_id jb =? T); discriminate.
  - unfold __wasm_setjmp_test. rewrite Hjb.
    intros [-> | ->]; [done|]. simpl.
    by destruct (label jb =? 0).
  - unfold __wasm_setjmp_test. by rewrite lookup_insert_eq.
  - intros HL HT.
    destruct (mark_then_test_aux m env jb L T Hjb HL HT) as [H1 H2].
    eauto.
Qed.

Lemma protocol_violations_trap_witness :
  (__wasm_setjmp {[64 := zero_jmp_buf]} 64 0 1000 = Trapped
     <-> 0 = 0 \/ 1000 = NULL) /\
  (__wasm_setjmp_test {[64 := zero_jmp_buf]} 64 1000 = Trapped
     <-> label zero_jmp_buf = 0 \/ 1000 = NULL).
Proof.
  pose proof (protocol_violations_trap
                {[64 := zero_jmp_buf]} 64 zero_jmp_buf 0 1000) as H.
  split; apply H; reflexivity.
Defined.

(** C7: marking a marked [env] again replaces the recorded target.  After
    [Mark(env, L1, T1)] and [Mark(env, L2, T2)] with distinct non-null
    tokens and nonzero labels, [Test(env, T2)] returns [L2] and
    [Test(env, T1)] returns 0, also once a [Transfer(env, v)] has been
    thrown; the catch of the activation [T2], met first, takes the
    exception. *)
Theorem remark_last_wins m env L1 L2 T1 T2 :
  is_Some (m !! env) ->
  L1 <> 0 -> L2 <> 0 -> T1 <> NULL -> T2 <> NULL -> T1 <> T2 ->
  exists m1 m2,
    __wasm_setjmp m env L1 T1 = Returned tt m1 /\
    __wasm_setjmp m1 env L2 T2 = Returned tt m2 /\
    __wasm_setjmp_test m2 env T2 = Returned L2 m2 /\
    __wasm_setjmp_test m2 env T1 = Returned 0 m2 /\
    forall v, exists m3,
      __wasm_longjmp m2 env v = Thrown C_LONGJMP env m3 /\
      __wasm_setjmp_test m3 env T2 = Returned L2 m3 /\
      __wasm_setjmp_test m3 env T1 = Returned 0 m3 /\
      unwind m3 env [T2; T1] = Resumed T2 L2 (if v =? 0 then 1 else v).
Proof.
  intros [jb Hjb] HL1 HL2 HT1 HT2 Hne.
  set (jb1 := set_target jb T1 L1). set (m1 := <[env := jb1]> m).
  set (jb2 := set_target jb1 T2 L2). set (m2 := <[env := jb2]> m1).
  assert (Hm1 : m1 !! env = Some jb1) by apply lookup_insert_eq.
  assert (Hm2 : m2 !! env = Some jb2) by apply lookup_insert_eq.
  exists m1, m2.
  split; [by apply setjmp_stores|].
  split; [by apply setjmp_stores|].
  split; [rewrite (setjmp_test_matches m2 env jb2 T2 Hm2); simpl;
          [by case_decide | done | done]|].
  split; [rewrite (setjmp_test_matches m2 env jb2 T1 Hm2); simpl;
          [case_decide; [congruence | done] | done | done]|].
  intros v.
  set (jb3 := set_arg jb2 env (if v =? 0 then 1 else v)).
  set (m3 := <[env := jb3]> m2).
  assert (Hm3 : m3 !! env = Some jb3) by apply lookup_insert_eq.
  assert (Hin : __wasm_setjmp_test m3 env T2 = Returned L2 m3).
  { rewrite (setjmp_test_matches m3 env jb3 T2 Hm3); simpl;
      [by case_decide | done | done]. }
  exists m3.
  split; [by apply longjmp_throws|].
  split; [exact Hin|].
  split; [rewrite (setjmp_test_matches m3 env jb3 T1 Hm3); simpl;
          [case_decide; [congruence | done] | done | done]|].
  simpl. unfold payload_arg. rewrite Hm3. simpl. rewrite Hin.
  by destruct (Z.eqb_spec L2 0).
Qed.

Lemma remark_last_wins_witness :
  exists m1 m2,
    __wasm_setjmp {[64 := zero_jmp_buf]} 64 3 1000 = Returned tt m1 /\
    __wasm_setjmp m1 64 5 2000 = Returned tt m2 /\
    __wasm_setjmp_test m2 64 2000 = Returned 5 m2 /\
    __wasm_setjmp_test m2 64 1000 = Returned 0 m2 /\
    forall v, exists m3,
      __wasm_longjmp m2 64 v = Thrown C_LONGJMP 64 m3 /\
      __wasm_setjmp_test m3 64 2000 = Returned 5 m3 /\
      __wasm_setjmp_test m3 64 1000 = Returned 0 m3 /\
      unwind m3 64 [2000; 1000] = Resumed 2000 5 (if v =? 0 then 1 else v).
Proof.
  apply (remark_last_wins {[64 := zero_jmp_buf]} 64 3 5 1000 2000).
  - exists zero_jmp_buf. reflexivity.
  - discriminate.
  - discriminate.
  - discriminate.
  - discriminate.
  - discriminate.
Defined.

(** ** Where a thrown exception lands *)

Lemma unwind_finds m env jb (frames : list ptr) :
  m !! env = Some jb -> arg_env jb = env -> label jb <> 0 ->
  NULL ∉ frames ->
  unwind m env frames =
    if decide (func_invocation_id jb ∈ frames)
    then Resumed (func_invocation_id jb) (label jb) (arg_val jb)
    else Uncaught.
Proof.
  intros Hjb Henv Hl. induction frames as [|id outer IH]; intros Hnull.
  - cbn [unwind].
    destruct (decide (func_invocation_id jb ∈ [])) as [Hin|_];
      [by apply elem_of_nil in Hin | done].
  - cbn [unwind]. unfold payload_arg. rewrite Hjb. cbn [mbind option_bind].
    rewrite Henv, (setjmp_test_matches m env jb id Hjb Hl).
    2:{ intros ->. apply Hnull. left. }
    destruct (decide (func_invocation_id jb = id)) as [<-|Hne].
    + destruct (Z.eqb_spec (label jb) 0); [contradiction|].
      destruct (decide (func_invocation_id jb ∈ func_invocation_id jb :: outer))
        as [_|Hin]; [done|]. exfalso. apply Hin. left.
    + cbn [Z.eqb]. rewrite IH.
      2:{ intros Hin. apply Hnull. by right. }
      destruct (decide (func_invocation_id jb ∈ outer)) as [Hin|Hin];
        destruct (decide (func_invocation_id jb ∈ id :: outer)) as [Hin'|Hin'];
        try done.
      * exfalso. apply Hin'. by right.
      * apply elem_of_cons in Hin' as [?|?]; [congruence | contradiction].
Qed.

Lemma unwind_unmarked m env jb id (outer : list ptr) :
  m !! env = Some jb -> arg_env jb = env -> label jb = 0 ->
  unwind m env (id :: outer) = Stopped.
Proof.
  intros Hjb Henv Hl. simpl. unfold payload_arg. rewrite Hjb. simpl.
  rewrite Henv. unfold __wasm_setjmp_test. rewrite Hjb.
  by destruct (Z.eqb_spec (label jb) 0).
Qed.

End SjljFacts.

(** * Properties of the abort channel *)
Section SupportFacts.
Import Support.
Local Open Scope c_scope.
Context `{Host}.

Implicit Types (s : state) (format : string) (args : list printf_arg).

(** ** Strings in fixed-size buffers *)

Lemma c_str_length (l : list ascii) : (length (c_str l) <= length l)%nat.
Proof.
  induction l as [|c l IH]; simpl; [lia|].
  destruct (Ascii.eqb c NUL); simpl; lia.
Qed.

Lemma c_str_terminated (w rest : list ascii) :
  c_str (w ++ NUL :: rest) = c_str w.
Proof.
  induction w as [|c w IH]; simpl; [reflexivity|].
  destruct (Ascii.eqb c NUL); [reflexivity | by rewrite IH].
Qed.

Lemma c_str_no_nul (w : list ascii) : NUL ∉ w -> c_str w = w.
Proof.
  induction w as [|c w IH]; simpl; intros Hw; [reflexivity|].
  destruct (Ascii.eqb_spec c NUL) as [->|_].
  - exfalso. apply Hw. left.
  - rewrite IH; [reflexivity|]. intros Hin. apply Hw. by right.
Qed.

Lemma vsnprintf_length (buf out : list ascii) (n : nat) (failed : bool) :
  (n <= length buf)%nat -> length (fst (vsnprintf buf n out failed)) = length buf.
Proof.
  intros Hn. destruct n as [|n']; simpl; [reflexivity|].
  rewrite length_app. simpl. rewrite length_drop, length_take. lia.
Qed.

Lemma vsnprintf_c_str (buf out : list ascii) (n : nat) (failed : bool) :
  c_str (fst (vsnprintf buf (S n) out failed)) = c_str (take n out).
Proof. simpl. apply c_str_terminated. Qed.

Lemma vsnprintf_terminator (buf out : list ascii) (n : nat) (failed : bool) :
  fst (vsnprintf buf (S n) out failed) !! length (take n out) = Some NUL.
Proof.
  simpl. rewrite lookup_app_r by lia. by rewrite Nat.sub_diag.
Qed.

(** ** What [_tt_abort] does *)

Lemma tt_abort_spec format args s :
  _tt_abort format args s =
    Longjmp (jump_buffer s) 1
      (with_format_buf s
         (fst (vsnprintf (format_buf s) BUF_SIZE (vformat format args)
                 (vformat_error format args)))).
Proof. reflexivity. Qed.

(** C4: [Abort] stores the printf conversion in [format_buf], cut to
    1023 characters and followed by a NUL, without changing the size of
    the buffer or any other object; the string [GetLastErrorMessage]
    then designates has at most 1023 characters and is the whole
    conversion when that fits.  After [Abort("bad token %d", 7)] inside a
    region, the region sees the diversion and the message is
    ["bad token 7"]. *)
Theorem abort_formats_message format args s :
  length (format_buf s) = BUF_SIZE ->
  let out := vformat format args in
  exists s',
    _tt_abort format args s = Longjmp (jump_buffer s) 1 s' /\
    _ttbc_get_error_message s' = Returns obj_format_buf s' /\
    length (format_buf s') = BUF_SIZE /\
    (fprintf_buf s' = fprintf_buf s /\ jump_buffer s' = jump_buffer s /\
     tectonic_checkpoint_fn s' = tectonic_checkpoint_fn s /\
     tectonic_checkpoint_userdata s' = tectonic_checkpoint_userdata s /\
     trace s' = trace s) /\
    c_str_at s' obj_format_buf = c_str (take (BUF_SIZE - 1) out) /\
    (length (c_str_at s' obj_format_buf) <= BUF_SIZE - 1)%nat /\
    (exists i, (i <= BUF_SIZE - 1)%nat /\ format_buf s' !! i = Some NUL) /\
    ((length out <= BUF_SIZE - 1)%nat -> NUL ∉ out ->
       c_str_at s' obj_format_buf = out) /\
    (exists s1,
       setjmp_region
         (ret tt ;; @_tt_abort quiet_host "bad token %d" [arg_int 7])
         initial_state = Diverted 1 s1 /\
       c_str_at s1 obj_format_buf = list_ascii_of_string "bad token 7").
Proof.
  intros Hlen out.
  eexists. split; [apply tt_abort_spec|]. fold out.
  change BUF_SIZE with (S 1023) in *.
  replace (S 1023 - 1)%nat with 1023%nat by lia.
  assert (Hstr : c_str (fst (vsnprintf (format_buf s) (S 1023) out
                               (vformat_error format args)))
                 = c_str (take 1023 out)) by apply vsnprintf_c_str.
  split; [reflexivity|].
  split; [cbn [format_buf with_format_buf];
          rewrite vsnprintf_length; [exact Hlen | lia]|].
  split; [by repeat split|].
  split; [exact Hstr|].
  split.
  { cbn [c_str_at format_buf with_format_buf]. rewrite Hstr.
    etransitivity; [apply c_str_length|]. rewrite length_take. lia. }
  split.
  { exists (length (take 1023 out)). split; [rewrite length_take; lia|].
    apply vsnprintf_terminator. }
  split.
  { intros Hfit Hnul. cbn [c_str_at format_buf with_format_buf].
    rewrite Hstr, take_ge by lia. by apply c_str_no_nul. }
  eexists. split; vm_compute; reflexivity.
Qed.

(** ** One call at a time *)

Ltac run_call :=
  unfold perform, xstrdup, xrealloc, xmalloc, xcalloc, ttstub_diag_printf,
    ttstub_diag_vprintf, ttbc_set_checkpoint_callback, ttbc_fire_checkpoint,
    _tt_abort, _ttbc_get_error_message, ttbc_global_engine_enter,
    ttbc_global_engine_exit, ttstub_issue_warning, ttstub_issue_error,
    ttstub_fprintf, ttstub_input_get_mtime, ttstub_input_seek,
    ttstub_input_close, vsnprintf_format_buf, bind, ret, longjmp in *.

Ltac split_ifs :=
  repeat match goal with
    | H : context [if ?b then _ else _] |- _ => destruct b eqn:?
    | H : context [let '(_, _) := ?p in _] |- _ => destruct p eqn:?
    | |- context [if ?b then _ else _] => destruct b eqn:?
    | |- context [let '(_, _) := ?p in _] => destruct p eqn:?
    end.

Lemma perform_keeps_format_buf c s v s1 :
  perform c s = Returns v s1 -> writes_format_buf c = false ->
  format_buf s1 = format_buf s.
Proof.
  intros Hrun Hc. destruct c; try discriminate Hc; clear Hc;
    run_call; split_ifs; simplify_eq; reflexivity.
Qed.

Lemma exec_keeps_format_buf (p : prog) s a s1 :
  exec p s = Returns a s1 ->
  forallb (fun c => negb (writes_format_buf c)) (performed p s) = true ->
  format_buf s1 = format_buf s.
Proof.
  revert s. induction p as [r | c k IH]; intros s; simpl.
  - unfold ret. by intros [= _ <-].
  - destruct (perform c s) as [v s0 | env val s0] eqn:Hc; [|discriminate].
    intros Hrun [Hq Hrest]%andb_prop.
    rewrite (IH v s0 Hrun Hrest).
    apply (perform_keeps_format_buf c s v s0 Hc).
    by destruct (writes_format_buf c).
Qed.

(** C5, amended: a region that returns having called none of
    [_tt_abort], [ttstub_issue_warning], [ttstub_issue_error] and
    [ttstub_diag_printf] leaves [format_buf], hence the string
    [GetLastErrorMessage] designates, as it was; its caller takes the
    normal branch and returns the result of the body. *)
Theorem quiet_region_keeps_message (body : prog) s a s1 (FATAL : Z) :
  setjmp_region (exec body) s = Completed a s1 ->
  forallb (fun c => negb (writes_format_buf c))
          (performed body (setjmp_at obj_jump_buffer s)) = true ->
  format_buf s1 = format_buf s /\
  c_str_at s1 obj_format_buf = c_str_at s obj_format_buf /\
  myentrypoint FATAL (exec body) s = Returns a s1.
Proof.
  intros Hobs Hquiet.
  assert (Hrun : exec body (setjmp_at obj_jump_buffer s) = Returns a s1).
  { unfold setjmp_region, ttbc_global_engine_enter, ret in Hobs.
    destruct (exec body (setjmp_at obj_jump_buffer s)) as [a0 s0 | env val s0];
      [by injection Hobs as -> ->|].
    by case_decide. }
  assert (Hbuf : format_buf s1 = format_buf s).
  { by rewrite (exec_keeps_format_buf body _ a s1 Hrun Hquiet). }
  split; [exact Hbuf|]. split.
  - simpl. by rewrite Hbuf.
  - unfold myentrypoint. by rewrite Hobs.
Qed.




Lemma perform_keeps_buffer_size c s :
  length (format_buf s) = BUF_SIZE ->
  match perform c s with
  | Returns _ s1 | Longjmp _ _ s1 => length (format_buf s1) = BUF_SIZE
  end.
Proof.
  intros Hlen.
  assert (Hfmt : forall out failed,
            length (fst (vsnprintf (format_buf s) BUF_SIZE out failed)) = BUF_SIZE).
  { intros out failed. rewrite vsnprintf_length; [exact Hlen | by rewrite Hlen]. }
  destruct c; run_call; split_ifs; simplify_eq;
    cbn [format_buf with_format_buf with_fprintf_buf with_checkpoint log];
    try exact Hlen; try apply Hfmt.
Qed.

(** ** The checkpoint slot *)




(** C10: [ttbc_global_engine_enter] returns the address of
    [jump_buffer], whatever the state, and leaves the state alone;
    [ttbc_global_engine_exit], called any number of times, leaves every
    object as it was. *)
Theorem enter_exit_stateless s s' (n : nat) :
  ttbc_global_engine_enter s = Returns obj_jump_buffer s /\
  ttbc_global_engine_enter s' = Returns obj_jump_buffer s' /\
  ttbc_global_engine_exit s = Returns tt s /\
  exit_times n s = Returns tt s /\
  (ttbc_global_engine_exit ;; ttbc_global_engine_enter) s
    = Returns obj_jump_buffer s.
Proof.
  repeat split. induction n as [|n IH]; [reflexivity|].
  simpl. unfold bind, ttbc_global_engine_exit, ret. exact IH.
Qed.

(** ** The control point held by [jump_buffer] *)

Lemma perform_outcome c s :
  match perform c s with
  | Returns _ s1 =>
      jump_buffer s1 = jump_buffer s /\ setjmp_count s1 = setjmp_count s
  | Longjmp env val s1 =>
      env = jump_buffer s /\ val = 1 /\
      jump_buffer s1 = jump_buffer s /\ setjmp_count s1 = setjmp_count s
  end.
Proof. destruct c; run_call; split_ifs; simplify_eq; by simpl. Qed.

Lemma exec_outcome (p : prog) s :
  match exec p s with
  | Returns _ s1 =>
      jump_buffer s1 = jump_buffer s /\ setjmp_count s1 = setjmp_count s
  | Longjmp env val s1 =>
      env = jump_buffer s /\ val = 1 /\
      jump_buffer s1 = jump_buffer s /\ setjmp_count s1 = setjmp_count s
  end.
Proof.
  revert s. induction p as [r | c k IH]; intros s; simpl; [done|].
  pose proof (perform_outcome c s) as Hc.
  destruct (perform c s) as [v s0 | env val s0]; [|exact Hc].
  destruct Hc as [Hb Hn]. specialize (IH v s0).
  destruct (exec (k v) s0); rewrite <- Hb, <- Hn; exact IH.
Qed.

(** A region whose body is a client always comes back to its caller, and
    leaves its own, now retired, control point in [jump_buffer]. *)
Lemma region_of_client_returns (FATAL : Z) (p : prog) s :
  exists r s1,
    myentrypoint FATAL (exec p) s = Returns r s1 /\
    jump_buffer s1 = Some (setjmp_count s) /\
    setjmp_count s1 = S (setjmp_count s).
Proof.
  unfold myentrypoint, setjmp_region, ttbc_global_engine_enter, ret.
  pose proof (exec_outcome p (setjmp_at obj_jump_buffer s)) as Hp.
  destruct (exec p (setjmp_at obj_jump_buffer s)) as [a s1 | env val s1].
  - destruct Hp as [Hb Hn]. exists a, s1.
    split; [reflexivity|]. split; [exact Hb | exact Hn].
  - destruct Hp as (-> & _ & Hb & Hn). simpl.
    case_decide; [|congruence].
    exists FATAL, s1. split; [reflexivity|]. split; [exact Hb | exact Hn].
Qed.

(** ** Calls that do not return *)

Lemma longjmp_never_returns (m : Sjlj.memory) (env : ptr) (v : Z) a m1 :
  Sjlj.__wasm_longjmp m env v <> Sjlj.Returned a m1.
Proof. unfold Sjlj.__wasm_longjmp. by destruct (m !! env). Qed.

(** C8, amended: [Transfer] and [Abort] do not return to their caller.
    [Transfer] throws; the exception is taken by the innermost live
    activation whose token is the one recorded in [env], or by none; on
    an [env] that was never marked the first catch traps.
    [Abort] jumps through [jump_buffer], the one slot, to the control
    point the last [Enter] saved: what follows the call is not run, and
    in the region entered last and still running the jump is seen once,
    as the diversion, with the state as [Abort] left it.  [Exit] does
    not clear the slot.  So before any [Enter] the jump goes through a
    [jmp_buf] that holds nothing; after a region has exited it goes to
    that region's retired control point; and in a region that has run
    and left an inner region it goes to the inner, retired control
    point, not to the live outer one: the outer [Enter] sees no
    diversion and neither branch of the outer region runs. *)
Theorem transfer_and_abort_never_return :
  (forall (m : Sjlj.memory) env v a m1,
     Sjlj.__wasm_longjmp m env v <> Sjlj.Returned a m1) /\
  (forall (m : Sjlj.memory) env jb v (frames : list ptr),
     m !! env = Some jb -> Sjlj.label jb <> 0 -> NULL ∉ frames ->
     exists m1,
       Sjlj.__wasm_longjmp m env v = Sjlj.Thrown Sjlj.C_LONGJMP env m1 /\
       Sjlj.unwind m1 env frames =
         if decide (Sjlj.func_invocation_id jb ∈ frames)
         then Sjlj.Resumed (Sjlj.func_invocation_id jb) (Sjlj.label jb)
                (if v =? 0 then 1 else v)
         else Sjlj.Uncaught) /\
  (forall (m : Sjlj.memory) env jb v (id : ptr) (outer : list ptr),
     m !! env = Some jb -> Sjlj.label jb = 0 ->
     exists m1,
       Sjlj.__wasm_longjmp m env v = Sjlj.Thrown Sjlj.C_LONGJMP env m1 /\
       Sjlj.unwind m1 env [] = Sjlj.Uncaught /\
       Sjlj.unwind m1 env (id :: outer) = Sjlj.Stopped) /\
  (forall format args s a s1, _tt_abort format args s <> Returns a s1) /\
  (forall format args s (B : Type) (k : Z -> M B),
     (r <- _tt_abort format args ;; k r) s =
       Longjmp (jump_buffer s) 1
         (with_format_buf s
            (fst (vsnprintf (format_buf s) BUF_SIZE
                    (vformat format args) (vformat_error format args))))) /\
  (forall (A : Type) (pre : M A) format args (k : Z -> M Z) (FATAL : Z) s x s1,
     pre (setjmp_at obj_jump_buffer s) = Returns x s1 ->
     jump_buffer s1 = jump_buffer (setjmp_at obj_jump_buffer s) ->
     let s2 := with_format_buf s1
                 (fst (vsnprintf (format_buf s1) BUF_SIZE
                         (vformat format args)
                         (vformat_error format args))) in
     setjmp_region (pre ;; r <- _tt_abort format args ;; k r) s
       = Diverted 1 s2 /\
     myentrypoint FATAL (pre ;; r <- _tt_abort format args ;; k r) s
       = Returns FATAL s2) /\
  (forall format args,
     jump_buffer initial_state = None /\
     exists s2, _tt_abort format args initial_state = Longjmp None 1 s2) /\
  (forall format args (FATAL : Z) (body : prog) s,
     exists r s1 s2,
       myentrypoint FATAL (exec body) s = Returns r s1 /\
       (myentrypoint FATAL (exec body) ;; _tt_abort format args) s
         = Longjmp (Some (setjmp_count s)) 1 s2 /\
       (setjmp_count s < setjmp_count s2)%nat) /\
  (forall format args (FATAL FATAL' : Z) (inner : prog) (k : Z -> M Z) s,
     let outer := myentrypoint FATAL' (exec inner) ;;
                  r <- _tt_abort format args ;; k r in
     exists r s1 s2,
       jump_buffer (setjmp_at obj_jump_buffer s) = Some (setjmp_count s) /\
       myentrypoint FATAL' (exec inner) (setjmp_at obj_jump_buffer s)
         = Returns r s1 /\
       setjmp_region outer s = Escaped (Some (S (setjmp_count s))) 1 s2 /\
       (forall val s3, setjmp_region outer s <> Diverted val s3) /\
       myentrypoint FATAL outer s
         = Longjmp (Some (S (setjmp_count s))) 1 s2).
Proof.
  split; [apply longjmp_never_returns|].
  split.
  { intros m env jb v frames Hjb Hl Hnull.
    eexists. split; [by apply longjmp_throws|].
    rewrite (unwind_finds _ env (Sjlj.set_arg jb env (if v =? 0 then 1 else v)));
      [reflexivity | apply lookup_insert_eq | reflexivity | exact Hl
      | exact Hnull]. }
  split.
  { intros m env jb v id outer Hjb Hl.
    eexists. split; [by apply longjmp_throws|]. split; [reflexivity|].
    apply (unwind_unmarked _ env (Sjlj.set_arg jb env (if v =? 0 then 1 else v)));
      [apply lookup_insert_eq | reflexivity | exact Hl]. }
  split; [intros format args s a s1; by rewrite tt_abort_spec|].
  split; [reflexivity|].
  split.
  { intros A pre format args k FATAL s x s1 Hpre Hbuf s2.
    assert (Hobs : setjmp_region (pre ;; r <- _tt_abort format args ;; k r) s
                   = Diverted 1 s2).
    { unfold setjmp_region, ttbc_global_engine_enter, ret, bind.
      rewrite Hpre, tt_abort_spec, Hbuf. cbn [setjmp_at jump_buffer with_saved_context].
      by case_decide. }
    split; [exact Hobs|]. unfold myentrypoint. by rewrite Hobs. }
  split.
  { intros format args. split; [reflexivity|]. eexists. apply tt_abort_spec. }
  split.
  { intros format args FATAL body s.
    destruct (region_of_client_returns FATAL body s)
      as (r & s1 & Hregion & Hslot & Hn).
    eexists r, s1, _. split; [exact Hregion|].
    split; [unfold bind; by rewrite Hregion, tt_abort_spec, Hslot|].
    cbn [setjmp_count with_format_buf]. lia. }
  intros format args FATAL FATAL' inner k s outer.
  destruct (region_of_client_returns FATAL' inner (setjmp_at obj_jump_buffer s))
    as (r & s1 & Hinner & Hslot & _).
  assert (Hobs : exists s2,
            setjmp_region outer s = Escaped (Some (S (setjmp_count s))) 1 s2).
  { unfold outer, setjmp_region, ttbc_global_engine_enter, ret, bind.
    rewrite Hinner, tt_abort_spec, Hslot.
    cbn [setjmp_at setjmp_count with_saved_context].
    case_decide as Heq; [injection Heq as Heq; lia|]. by eexists. }
  destruct Hobs as [s2 Hobs].
  exists r, s1, s2. split; [reflexivity|]. split; [exact Hinner|].
  split; [exact Hobs|]. split; [by rewrite Hobs|].
  unfold myentrypoint. by rewrite Hobs.
Qed.

End SupportFacts.

(** The conversion on the messages of [support.c]. *)
Example printf_xmalloc :
  Support.printf_convert
    (list_ascii_of_string "xmalloc request for %lu bytes failed")
    [Support.arg_ulong 16]
  = list_ascii_of_string "xmalloc request for 16 bytes failed".
Proof. reflexivity. Qed.

Example printf_negative :
  Support.printf_convert (list_ascii_of_string "%s: %d%%")
    [Support.arg_str (list_ascii_of_string "skew"); Support.arg_int (-12)]
  = list_ascii_of_string "skew: -12%".
Proof. reflexivity. Qed.

Lemma abort_formats_message_witness :
  exists s',
    @Support._tt_abort Support.quiet_host "no font" [] Support.initial_state
      = Support.Longjmp None 1 s' /\
    Support.c_str_at s' Support.obj_format_buf = list_ascii_of_string "no font".
Proof.
  destruct (abort_formats_message (H := Support.quiet_host) "no font" []
              Support.initial_state) as (s' & Habort & _ & _ & _ & _ & _ & _ & Hfit & _).
  - reflexivity.
  - exists s'. split; [exact Habort|].
    apply Hfit; vm_compute; [lia|].
    intros Hin. repeat (apply elem_of_cons in Hin as [Heq|Hin]; [discriminate|]).
    by apply elem_of_nil in Hin.
Defined.

(** * Concrete runs *)
Section Runs.
Import Support.
Local Open Scope c_scope.

(** C5 as stated fails: a region that only issues a warning returns
    without any call of [_tt_abort], and the string
    [GetLastErrorMessage] designates has changed from [""] to
    ["late"]. *)
Lemma warning_overwrites_message :
  exists s1,
    setjmp_region (@exec quiet_host warning_region) initial_state
      = Completed 0 s1 /\
    @performed quiet_host warning_region
      (setjmp_at obj_jump_buffer initial_state)
      = [call_issue_warning "late" []] /\
    forallb (fun c => negb (is_abort c))
      (@performed quiet_host warning_region
         (setjmp_at obj_jump_buffer initial_state)) = true /\
    c_str_at initial_state obj_format_buf = [] /\
    c_str_at s1 obj_format_buf = list_ascii_of_string "late" /\
    c_str_at s1 obj_format_buf <> c_str_at initial_state obj_format_buf.
Proof.
  eexists. repeat split; try (vm_compute; reflexivity).
  vm_compute. discriminate.
Qed.

Lemma quiet_region_keeps_message_witness :
  let body := p_call (call_fire_checkpoint 1) (fun _ => p_return 0) in
  format_buf (with_saved_context initial_state) = format_buf initial_state /\
  c_str_at (with_saved_context initial_state) obj_format_buf
    = c_str_at initial_state obj_format_buf /\
  myentrypoint 99 (@exec quiet_host body) initial_state
    = Returns 0 (with_saved_context initial_state).
Proof.
  apply (quiet_region_keeps_message (H := quiet_host)
           (p_call (call_fire_checkpoint 1) (fun _ => p_return 0))
           initial_state 0 (with_saved_context initial_state) 99).
  - reflexivity.
  - reflexivity.
Defined.


(** C8 as stated fails: a region that has run and left a region of its
    own and then aborts is not resumed, although it is the region
    entered last among those not yet exited.  The jump goes through the
    control point of the inner region, which has returned.  In the
    wasm runtime the same run marks the one [jmp_buf] for the outer
    activation and then for the inner one; the exception then thrown
    is not taken by the outer activation, the only one still live. *)
Lemma abort_misses_live_region :
  exists s0 s2 m1 m2 m3,
    jump_buffer (setjmp_at obj_jump_buffer initial_state) = Some 0%nat /\
    myentrypoint 7 (@exec quiet_host (p_return 0))
      (setjmp_at obj_jump_buffer initial_state) = Returns 0 s0 /\
    jump_buffer s0 = Some 1%nat /\
    setjmp_region (@nested_abort quiet_host) initial_state
      = Escaped (Some 1%nat) 1 s2 /\
    (forall val s,
       setjmp_region (@nested_abort quiet_host) initial_state
         <> Diverted val s) /\
    myentrypoint 99 (@nested_abort quiet_host) initial_state
      = Longjmp (Some 1%nat) 1 s2 /\
    c_str_at s2 obj_format_buf = list_ascii_of_string "fatal" /\
    Sjlj.__wasm_setjmp {[64 := Sjlj.zero_jmp_buf]} 64 1 1000
      = Sjlj.Returned tt m1 /\
    Sjlj.__wasm_setjmp m1 64 1 2000 = Sjlj.Returned tt m2 /\
    Sjlj.__wasm_longjmp m2 64 1 = Sjlj.Thrown Sjlj.C_LONGJMP 64 m3 /\
    Sjlj.unwind m3 64 [1000] = Sjlj.Uncaught.
Proof.
  eexists _, _, _, _, _.
  split; [reflexivity|]. split; [reflexivity|]. split; [reflexivity|].
  split; [vm_compute; reflexivity|].
  split; [intros val s; vm_compute; discriminate|].
  split; [vm_compute; reflexivity|].
  split; [vm_compute; reflexivity|].
  split; [vm_compute; reflexivity|].
  split; [vm_compute; reflexivity|].
  split; vm_compute; reflexivity.
Qed.


Lemma transfer_and_abort_never_return_witness :
  (exists m1,
     Sjlj.__wasm_longjmp
       {[64 := Sjlj.mk_jmp_buf 1000 3 NULL 0]} 64 0
       = Sjlj.Thrown Sjlj.C_LONGJMP 64 m1 /\
     Sjlj.unwind m1 64 [2000; 1000] = Sjlj.Resumed 1000 3 1) /\
  (exists s2,
     setjmp_region
       (ttbc_fire_checkpoint 1 ;;
        r <- @_tt_abort quiet_host "fatal" [] ;;
        ttbc_set_checkpoint_callback 7 8 ;; ret r) initial_state
       = Diverted 1 s2 /\
     tectonic_checkpoint_fn s2 = NULL /\
     c_str_at s2 obj_format_buf = list_ascii_of_string "fatal").
Proof.
  destruct (transfer_and_abort_never_return (H := quiet_host))
    as (_ & Hunwind & _ & _ & _ & Hregion & _).
  split.
  - destruct (Hunwind {[64 := Sjlj.mk_jmp_buf 1000 3 NULL 0]} 64
                (Sjlj.mk_jmp_buf 1000 3 NULL 0) 0 [2000; 1000])
      as (m1 & Hthrow & Hland).
    + reflexivity.
    + discriminate.
    + intros Hin.
      repeat (apply elem_of_cons in Hin as [Heq|Hin]; [discriminate|]).
      by apply elem_of_nil in Hin.
    + exists m1. split; [exact Hthrow|]. rewrite Hland. reflexivity.
  - destruct (Hregion unit (ttbc_fire_checkpoint 1) "fatal"%string []
                (fun r => ttbc_set_checkpoint_callback 7 8 ;; ret r) 99
                initial_state tt (with_saved_context initial_state))
      as [Hobs _].
    + reflexivity.
    + reflexivity.
    + eexists. split; [exact Hobs|]. split; vm_compute; reflexivity.
Defined.


End Runs.

(** * Further properties of the wasm runtime *)
Section SjljFrame.
Import Sjlj SjljOps.

Implicit Types (m : memory) (env id : ptr) (jb : jmp_buf_impl).

Lemma step_frame (o : op) m m1 env :
  step o m = Some m1 -> op_env o <> env ->
  m1 !! env = m !! env.
Proof.
  destruct o as [e l i | e i | e v]; simpl; intros Hstep Hne.
  - unfold __wasm_setjmp in Hstep.
    destruct (l =? 0); [discriminate|]. destruct (i =? NULL); [discriminate|].
    destruct (m !! e); [|discriminate]. injection Hstep as <-.
    by apply lookup_insert_ne.
  - unfold __wasm_setjmp_test in Hstep.
    destruct (m !! e) as [jb|]; [|discriminate].
    destruct (label jb =? 0); [discriminate|].
    destruct (i =? NULL); [discriminate|].
    destruct (func_invocation_id jb =? i); simpl in Hstep; by simplify_eq.
  - unfold __wasm_longjmp in Hstep.
    destruct (m !! e); [|discriminate]. injection Hstep as <-.
    by apply lookup_insert_ne.
Qed.

Lemma step_dom (o : op) m m1 :
  step o m = Some m1 -> dom m1 = dom m.
Proof.
  destruct o as [e l i | e i | e v]; simpl; intros Hstep.
  - unfold __wasm_setjmp in Hstep.
    destruct (l =? 0); [discriminate|]. destruct (i =? NULL); [discriminate|].
    destruct (m !! e) eqn:He; [|discriminate]. injection Hstep as <-.
    rewrite dom_insert_L. apply elem_of_dom_2 in He.
    apply subseteq_union_1_L. by apply singleton_subseteq_l.
  - unfold __wasm_setjmp_test in Hstep.
    destruct (m !! e) as [jb|]; [|discriminate].
    destruct (label jb =? 0); [discriminate|].
    destruct (i =? NULL); [discriminate|].
    destruct (func_invocation_id jb =? i); simpl in Hstep; by simplify_eq.
  - unfold __wasm_longjmp in Hstep.
    destruct (m !! e) eqn:He; [|discriminate]. injection Hstep as <-.
    rewrite dom_insert_L. apply elem_of_dom_2 in He.
    apply subseteq_union_1_L. by apply singleton_subseteq_l.
Qed.

(** X1: the runtime works on the one jump buffer it is given.  After any
    sequence of [__wasm_setjmp], [__wasm_setjmp_test] and
    [__wasm_longjmp] calls that runs through, the set of jump buffers is
    the same, and a buffer that none of the calls was given holds what
    it held. *)
Theorem runtime_touches_only_its_env (ops : list op) m m1 :
  run ops m = Some m1 ->
  dom m1 = dom m /\
  forall env, Forall (fun o => op_env o <> env) ops -> m1 !! env = m !! env.
Proof.
  revert m. induction ops as [|o ops IH]; intros m; simpl.
  - intros [= <-]. by split.
  - destruct (step o m) as [m0|] eqn:Hstep; simpl; [|discriminate].
    intros Hrun. destruct (IH m0 Hrun) as [Hdom Hframe]. split.
    + rewrite Hdom. by apply (step_dom o).
    + intros env Hall. apply Forall_cons in Hall as [Ho Hrest].
      rewrite (Hframe env Hrest). by apply (step_frame o).
Qed.

(** X2: when [__wasm_setjmp_test] returns, memory is as it was, and the
    result is nonzero exactly when the token is the one recorded in
    [env]; it is then the recorded label.  A result of 0 therefore never
    stands for a label. *)
Theorem setjmp_test_result m env jb id l m1 :
  m !! env = Some jb ->
  __wasm_setjmp_test m env id = Returned l m1 ->
  m1 = m /\ id <> NULL /\ label jb <> 0 /\
  (l <> 0 <-> func_invocation_id jb = id) /\
  (l <> 0 -> l = label jb) /\
  (l = 0 <-> func_invocation_id jb <> id).
Proof.
  intros Hjb. unfold __wasm_setjmp_test. rewrite Hjb.
  destruct (Z.eqb_spec (label jb) 0) as [|Hl]; [discriminate|].
  destruct (Z.eqb_spec id NULL) as [|Hid]; [discriminate|].
  destruct (Z.eqb_spec (func_invocation_id jb) id) as [Heq|Hne];
    intros [= <- <-]; repeat split; try done; try congruence.
Qed.

End SjljFrame.

Lemma runtime_touches_only_its_env_witness :
  (<[64 := Sjlj.mk_jmp_buf 1000 3 64 1]>
     (<[64 := Sjlj.mk_jmp_buf 1000 3 NULL 0]>
        ({[64 := Sjlj.zero_jmp_buf; 128 := Sjlj.zero_jmp_buf]}
           : Sjlj.memory))) !! 128
  = ({[64 := Sjlj.zero_jmp_buf; 128 := Sjlj.zero_jmp_buf]}
       : Sjlj.memory) !! 128.
Proof.
  apply (runtime_touches_only_its_env
           [SjljOps.op_setjmp 64 3 1000; SjljOps.op_longjmp 64 0;
            SjljOps.op_setjmp_test 64 1000]
           {[64 := Sjlj.zero_jmp_buf; 128 := Sjlj.zero_jmp_buf]}).
  - reflexivity.
  - repeat constructor; discriminate.
Defined.

Lemma setjmp_test_result_witness :
  ({[64 := Sjlj.mk_jmp_buf 1000 3 NULL 0]} : Sjlj.memory)
    = {[64 := Sjlj.mk_jmp_buf 1000 3 NULL 0]} /\
  2000 <> NULL /\ Sjlj.label (Sjlj.mk_jmp_buf 1000 3 NULL 0) <> 0 /\
  (0 <> 0 <-> Sjlj.func_invocation_id (Sjlj.mk_jmp_buf 1000 3 NULL 0) = 2000) /\
  (0 <> 0 -> 0 = Sjlj.label (Sjlj.mk_jmp_buf 1000 3 NULL 0)) /\
  (0 = 0 <-> Sjlj.func_invocation_id (Sjlj.mk_jmp_buf 1000 3 NULL 0) <> 2000).
Proof.
  apply (setjmp_test_result {[64 := Sjlj.mk_jmp_buf 1000 3 NULL 0]} 64
           (Sjlj.mk_jmp_buf 1000 3 NULL 0) 2000 0
           {[64 := Sjlj.mk_jmp_buf 1000 3 NULL 0]}).
  - reflexivity.
  - reflexivity.
Defined.

(** * Further properties of the abort channel *)
Section SupportMore.
Import Support Sessions.
Local Open Scope c_scope.
Context `{Host}.

Implicit Types (s : state) (format : string) (args : list printf_arg).

(** ** Formatting into a buffer of [S k] bytes *)

Lemma vsnprintf_fst (buf out : list ascii) (k : nat) (failed : bool) :
  fst (vsnprintf buf (S k) out failed)
  = take k out ++ NUL :: drop (S (length (take k out))) buf.
Proof. reflexivity. Qed.

Lemma vsnprintf_has_nul (buf out : list ascii) (k : nat) (failed : bool) :
  NUL ∈ fst (vsnprintf buf (S k) out failed).
Proof. rewrite vsnprintf_fst. apply elem_of_app. right. left. Qed.

Lemma vsnprintf_take_long (buf out : list ascii) (k : nat) (failed : bool) :
  (k <= length out)%nat ->
  take k (<[k := NUL]> (fst (vsnprintf buf (S k) out failed))) = take k out.
Proof.
  intros Hlong. rewrite vsnprintf_fst.
  assert (Hk : length (take k out) = k) by (rewrite length_take; lia).
  rewrite take_insert_ge by lia.
  rewrite take_app_le by lia. rewrite take_ge by lia. reflexivity.
Qed.

Lemma vsnprintf_take_short (buf out : list ascii) (k : nat) (failed : bool) :
  (length out <= k)%nat ->
  take (length out) (fst (vsnprintf buf (S k) out failed)) = out /\
  take k out = out.
Proof.
  intros Hshort. rewrite vsnprintf_fst.
  assert (Hout : take k out = out) by (apply take_ge; lia).
  rewrite Hout. split; [|reflexivity].
  rewrite take_app_le by lia. apply take_ge. lia.
Qed.


Lemma buf_size_succ : exists k, BUF_SIZE = S k /\ (BUF_SIZE - 1)%nat = k.
Proof. exists 1023%nat. split; reflexivity. Qed.

Lemma conversion_result_ok (out : list ascii) :
  Z.of_nat (length out) <= INT_MAX ->
  conversion_result out false = Z.of_nat (length out).
Proof.
  intros Hfit. unfold conversion_result. cbn [orb].
  by destruct (Z.ltb_spec INT_MAX (Z.of_nat (length out))); [lia|].
Qed.

Lemma conversion_result_failed (out : list ascii) (failed : bool) :
  failed = true \/ INT_MAX < Z.of_nat (length out) ->
  conversion_result out failed = -1.
Proof.
  intros Hwhy. unfold conversion_result.
  destruct failed; [reflexivity|]. cbn [orb].
  destruct (Z.ltb_spec INT_MAX (Z.of_nat (length out))); [reflexivity|].
  destruct Hwhy; [discriminate | lia].
Qed.

(** X3: [ttstub_fprintf] always returns, keeps the size of its buffer
    and leaves [format_buf] and the recovery point alone.  When the
    conversion succeeds it hands the embedder at most [BUF_SIZE - 1]
    characters: the conversion cut to that length, with the cut length
    as byte count and as return value (not the length of the whole
    conversion), and that cut text is the string its buffer then holds.
    When the conversion fails, or its length does not fit an [int], it
    returns -1 and hands the embedder nothing. *)
Theorem fprintf_clamps (handle : ptr) format args s :
  length (fprintf_buf s) = BUF_SIZE ->
  let out := vformat format args in
  let n := Nat.min (length out) (BUF_SIZE - 1) in
  exists s1,
    (vformat_error format args = false ->
     Z.of_nat (length out) <= INT_MAX ->
     ttstub_fprintf handle format args s = Returns (Z.of_nat n) s1 /\
     trace s1
       = trace s ++ [ev_output_write handle (take n out) (Z.of_nat n)] /\
     c_str_at s1 obj_fprintf_buf = c_str (take n out)) /\
    (vformat_error format args = true \/ INT_MAX < Z.of_nat (length out) ->
     ttstub_fprintf handle format args s = Returns (-1) s1 /\
     trace s1 = trace s) /\
    (exists r, ttstub_fprintf handle format args s = Returns r s1) /\
    length (fprintf_buf s1) = BUF_SIZE /\
    format_buf s1 = format_buf s /\ jump_buffer s1 = jump_buffer s.
Proof.
  intros Hlen out n. subst n. unfold ttstub_fprintf. fold out.
  destruct buf_size_succ as (k & Hk & Hk'). rewrite Hk', Hk in *.
  set (failed := vformat_error format args).
  set (b := fst (vsnprintf (fprintf_buf s) (S k) out failed)).
  assert (Hb : length b = S k).
  { unfold b. rewrite vsnprintf_length; lia. }
  assert (Hstr : c_str b = c_str (take k out)) by apply vsnprintf_c_str.
  change (snd (vsnprintf (fprintf_buf s) (S k) out failed))
    with (conversion_result out failed).
  assert (Hcase : (failed = false /\ Z.of_nat (length out) <= INT_MAX) \/
                  (failed = true \/ INT_MAX < Z.of_nat (length out))).
  { destruct failed; [right; by left|].
    destruct (Z.ltb_spec INT_MAX (Z.of_nat (length out)));
      [right; by right | left; by split]. }
  destruct Hcase as [[Hok Hfit] | Hwhy].
  2:{ rewrite (conversion_result_failed out failed Hwhy).
      cbv beta iota zeta.
      destruct (Z.leb_spec (Z.of_nat (S k)) (-1)) as [|_]; [lia|].
      destruct (Z.leb_spec 0 (-1)) as [|_]; [lia|].
      eexists.
      split.
      { intros Hok' Hfit'. exfalso.
        destruct Hwhy as [Hf|Hbig]; [congruence | lia]. }
      split; [intros _; split; reflexivity|].
      split; [by eexists|].
      cbn [fprintf_buf with_fprintf_buf format_buf jump_buffer c_str_at].
      by repeat split. }
  rewrite Hok, (conversion_result_ok out Hfit).
  destruct (Z.leb_spec (Z.of_nat (S k)) (Z.of_nat (length out)))
    as [Hlong|Hshort]; cbv beta iota zeta.
  - replace (Z.to_nat (Z.of_nat (S k) - 1)) with k by lia.
    replace (Z.of_nat (S k) - 1) with (Z.of_nat k) by lia.
    replace (Nat.min (length out) k) with k by lia.
    destruct (Z.leb_spec 0 (Z.of_nat k)) as [_|]; [|lia].
    eexists.
    split.
    { intros _ _. split; [reflexivity|].
      cbn [trace log fprintf_buf with_fprintf_buf c_str_at].
      split; [unfold b; by rewrite (vsnprintf_take_long _ out k) by lia|].
      assert (Hnul : b !! k = Some NUL).
      { unfold b. rewrite vsnprintf_fst.
        assert (Hkk : length (take k out) = k) by (rewrite length_take; lia).
        rewrite lookup_app_r by lia. by rewrite Hkk, Nat.sub_diag. }
      by rewrite (list_insert_id b k NUL Hnul). }
    split.
    { intros [Hf|Hbig]; [discriminate | lia]. }
    split; [by eexists|].
    cbn [trace log fprintf_buf with_fprintf_buf format_buf jump_buffer].
    split; [by rewrite length_insert|]. by split.
  - replace (Nat.min (length out) k) with (length out) by lia.
    destruct (Z.leb_spec 0 (Z.of_nat (length out))) as [_|]; [|lia].
    eexists.
    split.
    { intros _ _. split; [reflexivity|].
      cbn [trace log fprintf_buf with_fprintf_buf c_str_at].
      rewrite Nat2Z.id.
      destruct (vsnprintf_take_short (fprintf_buf s) out k failed)
        as [Htake _]; [lia|].
      fold b in Htake. split; [by rewrite Htake, take_ge by lia|].
      rewrite Hstr. f_equal. by rewrite !take_ge by lia. }
    split.
    { intros [Hf|Hbig]; [discriminate | lia]. }
    split; [by eexists|].
    cbn [trace log fprintf_buf with_fprintf_buf format_buf jump_buffer
         c_str_at].
    by repeat split.
Qed.

(** X4: the printf wrappers that report to the embedder pass on the
    conversion cut to [BUF_SIZE - 1] characters.  They always return,
    and the text they passed on is what [format_buf], the buffer behind
    [_ttbc_get_error_message], then holds. *)
Theorem wrappers_deliver_cut_text (diag : ptr) format args s :
  let text := c_str (take (BUF_SIZE - 1) (vformat format args)) in
  let s' := with_format_buf s
              (fst (vsnprintf (format_buf s) BUF_SIZE (vformat format args)
                      (vformat_error format args))) in
  ttstub_issue_warning format args s
    = Returns tt (log s' (ev_issue_warning text)) /\
  ttstub_issue_error format args s
    = Returns tt (log s' (ev_issue_error text)) /\
  ttstub_diag_printf diag format args s
    = Returns tt (log s' (ev_diag_append diag text)) /\
  ttstub_diag_vprintf diag format args s
    = Returns tt (log s' (ev_diag_append diag text)) /\
  (forall e, c_str_at (log s' e) obj_format_buf = text) /\
  (length text <= BUF_SIZE - 1)%nat.
Proof.
  intros text s'.
  assert (Htext : c_str_at s' obj_format_buf = text).
  { unfold s', text. destruct buf_size_succ as (k & Hk & Hk').
    rewrite Hk', Hk. apply vsnprintf_c_str. }
  unfold ttstub_issue_warning, ttstub_issue_error, ttstub_diag_printf,
    ttstub_diag_vprintf, vsnprintf_format_buf, bind.
  fold s'. rewrite Htext.
  do 4 (split; [reflexivity|]).
  split; [intros e; exact Htext|].
  unfold text. etransitivity; [apply c_str_length|].
  rewrite length_take. lia.
Qed.

(** ** The allocation wrappers *)

Lemma format_buf_message (buf out : list ascii) (failed : bool) :
  c_str (fst (vsnprintf buf BUF_SIZE out failed)) = c_str (take (BUF_SIZE - 1) out).
Proof.
  destruct buf_size_succ as (k & Hk & Hk'). rewrite Hk', Hk.
  apply vsnprintf_c_str.
Qed.

(** X5: an allocation wrapper that returns never returns [NULL], never
    asked the allocator for zero bytes or zero elements, and has changed
    nothing but the record of its calls. *)
Theorem allocators_never_return_null :
  (forall size s p s1, xmalloc size s = Returns p s1 ->
     p <> NULL /\
     exists n, n <> 0 /\ (size <> 0 -> n = size) /\
               p = malloc (trace s) n /\ s1 = log s (ev_malloc n)) /\
  (forall nelem elsize s p s1, xcalloc nelem elsize s = Returns p s1 ->
     p <> NULL /\
     exists n e, n <> 0 /\ e <> 0 /\
                 (nelem <> 0 -> n = nelem) /\ (elsize <> 0 -> e = elsize) /\
                 p = calloc (trace s) n e /\ s1 = log s (ev_calloc n e)) /\
  (forall old_ptr size s p s1, xrealloc old_ptr size s = Returns p s1 ->
     p <> NULL /\
     exists n, n <> 0 /\ (size <> 0 -> n = size) /\
       ((old_ptr = NULL /\ s1 = log s (ev_malloc n)) \/
        (old_ptr <> NULL /\ s1 = log s (ev_realloc old_ptr n)))) /\
  (forall (str : list ascii) s p s1, xstrdup str s = Returns p s1 ->
     p <> NULL /\
     s1 = log (log s (ev_malloc (Z.of_nat (length str) + 1)))
              (ev_strcpy p str)).
Proof.
  assert (Hm : forall size s p s1, xmalloc size s = Returns p s1 ->
     p <> NULL /\
     exists n, n <> 0 /\ (size <> 0 -> n = size) /\
               p = malloc (trace s) n /\ s1 = log s (ev_malloc n)).
  { intros size s p s1. unfold xmalloc, bind, ret, _tt_abort,
      vsnprintf_format_buf, longjmp.
    destruct (Z.eqb_spec (malloc (trace s) (if negb (size =? 0) then size else 1))
                NULL) as [|Hp]; [discriminate|].
    intros [= <- <-]. split; [exact Hp|].
    eexists. split; [|split; [|split; reflexivity]];
      destruct (Z.eqb_spec size 0); simpl; congruence. }
  split; [exact Hm|]. split; [|split].
  - intros nelem elsize s p s1. unfold xcalloc, bind, ret, _tt_abort,
      vsnprintf_format_buf, longjmp.
    match goal with |- context [?x =? NULL] =>
      destruct (Z.eqb_spec x NULL) as [|Hp]; [discriminate|] end.
    intros [= <- <-]. split; [exact Hp|].
    eexists _, _.
    split; [|split; [|split; [|split; [|split; reflexivity]]]];
      (destruct (Z.eqb_spec nelem 0); destruct (Z.eqb_spec elsize 0);
       simpl; congruence).
  - intros old_ptr size s p s1. unfold xrealloc.
    destruct (Z.eqb_spec old_ptr NULL) as [Hold|Hold].
    + intros Hrun. destruct (Hm size s p s1 Hrun) as (Hp & n & Hn & Hsz & _ & Hs).
      split; [exact Hp|]. exists n. by eauto.
    + unfold bind, ret, _tt_abort, vsnprintf_format_buf, longjmp.
      match goal with |- context [?x =? NULL] =>
        destruct (Z.eqb_spec x NULL) as [|Hp]; [discriminate|] end.
      intros [= <- <-]. split; [exact Hp|].
      eexists. split; [|split; [|right; split; [exact Hold | reflexivity]]];
        destruct (Z.eqb_spec size 0); simpl; congruence.
  - intros str s p s1. unfold xstrdup. unfold bind at 1.
    destruct (xmalloc (Z.of_nat (length str) + 1) s) as [q s0|] eqn:Hq;
      [|discriminate].
    intros [= <- <-].
    destruct (Hm _ s q s0 Hq) as (Hp & n & Hn & Hsz & _ & Hs).
    split; [exact Hp|]. rewrite Hs, (Hsz ltac:(lia)). reflexivity.
Qed.

(** X6: an allocation wrapper that does not return was refused by the
    allocator, which answered [NULL] to the one request the wrapper
    made; it jumps through [jump_buffer] with value 1, and the message
    names the request as the caller made it (a size of 0 is reported as
    0 although 1 byte was asked for).  [xrealloc] of a null pointer and
    [xstrdup] ask [malloc] and report as [xmalloc] does. *)
Theorem allocation_failure_message :
  (forall size s env val s1, xmalloc size s = Longjmp env val s1 ->
     malloc (trace s) (if size =? 0 then 1 else size) = NULL /\
     env = jump_buffer s /\ val = 1 /\
     trace s1 = trace s ++ [ev_malloc (if size =? 0 then 1 else size)] /\
     c_str_at s1 obj_format_buf =
       c_str (take (BUF_SIZE - 1)
                (vformat "xmalloc request for %lu bytes failed"
                   [arg_ulong size]))) /\
  (forall nelem elsize s env val s1,
     xcalloc nelem elsize s = Longjmp env val s1 ->
     calloc (trace s) (if nelem =? 0 then 1 else nelem)
       (if elsize =? 0 then 1 else elsize) = NULL /\
     env = jump_buffer s /\ val = 1 /\
     trace s1 = trace s ++ [ev_calloc (if nelem =? 0 then 1 else nelem)
                              (if elsize =? 0 then 1 else elsize)] /\
     c_str_at s1 obj_format_buf =
       c_str (take (BUF_SIZE - 1)
                (vformat "xcalloc request for %lu elements of size %lu failed"
                   [arg_ulong nelem; arg_ulong elsize]))) /\
  (forall old_ptr size s env val s1,
     xrealloc old_ptr size s = Longjmp env val s1 ->
     (if old_ptr =? NULL
      then malloc (trace s) (if size =? 0 then 1 else size)
      else realloc (trace s) old_ptr (if size =? 0 then 1 else size)) = NULL /\
     env = jump_buffer s /\ val = 1 /\
     trace s1 = trace s ++
       [if old_ptr =? NULL
        then ev_malloc (if size =? 0 then 1 else size)
        else ev_realloc old_ptr (if size =? 0 then 1 else size)] /\
     c_str_at s1 obj_format_buf =
       c_str (take (BUF_SIZE - 1)
                (vformat (if old_ptr =? NULL
                          then "xmalloc request for %lu bytes failed"
                          else "xrealloc() to %lu bytes failed")
                   [arg_ulong size]))) /\
  (forall (str : list ascii) s env val s1,
     xstrdup str s = Longjmp env val s1 ->
     malloc (trace s) (Z.of_nat (length str) + 1) = NULL /\
     env = jump_buffer s /\ val = 1 /\
     trace s1 = trace s ++ [ev_malloc (Z.of_nat (length str) + 1)] /\
     c_str_at s1 obj_format_buf =
       c_str (take (BUF_SIZE - 1)
                (vformat "xmalloc request for %lu bytes failed"
                   [arg_ulong (Z.of_nat (length str) + 1)]))).
Proof.
  assert (Hm : forall size s env val s1, xmalloc size s = Longjmp env val s1 ->
     malloc (trace s) (if size =? 0 then 1 else size) = NULL /\
     env = jump_buffer s /\ val = 1 /\
     trace s1 = trace s ++ [ev_malloc (if size =? 0 then 1 else size)] /\
     c_str_at s1 obj_format_buf =
       c_str (take (BUF_SIZE - 1)
                (vformat "xmalloc request for %lu bytes failed"
                   [arg_ulong size]))).
  { intros size s env val s1. unfold xmalloc, bind, ret, _tt_abort,
      vsnprintf_format_buf, longjmp.
    replace (if negb (size =? 0) then size else 1)
      with (if size =? 0 then 1 else size) by (by destruct (size =? 0)).
    match goal with |- context [?x =? NULL] =>
      destruct (Z.eqb_spec x NULL) as [Hp|]; [|discriminate] end.
    intros [= <- <- <-]. repeat split; [exact Hp|].
    apply (format_buf_message _ _ false). }
  split; [exact Hm|]. split; [|split].
  - intros nelem elsize s env val s1. unfold xcalloc, bind, ret, _tt_abort,
      vsnprintf_format_buf, longjmp.
    replace (if negb (nelem =? 0) then nelem else 1)
      with (if nelem =? 0 then 1 else nelem) by (by destruct (nelem =? 0)).
    replace (if negb (elsize =? 0) then elsize else 1)
      with (if elsize =? 0 then 1 else elsize) by (by destruct (elsize =? 0)).
    match goal with |- context [?x =? NULL] =>
      destruct (Z.eqb_spec x NULL) as [Hp|]; [|discriminate] end.
    intros [= <- <- <-]. repeat split; [exact Hp|].
    apply (format_buf_message _ _ false).
  - intros old_ptr size s env val s1. unfold xrealloc.
    destruct (Z.eqb_spec old_ptr NULL) as [Hold|Hold].
    + intros Hrun. exact (Hm size s env val s1 Hrun).
    + unfold bind, ret, _tt_abort, vsnprintf_format_buf, longjmp.
      replace (if negb (size =? 0) then size else 1)
        with (if size =? 0 then 1 else size) by (by destruct (size =? 0)).
      match goal with |- context [?x =? NULL] =>
        destruct (Z.eqb_spec x NULL) as [Hp|]; [|discriminate] end.
      intros [= <- <- <-]. repeat split; [exact Hp|].
      apply (format_buf_message _ _ false).
  - intros str s env val s1. unfold xstrdup. unfold bind at 1.
    destruct (xmalloc (Z.of_nat (length str) + 1) s) as [q s0|e v s0] eqn:Hq;
      [discriminate|].
    intros [= <- <- <-].
    destruct (Hm _ s e v s0 Hq) as (Hnull & He & Hv & Htrace & Hmsg).
    destruct (Z.eqb_spec (Z.of_nat (length str) + 1) 0) as [|_]; [lia|].
    by repeat split.
Qed.

(** ** What every state reached keeps *)

Ltac unfold_calls :=
  unfold perform, xstrdup, xrealloc, xmalloc, xcalloc, ttstub_diag_printf,
    ttstub_diag_vprintf, ttbc_set_checkpoint_callback, ttbc_fire_checkpoint,
    _tt_abort, _ttbc_get_error_message, ttbc_global_engine_enter,
    ttbc_global_engine_exit, ttstub_issue_warning, ttstub_issue_error,
    ttstub_fprintf, ttstub_input_get_mtime, ttstub_input_seek,
    ttstub_input_close, vsnprintf_format_buf, bind, ret, longjmp in *.

Ltac case_ifs :=
  repeat match goal with
    | |- context [if ?b then _ else _] => destruct b eqn:?
    | |- context [let '(_, _) := ?p in _] => destruct p eqn:?
    end.

Lemma perform_keeps_buffers c s :
  buffers_ok s ->
  match perform c s with
  | Returns _ s1 | Longjmp _ _ s1 => buffers_ok s1
  end.
Proof.
  intros (Hlen & Hnul & Hlen' & Hnul').
  destruct buf_size_succ as (k & Hk & Hk').
  assert (Hfmt : forall out failed,
            length (fst (vsnprintf (format_buf s) BUF_SIZE out failed)) = BUF_SIZE /\
            NUL ∈ fst (vsnprintf (format_buf s) BUF_SIZE out failed)).
  { intros out failed. split; [rewrite vsnprintf_length; lia|].
    rewrite Hk. apply vsnprintf_has_nul. }
  assert (Hfpr : forall out failed,
            length (fst (vsnprintf (fprintf_buf s) BUF_SIZE out failed)) = BUF_SIZE /\
            NUL ∈ fst (vsnprintf (fprintf_buf s) BUF_SIZE out failed)).
  { intros out failed. split; [rewrite vsnprintf_length; lia|].
    rewrite Hk. apply vsnprintf_has_nul. }
  assert (Hins : forall out failed,
            length (<[Z.to_nat (Z.of_nat BUF_SIZE - 1) := NUL]>
                      (fst (vsnprintf (fprintf_buf s) BUF_SIZE out failed))) = BUF_SIZE /\
            NUL ∈ <[Z.to_nat (Z.of_nat BUF_SIZE - 1) := NUL]>
                      (fst (vsnprintf (fprintf_buf s) BUF_SIZE out failed))).
  { intros out failed. destruct (Hfpr out failed) as [Hl _].
    split; [by rewrite length_insert|].
    apply list_elem_of_lookup. exists (Z.to_nat (Z.of_nat BUF_SIZE - 1)).
    apply list_lookup_insert_eq. rewrite Hl. lia. }
  unfold buffers_ok.
  destruct c; unfold_calls; case_ifs; simplify_eq;
    cbn [format_buf fprintf_buf with_format_buf with_fprintf_buf
         with_checkpoint log];
    repeat split;
    first [ exact Hlen | exact Hnul | exact Hlen' | exact Hnul'
          | apply Hfmt | apply Hfpr | apply Hins ].
Qed.

Lemma exec_keeps_buffers (p : prog) s :
  buffers_ok s ->
  match exec p s with
  | Returns _ s1 | Longjmp _ _ s1 => buffers_ok s1
  end.
Proof.
  revert s. induction p as [r | c k IH]; intros s Hok; simpl; [exact Hok|].
  pose proof (perform_keeps_buffers c s Hok) as Hc.
  destruct (perform c s) as [v s0 | env val s0]; [|exact Hc].
  by apply IH.
Qed.


(** ** Regions in sequence *)

Lemma region_result (FATAL : Z) (p : prog) s :
  exists r s1,
    myentrypoint FATAL (exec p) s = Returns r s1 /\
    setjmp_count s1 = S (setjmp_count s) /\
    (buffers_ok s -> buffers_ok s1) /\
    (exec p (setjmp_at obj_jump_buffer s) = Returns r s1 \/
     (r = FATAL /\
      exec p (setjmp_at obj_jump_buffer s)
        = Longjmp (Some (setjmp_count s)) 1 s1)).
Proof.
  unfold myentrypoint, setjmp_region, ttbc_global_engine_enter, ret.
  pose proof (exec_outcome p (setjmp_at obj_jump_buffer s)) as Hp.
  pose proof (exec_keeps_buffers p (setjmp_at obj_jump_buffer s)) as Hb.
  destruct (exec p (setjmp_at obj_jump_buffer s)) as [a s1 | env val s1].
  - destruct Hp as [_ Hn]. exists a, s1.
    split; [reflexivity|]. split; [exact Hn|]. split; [exact Hb | by left].
  - destruct Hp as (-> & -> & _ & Hn). cbn [setjmp_at jump_buffer
      with_saved_context]. case_decide; [|congruence].
    exists FATAL, s1.
    split; [reflexivity|]. split; [exact Hn|]. split; [exact Hb | by right].
Qed.

(** X8: regions that follow the prescribed pattern, run one after the
    other, never let a jump escape: the session comes back with one
    result per region.  Each body has been run exactly once, from the
    state the region before it left and with a control point of its
    own, and its region answers the result of that run, or the abort
    code when that run jumped to the region's control point; so a
    region that was diverted hands the next one the state it was
    diverted in, and does not keep it from running.  Each region saves
    one control point, and the buffers keep their shape. *)
Theorem session_always_exits (FATAL : Z) (bodies : list prog) s :
  exists rs s1,
    session FATAL bodies s = Returns rs s1 /\
    regions_ran FATAL bodies s rs s1 /\
    length rs = length bodies /\
    setjmp_count s1 = (setjmp_count s + length bodies)%nat /\
    (buffers_ok s -> buffers_ok s1).
Proof.
  revert s. induction bodies as [|body rest IH]; intros s.
  - exists [], s. cbn [session length regions_ran]. unfold ret.
    split; [reflexivity|]. split; [reflexivity|]. split; [reflexivity|].
    split; [lia | tauto].
  - destruct (region_result FATAL body s) as (r & s0 & Hr & Hn & Hb & Hres).
    destruct (IH s0) as (rs & s1 & Hrs & Hran & Hlen & Hn' & Hb').
    exists (r :: rs), s1.
    split.
    { cbn [session]. unfold bind at 1. rewrite Hr.
      unfold bind at 1. rewrite Hrs. reflexivity. }
    split; [cbn [regions_ran]; exists s0; by split|].
    split; [cbn [length]; by rewrite Hlen|].
    split; [cbn [length]; lia | tauto].
Qed.

End SupportMore.

Lemma fprintf_clamps_witness :
  (exists s1,
     @Support.ttstub_fprintf Support.quiet_host 3 "page %d"
       [Support.arg_int 12] Support.initial_state = Support.Returns 7 s1 /\
     Support.trace s1 =
       [Support.ev_output_write 3 (list_ascii_of_string "page 12") 7] /\
     Support.c_str_at s1 Support.obj_fprintf_buf
       = list_ascii_of_string "page 12") /\
  (exists s1,
     @Support.ttstub_fprintf Support.garbling_host 3 "page %d"
       [Support.arg_int 12] Support.initial_state
       = Support.Returns (-1) s1 /\
     Support.trace s1 = []).
Proof.
  split.
  - destruct (fprintf_clamps (H := Support.quiet_host) 3 "page %d"
                [Support.arg_int 12] Support.initial_state)
      as (s1 & Hok & _); [reflexivity|].
    destruct Hok as (Hrun & Htrace & Hbuf);
      [reflexivity | vm_compute; discriminate|].
    exists s1. split; [exact Hrun|]. split; [exact Htrace | exact Hbuf].
  - destruct (fprintf_clamps (H := Support.garbling_host) 3 "page %d"
                [Support.arg_int 12] Support.initial_state)
      as (s1 & _ & Hfail & _); [reflexivity|].
    destruct Hfail as [Hrun Htrace]; [by left|].
    exists s1. split; [exact Hrun | exact Htrace].
Defined.

Lemma allocators_never_return_null_witness :
  4096 <> NULL /\
  exists n, n <> 0 /\ (0 <> 0 -> n = 0) /\
    4096 = @Support.malloc Support.quiet_host
             (Support.trace Support.initial_state) n /\
    Support.log Support.initial_state (Support.ev_malloc 1)
      = Support.log Support.initial_state (Support.ev_malloc n).
Proof.
  apply (proj1 (allocators_never_return_null (H := Support.quiet_host))
           0 Support.initial_state 4096
           (Support.log Support.initial_state (Support.ev_malloc 1))).
  reflexivity.
Defined.

Lemma allocation_failure_message_witness :
  exists s1,
    @Support.xmalloc Sessions.exhausted_host 0 Support.initial_state
      = Support.Longjmp None 1 s1 /\
    Support.c_str_at s1 Support.obj_format_buf
      = list_ascii_of_string "xmalloc request for 0 bytes failed".
Proof.
  eexists. split; [reflexivity|].
  destruct (proj1 (allocation_failure_message (H := Sessions.exhausted_host))
              0 Support.initial_state None 1 _ eq_refl)
    as (_ & _ & _ & _ & Hmsg).
  rewrite Hmsg. vm_compute. reflexivity.
Defined.


Lemma session_always_exits_witness :
  exists rs s1,
    @Sessions.session Support.failing_host 99
      [Support.close_region; Support.warning_region] Support.initial_state
      = Support.Returns rs s1 /\
    rs = [99; 0] /\ Support.setjmp_count s1 = 2%nat.
Proof.
  destruct (session_always_exits (H := Support.failing_host) 99
              [Support.close_region; Support.warning_region]
              Support.initial_state) as (rs & s1 & Hrun & _ & _ & Hn & _).
  exists rs, s1. split; [exact Hrun|]. split; [|exact Hn].
  vm_compute in Hrun. congruence.
Defined.

(** * Properties of the font set-up *)
Section AfmName.
Import Layout.

Lemma strrchr_none (s : list ascii) (c : ascii) :
  strrchr s c = None <-> c ∉ s.
Proof.
  induction s as [|x s IH]; simpl.
  - split; [intros _ Hin; by apply elem_of_nil in Hin | done].
  - destruct (strrchr s c) as [i|] eqn:Hs.
    + split; [discriminate|]. intros Hnot. exfalso.
      assert (Hin : c ∉ s) by (intros Hin; apply Hnot; by right).
      apply IH in Hin. discriminate.
    + destruct (Ascii.eqb_spec x c) as [->|Hne].
      * split; [discriminate|]. intros Hnot. exfalso. apply Hnot. left.
      * split; [|done]. intros _ Hin.
        apply elem_of_cons in Hin as [->|Hin]; [done|].
        by apply (proj1 IH).
Qed.

Lemma strrchr_last (stem ext : list ascii) (c : ascii) :
  c ∉ ext -> strrchr (stem ++ c :: ext) c = Some (length stem).
Proof.
  intros Hext. induction stem as [|x stem IH]; simpl.
  - apply strrchr_none in Hext. rewrite Hext.
    by rewrite (proj2 (Ascii.eqb_eq c c) eq_refl).
  - by rewrite IH.
Qed.

Lemma strrchr_bound (s : list ascii) (c : ascii) (i : nat) :
  strrchr s c = Some i -> (i < length s)%nat.
Proof.
  revert i. induction s as [|x s IH]; simpl; intros i; [discriminate|].
  destruct (strrchr s c) as [j|].
  - intros [= <-]. specialize (IH j eq_refl). lia.
  - destruct (Ascii.eqb x c); [|discriminate]. intros [= <-]. lia.
Qed.

(** X9: the name built for the metrics file ends in [".afm"] and fits
    the [plen + 5] bytes allocated for it, terminator included.  A path
    without a dot gets the suffix appended; otherwise everything from
    the last dot on is replaced, wherever that dot is, so that a dot in
    a directory name cuts the path there. *)
Theorem afm_name_fits (pathname : list ascii) :
  (length (afm_name_of pathname) + 1 <= length pathname + 5)%nat /\
  (exists stem, afm_name_of pathname = stem ++ list_ascii_of_string ".afm" /\
                stem `prefix_of` pathname) /\
  ("."%char ∉ pathname ->
     afm_name_of pathname = pathname ++ list_ascii_of_string ".afm") /\
  (forall stem ext, "."%char ∉ ext ->
     afm_name_of (stem ++ "."%char :: ext)
       = stem ++ list_ascii_of_string ".afm") /\
  afm_name_of (list_ascii_of_string "fonts.d/cmr10")
    = list_ascii_of_string "fonts.afm".
Proof.
  unfold afm_name_of. split; [|split; [|split; [|split]]].
  - destruct (strrchr pathname ".") as [dot|] eqn:Hdot.
    + apply strrchr_bound in Hdot.
      rewrite length_app, length_take. simpl. lia.
    + rewrite length_app. simpl. lia.
  - destruct (strrchr pathname ".") as [dot|].
    + exists (take dot pathname). split; [reflexivity|].
      apply prefix_take.
    + by exists pathname.
  - intros Hno. apply strrchr_none in Hno. by rewrite Hno.
  - intros stem ext Hext. rewrite (strrchr_last stem ext _ Hext).
    by rewrite take_app_length.
  - reflexivity.
Qed.

End AfmName.

Lemma afm_name_fits_witness :
  Layout.afm_name_of (list_ascii_of_string "a.b/cmr10.pfb")
  = list_ascii_of_string "a.b/cmr10.afm".
Proof.
  apply (proj1 (proj2 (proj2 (proj2 (afm_name_fits [])))) 
           (list_ascii_of_string "a.b/cmr10") (list_ascii_of_string "pfb")).
  intros Hin.
  repeat (apply elem_of_cons in Hin as [Heq|Hin]; [discriminate|]).
  by apply elem_of_nil in Hin.
Defined.

Section LayoutFacts.
Import Support Layout.
Context {float : Type} `{Host} `{FontHost float}.

Implicit Types (w : world float).

Ltac run_layout :=
  unfold get_ft_library, maybe_shutdown_ft, get_font_funcs,
    hb_reference_table_func, initialize_hb_font, set_font,
    lbind, lret, get, ask, tell, modify.

Ltac world_fields :=
  cbn [support ft_lib ft_face_count ft_lib_shutdown_pending
       custom_font_funcs font calls called
       with_support with_ft_lib with_ft_face_count
       with_ft_lib_shutdown_pending with_custom_font_funcs with_font].

(** Names for the answers of the libraries, so that rewriting the record
    of calls leaves them alone. *)
Ltac hide_answers :=
  repeat match goal with
    | |- context [FT_Init_FreeType ?h] =>
        let x := fresh "init" in set (x := FT_Init_FreeType h) in *
    | |- context [ttbc_input_open ?h ?a ?b ?c] =>
        let x := fresh "handle" in set (x := ttbc_input_open h a b c) in *
    | |- context [ttbc_input_get_size ?h ?a] =>
        let x := fresh "sz" in set (x := ttbc_input_get_size h a) in *
    | |- context [ttbc_input_read ?h ?a ?b ?c] =>
        let x := fresh "nread" in set (x := ttbc_input_read h a b c) in *
    | |- context [libc_malloc ?h ?a] =>
        let x := fresh "block" in set (x := libc_malloc h a) in *
    | |- context [libc_strdup ?h ?a] =>
        let x := fresh "copy" in set (x := libc_strdup h a) in *
    | |- context [FT_New_Memory_Face ?h ?a ?b ?c ?d] =>
        let x := fresh "made" in set (x := FT_New_Memory_Face h a b c d) in *
    | |- context [FT_IS_SCALABLE ?h ?a] =>
        let x := fresh "scalable" in set (x := FT_IS_SCALABLE h a) in *
    | |- context [FT_IS_SFNT ?h ?a] =>
        let x := fresh "sfnt" in set (x := FT_IS_SFNT h a) in *
    | |- context [face_units_per_EM ?h ?a] =>
        let x := fresh "upem" in set (x := face_units_per_EM h a) in *
    | |- context [face_ascender ?h ?a] =>
        let x := fresh "asc" in set (x := face_ascender h a) in *
    | |- context [face_descender ?h ?a] =>
        let x := fresh "desc" in set (x := face_descender h a) in *
    | |- context [FT_Get_Sfnt_Table ?h ?a ?b] =>
        let x := fresh "table" in set (x := FT_Get_Sfnt_Table h a b) in *
    | |- context [post_italicAngle ?h ?a] =>
        let x := fresh "angle" in set (x := post_italicAngle h a) in *
    | |- context [os2_sCapHeight ?h ?a] =>
        let x := fresh "cap" in set (x := os2_sCapHeight h a) in *
    | |- context [os2_sxHeight ?h ?a] =>
        let x := fresh "xh" in set (x := os2_sxHeight h a) in *
    | |- context [FT_Load_Sfnt_Table ?h ?a ?b ?c ?d] =>
        let x := fresh "loaded" in set (x := FT_Load_Sfnt_Table h a b c d) in *
    | |- context [hb_face_create_for_tables ?h ?a] =>
        let x := fresh "hb_face" in
        set (x := hb_face_create_for_tables h a) in *
    | |- context [hb_font_create ?h ?a] =>
        let x := fresh "hb_font" in set (x := hb_font_create h a) in *
    | |- context [hb_font_funcs_create ?h] =>
        let x := fresh "funcs" in set (x := hb_font_funcs_create h) in *
    end.

Lemma get_ft_library_set w :
  ft_lib w <> NULL -> get_ft_library w = Ret (ft_lib w) w.
Proof. intros Hw. run_layout. by destruct (Z.eqb_spec (ft_lib w) NULL). Qed.

Lemma get_ft_library_unset w :
  ft_lib w = NULL ->
  let r := FT_Init_FreeType (calls w) in
  let w1 := called w (ev_FT_Init_FreeType (fst r) (snd r)) in
  let w2 := match snd r with
            | Some stored => with_ft_lib w1 stored
            | None => w1
            end in
  get_ft_library w =
    if negb (fst r =? 0) then
      Ret NULL
        (called w2
           (ev_stderr ("xetex_layout: FT_Init_FreeType failed: %d" ++ LF)
              [arg_int (fst r)]))
    else Ret (ft_lib w2) w2.
Proof.
  intros Hw. run_layout. rewrite Hw. cbn [Z.eqb negb NULL].
  destruct (FT_Init_FreeType (calls w)) as [err [stored|]]; cbn [fst snd];
    by destruct (negb (err =? 0)).
Qed.

(** X10: [get_ft_library] always returns.  A non-null result is the
    library held in [ft_lib] from then on: every later call returns it,
    calls FreeType no more and changes nothing.  With [ft_lib] set on
    entry nothing is called at all; otherwise [FT_Init_FreeType] is
    called exactly once, and only [ft_lib] is written. *)
Theorem ft_library_is_singleton w :
  exists lib w1,
    get_ft_library w = Ret lib w1 /\
    (lib <> NULL -> ft_lib w1 = lib /\ get_ft_library w1 = Ret lib w1) /\
    (ft_lib w <> NULL -> lib = ft_lib w /\ w1 = w) /\
    (exists new, calls w1 = calls w ++ new /\
       length (library_inits new)
         = (if ft_lib w =? NULL then 1%nat else 0%nat) /\
       opened new = [] /\ allocated new = [] /\ freed new = []) /\
    font w1 = font w /\ support w1 = support w /\
    ft_face_count w1 = ft_face_count w /\
    ft_lib_shutdown_pending w1 = ft_lib_shutdown_pending w /\
    custom_font_funcs w1 = custom_font_funcs w.
Proof.
  destruct (Z.eqb_spec (ft_lib w) NULL) as [Hnull|Hlib].
  - rewrite (get_ft_library_unset w Hnull).
    destruct (FT_Init_FreeType (calls w)) as [err stored]. cbn [fst snd].
    destruct (Z.eqb_spec err 0) as [->|Herr]; cbn [negb].
    + eexists _, _. split; [reflexivity|].
      split; [intros Hres; split; [reflexivity | by apply get_ft_library_set]|].
      split; [done|].
      split.
      { exists [ev_FT_Init_FreeType 0 stored].
        split; [by destruct stored | by repeat split]. }
      by destruct stored.
    + eexists _, _. split; [reflexivity|].
      split; [done|]. split; [done|].
      split.
      { eexists [ev_FT_Init_FreeType err stored; ev_stderr _ _].
        split; [destruct stored; world_fields; by rewrite <- app_assoc
               | by repeat split]. }
      by destruct stored.
  - exists (ft_lib w), w. rewrite (get_ft_library_set w Hlib).
    split; [reflexivity|].
    split; [intros _; split; reflexivity|].
    split; [done|].
    split; [exists []; by rewrite app_nil_r|]. by repeat split.
Qed.

(** X11: [maybe_shutdown_ft] shuts FreeType down only when a shutdown is
    pending, no face is counted and a library is held; it then calls
    [FT_Done_FreeType] once on that library and clears [ft_lib] and the
    pending flag.  In every other state, in particular while a face is
    counted, it does nothing.  A second call right after never does
    anything, and after a shutdown [get_ft_library] initialises
    FreeType anew. *)
Theorem shutdown_only_when_idle w :
  exists w1,
    maybe_shutdown_ft w = Ret tt w1 /\
    (ft_face_count w <> 0 \/ ft_lib_shutdown_pending w = 0 \/ ft_lib w = NULL ->
       w1 = w) /\
    (ft_face_count w = 0 -> ft_lib_shutdown_pending w <> 0 ->
     ft_lib w <> NULL ->
       calls w1 = calls w ++ [ev_FT_Done_FreeType (ft_lib w)] /\
       ft_lib w1 = NULL /\ ft_lib_shutdown_pending w1 = 0 /\
       length (library_inits
                 (match get_ft_library w1 with
                  | Ret _ w2 | Jump _ _ w2 => drop (length (calls w1)) (calls w2)
                  end)) = 1%nat) /\
    maybe_shutdown_ft w1 = Ret tt w1 /\
    font w1 = font w /\ support w1 = support w /\
    ft_face_count w1 = ft_face_count w /\
    custom_font_funcs w1 = custom_font_funcs w.
Proof.
  unfold maybe_shutdown_ft at 1.
  destruct (Z.eqb_spec (ft_lib_shutdown_pending w) 0) as [Hp|Hp];
    [|destruct (Z.eqb_spec (ft_face_count w) 0) as [Hc|Hc];
      [destruct (Z.eqb_spec (ft_lib w) NULL) as [Hl|Hl]|]];
    cbn [negb andb].
  3:{ unfold lbind, tell, modify. eexists. split; [reflexivity|].
      world_fields.
      split; [intros [?|[?|?]]; done|].
      split.
      { intros _ _ _. do 3 (split; [reflexivity|]).
        match goal with |- context [get_ft_library ?w1] =>
          rewrite (get_ft_library_unset w1 eq_refl) end.
        cbn zeta. world_fields.
        destruct (FT_Init_FreeType _) as [err stored]. cbn [fst snd].
        destruct (negb (err =? 0)); destruct stored; world_fields;
          rewrite <- ?(app_assoc (calls w ++ [ev_FT_Done_FreeType (ft_lib w)])),
            drop_app_length; reflexivity. }
      split; [by unfold maybe_shutdown_ft; world_fields|].
      by repeat split. }
  all: exists w; split; [reflexivity|]; split; [done|];
    (split; [done|]); split;
    [unfold maybe_shutdown_ft;
     first [ by destruct (Z.eqb_spec (ft_lib_shutdown_pending w) 0)
           | by destruct (Z.eqb_spec (ft_lib_shutdown_pending w) 0);
             destruct (Z.eqb_spec (ft_face_count w) 0);
             destruct (Z.eqb_spec (ft_lib w) NULL) ]
    | by repeat split].
Qed.

(** X12: [hb_reference_table_func] always returns, and never loses the
    buffer it allocates: an empty blob comes with every allocation of
    the call freed again (table missing or empty, allocation refused,
    second load failed); any other blob holds the non-null buffer that
    was allocated, as data and as the user data [free] is called on,
    with the length the second load reported. *)
Theorem reference_table_owns_or_frees (face : ptr) (tag : Z) w :
  exists blob w1 new,
    hb_reference_table_func face tag w = Ret blob w1 /\
    calls w1 = calls w ++ new /\
    match blob with
    | hb_blob_get_empty => allocated new = freed new
    | hb_blob_create_writable_free data len user_data =>
        data <> NULL /\ user_data = data /\
        allocated new = [data] /\ freed new = [] /\
        exists asked,
          last new = Some (ev_FT_Load_Sfnt_Table face tag data asked 0 len)
    end /\
    opened new = [] /\
    font w1 = font w /\ support w1 = support w /\ ft_lib w1 = ft_lib w /\
    ft_face_count w1 = ft_face_count w.
Proof.
  run_layout.
  destruct (FT_Load_Sfnt_Table (calls w) face tag NULL 0) as [err len] eqn:H1.
  cbn [fst snd].
  destruct (Z.eqb_spec err 0) as [->|Herr]; cbn [negb orb].
  2:{ eexists _, _, [_]. split; [reflexivity|]. by repeat split. }
  destruct (Z.eqb_spec len 0) as [->|Hlen].
  { eexists _, _, [_]. split; [reflexivity|]. by repeat split. }
  world_fields.
  destruct (Z.eqb_spec (libc_malloc (calls w ++ [ev_FT_Load_Sfnt_Table face tag NULL 0 0 len]) len) NULL)
    as [Hbuf|Hbuf].
  { eexists _, _, [_; _]. split; [reflexivity|]. world_fields.
    split; [by rewrite <- app_assoc|].
    split; [|by repeat split].
    cbn [allocated freed omap list_omap]. rewrite Hbuf. reflexivity. }
  set (buffer := libc_malloc _ len) in *.
  destruct (FT_Load_Sfnt_Table _ face tag buffer len) as [err2 len2] eqn:H2.
  cbn [fst snd].
  destruct (Z.eqb_spec err2 0) as [->|Herr2]; cbn [negb].
  - eexists _, _, [_; _; _]. split; [reflexivity|]. world_fields.
    split; [by rewrite <- !app_assoc|].
    split; [|by repeat split].
    split; [exact Hbuf|]. split; [reflexivity|].
    split.
    { cbn [allocated omap list_omap].
      by destruct (Z.eqb_spec buffer NULL). }
    split; [reflexivity|]. by exists len.
  - eexists _, _, [_; _; _; _]. split; [reflexivity|]. world_fields.
    split; [by rewrite <- !app_assoc|].
    split; [|by repeat split].
    cbn [allocated freed omap list_omap].
    by destruct (Z.eqb_spec buffer NULL).
Qed.

(** ** The HarfBuzz font *)

Lemma get_font_funcs_effect w :
  exists funcs w1 new,
    get_font_funcs w = Ret funcs w1 /\
    calls w1 = calls w ++ new /\
    funcs = custom_font_funcs w1 /\
    (custom_font_funcs w <> NULL -> w1 = w /\ new = []) /\
    (custom_font_funcs w = NULL ->
       new = ev_hb_font_funcs_create funcs
             :: map (ev_hb_font_funcs_set funcs)
                  [nominal_glyph_func; variation_glyph_func;
                   glyph_h_advance_func; glyph_v_advance_func;
                   glyph_h_origin_func; glyph_v_origin_func;
                   glyph_h_kerning_func; glyph_extents_func;
                   glyph_contour_point_func; glyph_name_func]
             ++ [ev_hb_font_funcs_make_immutable funcs]) /\
    Forall (fun e => forall f, e <> ev_hb_face_destroy f) new /\
    opened new = [] /\ allocated new = [] /\ freed new = [] /\
    faces_made new = [] /\ faces_done new = [] /\
    font w1 = font w /\ support w1 = support w /\ ft_lib w1 = ft_lib w /\
    ft_face_count w1 = ft_face_count w.
Proof.
  run_layout. destruct (Z.eqb_spec (custom_font_funcs w) NULL) as [Hf|Hf];
    cbn [negb].
  - eexists _, _, (_ :: _). split; [reflexivity|]. world_fields.
    split; [rewrite <- !app_assoc; reflexivity|].
    split; [reflexivity|]. split; [done|]. split; [reflexivity|].
    split; [repeat constructor; discriminate|].
    by repeat split.
  - exists (custom_font_funcs w), w, []. split; [reflexivity|].
    split; [by rewrite app_nil_r|]. split; [reflexivity|].
    split; [done|]. split; [done|]. split; [constructor|]. by repeat split.
Qed.

Lemma initialize_hb_font_effect w :
  exists r w1 new,
    initialize_hb_font w = Ret r w1 /\
    calls w1 = calls w ++ new /\
    (r = 0 \/ r = -1) /\
    opened new = [] /\ freed new = [] /\
    faces_made new = [] /\ faces_done new = [] /\
    (forall p, p ∈ allocated new ->
       exists hb_face, ev_hb_face_create_for_tables p hb_face ∈ new) /\
    (exists h, font w1 = font_with_hb_font (font w) h) /\
    support w1 = support w /\ ft_lib w1 = ft_lib w /\
    ft_face_count w1 = ft_face_count w.
Proof.
  unfold initialize_hb_font. unfold lbind at 1. unfold ask at 1.
  destruct (Z.eqb_spec (libc_malloc (calls w) sizeof_hb_face_data) NULL)
    as [Hm|Hm].
  { eexists _, _, [_]. split; [reflexivity|]. world_fields.
    split; [reflexivity|]. split; [by right|].
    do 4 (split; [reflexivity|]).
    split.
    { intros p. cbn [allocated omap list_omap]. rewrite Hm. cbn.
      intros Hin. by apply elem_of_nil in Hin. }
    split; [|by repeat split].
    exists (hb_font (font w)). by destruct (font w). }
  set (hb_data := libc_malloc (calls w) sizeof_hb_face_data) in *.
  unfold lbind, get, tell, ask, set_font, modify, lret. world_fields.
  hide_answers.
  match goal with |- context [get_font_funcs ?w0] =>
    destruct (get_font_funcs_effect w0)
      as (funcs & w1 & newf & Hrun & Hcalls & _ & _ & _ & _ & Ho & Ha & Hfr
          & Hfm & Hfd & Hfont & Hsup & Hlib & Hcount);
    rewrite Hrun end.
  eexists _, _, (_ :: _ :: _ :: _ :: _ :: _ :: _ :: newf ++ [_; _; _; _]).
  split; [reflexivity|]. world_fields. rewrite Hcalls. world_fields.
  split; [rewrite <- !app_assoc; reflexivity|].
  split; [by left|].
  unfold opened, freed, faces_made, faces_done, allocated in *.
  cbn [omap list_omap]. rewrite !omap_app, ?Ho, ?Ha, ?Hfr, ?Hfm, ?Hfd.
  cbn [omap list_omap app].
  do 4 (split; [reflexivity|]).
  split.
  { destruct (Z.eqb_spec hb_data NULL); [done|].
    intros p Hp. apply list_elem_of_singleton in Hp as ->.
    eexists. right. right. left. }
  rewrite Hfont, Hsup, Hlib, Hcount. world_fields.
  split; [by eexists|]. by repeat split.
Qed.

(** X13: [initialize_hb_font] always returns 0 or -1.  It returns -1
    exactly when the allocation of its face data is refused, and has
    then called nothing else and left the font record as it was.
    Otherwise the block allocated is handed to HarfBuzz as the face's
    user data, the face made is destroyed once, right after the font has
    been created from it, and [hb_font] is the font created.  With
    [custom_font_funcs] set, no font functions are created. *)
Theorem hb_font_initialised w :
  exists r w1 new,
    initialize_hb_font w = Ret r w1 /\
    calls w1 = calls w ++ new /\
    (r = -1 <-> libc_malloc (calls w) sizeof_hb_face_data = NULL) /\
    (r = -1 ->
       new = [ev_malloc sizeof_hb_face_data NULL] /\ font w1 = font w /\
       custom_font_funcs w1 = custom_font_funcs w) /\
    (r <> -1 ->
       r = 0 /\
       exists hb_data hb_face rest,
         hb_data <> NULL /\ allocated new = [hb_data] /\
         new = ev_malloc sizeof_hb_face_data hb_data
               :: ev_store_hb_face_data hb_data (ft_face (font w))
               :: ev_hb_face_create_for_tables hb_data hb_face
               :: ev_hb_face_set_index hb_face (index (font w))
               :: ev_hb_face_set_upem hb_face (units_per_em (font w))
               :: ev_hb_font_create hb_face (hb_font (font w1))
               :: ev_hb_face_destroy hb_face :: rest /\
         Forall (fun e => forall f, e <> ev_hb_face_destroy f) rest /\
         font w1 = font_with_hb_font (font w) (hb_font (font w1))) /\
    (custom_font_funcs w <> NULL ->
       custom_font_funcs w1 = custom_font_funcs w /\
       Forall (fun e => forall f, e <> ev_hb_font_funcs_create f) new) /\
    support w1 = support w /\ ft_lib w1 = ft_lib w /\
    ft_face_count w1 = ft_face_count w.
Proof.
  unfold initialize_hb_font. unfold lbind at 1. unfold ask at 1.
  destruct (Z.eqb_spec (libc_malloc (calls w) sizeof_hb_face_data) NULL)
    as [Hm|Hm].
  { eexists _, _, [_]. split; [reflexivity|]. world_fields.
    split; [reflexivity|]. split; [by split|].
    split; [intros _; by rewrite Hm|]. split; [done|].
    split; [|by repeat split].
    intros _. split; [reflexivity|]. repeat constructor. discriminate. }
  set (hb_data := libc_malloc (calls w) sizeof_hb_face_data) in *.
  unfold lbind, get, tell, ask, set_font, modify, lret. world_fields.
  hide_answers.
  match goal with |- context [get_font_funcs ?w0] =>
    destruct (get_font_funcs_effect w0)
      as (funcs & w1 & newf & Hrun & Hcalls & Hfuncs & Hkeep & _ & Hnd & _
          & Ha & _ & _ & _ & Hfont & Hsup & Hlib & Hcount);
    rewrite Hrun end.
  eexists _, _, (_ :: _ :: _ :: _ :: _ :: _ :: _ :: newf ++ [_; _; _; _]).
  split; [reflexivity|]. world_fields. rewrite Hcalls. world_fields.
  split; [rewrite <- !app_assoc; reflexivity|].
  split; [split; [discriminate | done]|].
  split; [discriminate|].
  rewrite Hfont, Hsup, Hlib, Hcount. world_fields.
  cbn [hb_font font_with_hb_font].
  split; [|split; [|by repeat split]].
  - intros _. split; [reflexivity|].
    eexists hb_data, _, _. split; [exact Hm|].
    split.
    { unfold allocated in *. cbn [omap list_omap]. rewrite omap_app, Ha.
      by destruct (Z.eqb_spec hb_data NULL). }
    split; [reflexivity|]. split; [|reflexivity].
    apply Forall_app. split; [exact Hnd|].
    repeat constructor; discriminate.
  - intros Hset. destruct (Hkeep Hset) as [-> ->].
    split; [reflexivity|]. repeat constructor; discriminate.
Qed.

(** ** Loading a font file *)

Ltac unfold_layout :=
  unfold attach_afm, record_metrics, initialize_ft, support_call,
    ttstub_input_close, longjmp, set_font, lbind, lret, get, ask, tell,
    modify.

Ltac simp_world :=
  cbv beta iota;
  cbn [support ft_lib ft_face_count ft_lib_shutdown_pending
       custom_font_funcs font calls called
       with_support with_ft_lib with_ft_face_count
       with_ft_lib_shutdown_pending with_custom_font_funcs with_font
       trace format_buf jump_buffer log world_of fst snd];
  hide_answers.

Ltac case_conditions :=
  simp_world;
  repeat (match goal with
          | |- context [if ?b then _ else _] => destruct b eqn:?
          | |- context [match ?o with Some _ => _ | None => _ end] =>
              destruct o eqn:?
          end; simp_world).

Ltac use_conditions :=
  repeat match goal with
    | Hc : ?b = true |- context [?b] => rewrite Hc
    | Hc : ?b = false |- context [?b] => rewrite Hc
    end.

Ltac measure :=
  unfold opened, closed, allocated, freed, faces_made, faces_done;
  cbn [omap list_omap app]; use_conditions; cbn [omap list_omap app].

Ltac extension :=
  first [ rewrite <- !app_assoc; reflexivity
        | symmetry; apply app_nil_r
        | reflexivity ].

Lemma attach_afm_effect (pathname : list ascii) w :
  exists new snew,
    calls (world_of (attach_afm pathname w)) = calls w ++ new /\
    trace (support (world_of (attach_afm pathname w)))
      = trace (support w) ++ snew /\
    closed snew = opened new /\
    freed new ⊆+ allocated new /\
    faces_made new = [] /\ faces_done new = [] /\
    match attach_afm pathname w with
    | Ret _ _ =>
        exists kept, allocated new ≡ₚ freed new ++ kept /\
          forall p, p ∈ kept ->
            exists handle len nread, ev_input_read handle p len nread ∈ new
    | Jump env val _ =>
        env = jump_buffer (support w) /\ val = 1 /\ freed new = [] /\
        exists handle,
          snew = [Support.ev_input_close handle] /\
          ttbc_input_close (trace (support w)) handle <> 0
    end /\
    font (world_of (attach_afm pathname w)) = font w /\
    ft_face_count (world_of (attach_afm pathname w)) = ft_face_count w /\
    ft_lib (world_of (attach_afm pathname w)) = ft_lib w /\
    format_buf (support (world_of (attach_afm pathname w)))
      = format_buf (support w) /\
    jump_buffer (support (world_of (attach_afm pathname w)))
      = jump_buffer (support w).
Proof.
  unfold_layout. case_conditions; eexists _, _.
  all: split; [extension|].
  all: split; [extension|].
  all: split; [measure; reflexivity|].
  all: split; [measure; solve_submseteq|].
  all: split; [measure; reflexivity|].
  all: split; [measure; reflexivity|].
  all: split; [|done].
  all: measure.
  all: try (exists []; split; [reflexivity|];
            intros q Hq; by apply elem_of_nil in Hq).
  all: try (eexists [_]; split; [reflexivity|];
            intros q Hq; apply list_elem_of_singleton in Hq as ->;
            eexists _, _, _; do 4 right; left).
  all: do 3 (split; [reflexivity|]); eexists; split; [reflexivity|];
       by apply Z.eqb_neq, negb_true_iff.
Qed.

Lemma get_ft_library_effect w :
  exists lib w1 new,
    get_ft_library w = Ret lib w1 /\
    calls w1 = calls w ++ new /\
    opened new = [] /\ allocated new = [] /\ freed new = [] /\
    faces_made new = [] /\ faces_done new = [] /\
    font w1 = font w /\ support w1 = support w /\
    ft_face_count w1 = ft_face_count w.
Proof.
  destruct (Z.eqb_spec (ft_lib w) NULL) as [Hnull|Hlib].
  - rewrite (get_ft_library_unset w Hnull).
    destruct (FT_Init_FreeType (calls w)) as [err stored]. cbn [fst snd].
    destruct (negb (err =? 0)); destruct stored;
      eexists _, _, _;
      (split; [reflexivity|]); world_fields;
      (split; [extension|]); by repeat split.
  - rewrite (get_ft_library_set w Hlib). exists (ft_lib w), w, [].
    split; [reflexivity|]. split; [extension|]. by repeat split.
Qed.

Lemma record_metrics_effect (pathname : list ascii) (idx : Z) w :
  exists r w1 new,
    record_metrics pathname idx w = Ret r w1 /\
    calls w1 = calls w ++ new /\
    (r = 0 \/ r = -1) /\
    opened new = [] /\ freed new = [] /\
    faces_made new = [] /\ faces_done new = [] /\
    (forall p, p ∈ allocated new ->
       p = filename (font w1) \/
       exists hb_face, ev_hb_face_create_for_tables p hb_face ∈ new) /\
    font_data (font w1) = font_data (font w) /\
    ft_face (font w1) = ft_face (font w) /\
    index (font w1) = idx mod 2 ^ 32 /\
    support w1 = support w /\ ft_lib w1 = ft_lib w /\
    ft_face_count w1 = ft_face_count w.
Proof.
  unfold record_metrics, set_font, lbind, lret, get, ask, tell, modify.
  case_conditions.
  all: match goal with |- context [initialize_hb_font ?w0] =>
         destruct (initialize_hb_font_effect w0)
           as (r & w1 & newh & Hrun & Hcalls & Hr & Ho & Hfr & Hfm & Hfd
               & Hown & [h Hfont] & Hsup & Hlib & Hcount);
         rewrite Hrun
       end.
  all: eexists r, w1, (_ :: _ :: _ :: newh).
  all: split; [reflexivity|].
  all: rewrite Hcalls, Hfont, Hsup, Hlib, Hcount; simp_world.
  all: split; [rewrite <- !app_assoc; reflexivity|].
  all: split; [exact Hr|].
  all: unfold opened, freed, faces_made, faces_done, allocated in *;
       cbn [omap list_omap]; rewrite ?Ho, ?Hfr, ?Hfm, ?Hfd.
  all: do 4 (split; [reflexivity|]).
  all: split; [|by repeat split].
  all: intros p Hp;
       cbn [filename font_with_hb_font font_with_filename
            font_with_index font_with_units_per_em font_with_ascent
            font_with_descent font_with_italic_angle font_with_cap_height
            font_with_x_height];
       destruct (copy =? NULL);
       [|apply elem_of_cons in Hp as [->|Hp]; [by left|]];
       right; destruct (Hown p Hp) as [f Hf]; exists f;
       do 3 right; exact Hf.
Qed.

(** Every path through [initialize_ft] at once: what it calls, what it
    leaves in the font record and the counters, and how it can end.  The
    theorems below read their parts off this lemma. *)
Lemma initialize_ft_effect (pathname : list ascii) (idx : Z) w :
  exists new snew,
    calls (world_of (initialize_ft pathname idx w)) = calls w ++ new /\
    trace (support (world_of (initialize_ft pathname idx w)))
      = trace (support w) ++ snew /\
    closed snew = opened new /\
    freed new ⊆+ allocated new /\
    ft_face_count (world_of (initialize_ft pathname idx w))
      = ft_face_count w + Z.of_nat (length (faces_made new))
        - Z.of_nat (length (faces_done new)) /\
    (length (faces_done new) <= length (faces_made new) <= 1)%nat /\
    format_buf (support (world_of (initialize_ft pathname idx w)))
      = format_buf (support w) /\
    match initialize_ft pathname idx w with
    | Ret r w1 =>
        (r = 0 \/ r = -1) /\
        (font_data (font w1) = font_data (font w) \/
         font_data (font w1) = NULL \/
         font_data (font w1) :: freed new ⊆+ allocated new) /\
        (faces_done new <> [] -> ft_face (font w1) = NULL) /\
        (r = 0 ->
           length (faces_made new) = 1%nat /\ faces_done new = [] /\
           opened new <> [] /\ font_data (font w1) <> NULL /\
           font_data (font w1) :: freed new ⊆+ allocated new /\
           index (font w1) = idx mod 2 ^ 32) /\
        (exists kept, allocated new ≡ₚ freed new ++ kept /\
           forall p, p ∈ kept ->
             p = font_data (font w1) \/ p = filename (font w1) \/
             (exists hb_face, ev_hb_face_create_for_tables p hb_face ∈ new) \/
             (exists handle len nread,
                ev_input_read handle p len nread ∈ new))
    | Jump env val _ =>
        env = jump_buffer (support w) /\ val = 1 /\ freed new = [] /\
        exists handle before,
          snew = before ++ [Support.ev_input_close handle] /\
          ttbc_input_close (trace (support w) ++ before) handle <> 0
    end.
Proof.
  unfold initialize_ft, lbind.
  destruct (get_ft_library_effect w)
    as (lib & w0 & new0 & Hrun0 & Hcalls0 & Ho0 & Ha0 & Hf0 & Hm0 & Hd0
        & Hfont0 & Hsup0 & Hcount0).
  rewrite Hrun0.
  unfold support_call, ttstub_input_close, longjmp, set_font, lbind, lret,
    get, ask, tell, modify.
  case_conditions.
  all: try match goal with |- context [attach_afm ?path ?w'] =>
         destruct (attach_afm_effect path w')
           as (newa & snewa & Hcallsa & Htracea & Hba & Hsuba & Hma & Hda
               & Hkepta & Hfonta & Hcounta & Hliba & Hfmta & Hjba);
         destruct (attach_afm path w') as [[] wa | enva vala wa];
         cbn [world_of] in Hcallsa, Htracea, Hfonta, Hcounta, Hliba, Hfmta,
           Hjba;
         simp_world
       end.
  all: try match goal with |- context [record_metrics ?path ?i ?w'] =>
         destruct (record_metrics_effect path i w')
           as (r & wr & newr & Hrunr & Hcallsr & Hr & Hor & Hfr & Hmr & Hdr
               & Hownr & Hdatar & Hfacer & Hidxr & Hsupr & Hlibr & Hcountr);
         rewrite Hrunr; simp_world
       end.
  all: try match goal with
         | Hj : _ = jump_buffer _ /\ _ |- _ =>
             destruct Hj as (-> & -> & Hfa & ha & Hsnewa & Hrefa);
             cbn [support with_support with_font with_ft_face_count called
                  trace log jump_buffer] in Hrefa
         end.
  all: eexists _, _.
  all: repeat match goal with
    | Hc : calls ?w1 = _ |- context [calls ?w1] =>
        is_var w1; rewrite Hc; simp_world
    | Hc : support ?w1 = _ |- context [support ?w1] =>
        is_var w1; rewrite Hc; simp_world
    | Hc : trace (support ?w1) = _ |- context [trace (support ?w1)] =>
        is_var w1; rewrite Hc; simp_world
    | Hc : format_buf (support ?w1) = _
      |- context [format_buf (support ?w1)] =>
        is_var w1; rewrite Hc; simp_world
    | Hc : font ?w1 = _ |- context [font ?w1] =>
        is_var w1; rewrite Hc; simp_world
    | Hc : ft_face_count ?w1 = _ |- context [ft_face_count ?w1] =>
        is_var w1; rewrite Hc; simp_world
    | Hc : font_data (font ?w1) = _ |- context [font_data (font ?w1)] =>
        is_var w1; rewrite Hc; simp_world
    | Hc : ft_face (font ?w1) = _ |- context [ft_face (font ?w1)] =>
        is_var w1; rewrite Hc; simp_world
    | Hc : index (font ?w1) = _ |- context [index (font ?w1)] =>
        is_var w1; rewrite Hc; simp_world
    end.
  all: split; [extension|].
  all: split; [extension|].
  all: repeat match goal with
    | Hn : negb _ = true |- _ => apply negb_true_iff in Hn
    | Hn : negb _ = false |- _ => apply negb_false_iff in Hn
    end.
  all: unfold opened, closed, allocated, freed, faces_made, faces_done in *.
  all: rewrite ?omap_app; cbn [omap list_omap app]; use_conditions;
       cbn [omap list_omap app].
  all: repeat (match goal with
               | Hc : omap _ ?l = _ |- context [omap _ ?l] =>
                   is_var l; rewrite Hc
               end; cbn [app]).
  all: rewrite ?app_nil_r.
  all: split; [reflexivity|].
  all: cbn [length].
  all: cbn [font_data ft_face index font_with_font_data_size
            font_with_font_data font_with_ft_face].
  all: split;
    [first [ solve_submseteq
           | etrans; [eassumption | solve_submseteq] ]|].
  all: split; [lia|].
  all: split; [lia|].
  all: split; [reflexivity|].
  all: try (do 3 (split; [reflexivity|]); rewrite <- Hsup0;
            first [ rewrite Hsnewa; eexists ha, [_];
                    split; [reflexivity | exact Hrefa]
                  | eexists _, []; split; [reflexivity|];
                    rewrite app_nil_r; by apply Z.eqb_neq ]).
  all: split; [first [assumption | by right]|].
  all: split;
    [first [ by left | by right; left
           | right; right;
             first [ solve_submseteq
                   | apply submseteq_skip;
                     etrans; [eassumption | solve_submseteq] ] ]|].
  all: split; [first [done | intros _; reflexivity]|].
  all: split;
    [first [ done
           | intros _; split; [reflexivity|]; split; [reflexivity|];
             split; [done|]; split; [by apply Z.eqb_neq|];
             split; [|reflexivity];
             first [ solve_submseteq
                   | apply submseteq_skip;
                     etrans; [eassumption | solve_submseteq] ] ]|].
  all: try (exists []; split; [by rewrite ?app_nil_r|];
            intros q Hq; by apply elem_of_nil in Hq).
  all: try match goal with
    | Hk : exists kept, _ |- _ => destruct Hk as (kepta & Hperm & Hin)
    end.
  all: match goal with
    | Hperm : _ ≡ₚ _ ++ ?kepta |- exists kept, ?b :: _ ++ ?ar ≡ₚ _ /\ _ =>
        exists (b :: kepta ++ ar); split; [rewrite Hperm; solve_Permutation|]
    | |- exists kept, ?l ≡ₚ kept /\ _ => exists l; split; [reflexivity|]
    end.
  all: intros q Hq; rewrite ?elem_of_cons, ?elem_of_app in Hq.
  all: repeat match goal with
         | Hq : _ \/ _ |- _ => destruct Hq as [Hq|Hq]
         end.
  all: try (left; exact Hq).
  all: try (destruct (Hin _ Hq) as (h & l & n & Hev);
            do 3 right; exists h, l, n;
            rewrite ?elem_of_app, ?elem_of_cons, ?elem_of_app; tauto).
  all: destruct (Hownr _ Hq) as [Hf|[f Hf]];
       [ right; left; exact Hf
       | do 2 right; left; exists f;
         rewrite ?elem_of_app, ?elem_of_cons, ?elem_of_app; tauto ].
Qed.

(** X14: however [initialize_ft] ends, by returning or by the jump of a
    refused close, the handles it has given to [ttstub_input_close] are
    exactly the non-null handles [ttbc_input_open] has answered it with,
    in the same order: every file opened during the call, the font and
    the AFM file beside it, has been handed back when the call ends. *)
Theorem initialize_ft_closes_every_handle (pathname : list ascii) (idx : Z) w :
  exists new snew,
    calls (world_of (initialize_ft pathname idx w)) = calls w ++ new /\
    trace (support (world_of (initialize_ft pathname idx w)))
      = trace (support w) ++ snew /\
    closed snew = opened new.
Proof.
  destruct (initialize_ft_effect pathname idx w)
    as (new & snew & Hcalls & Htrace & Hclosed & _).
  by exists new, snew.
Qed.

(** X15: [initialize_ft] frees only blocks it has allocated itself, each
    at most once.  When it returns, [font_data] is the value it had on
    entry, or NULL, or a block of this call that has not been freed;
    after a return of 0 it is such a block, not NULL.  The blocks of the
    call left allocated are then all accounted for: each is [font_data],
    [filename], the user data of the HarfBuzz face, or the buffer an
    input has been read into (the AFM data, never freed).  When the call
    ends by a jump, nothing has been freed. *)
Theorem initialize_ft_frees_only_its_own (pathname : list ascii) (idx : Z) w :
  exists new,
    calls (world_of (initialize_ft pathname idx w)) = calls w ++ new /\
    freed new ⊆+ allocated new /\
    match initialize_ft pathname idx w with
    | Ret r w1 =>
        (font_data (font w1) = font_data (font w) \/
         font_data (font w1) = NULL \/
         font_data (font w1) :: freed new ⊆+ allocated new) /\
        (r = 0 ->
           font_data (font w1) <> NULL /\
           font_data (font w1) :: freed new ⊆+ allocated new) /\
        (exists kept, allocated new ≡ₚ freed new ++ kept /\
           forall p, p ∈ kept ->
             p = font_data (font w1) \/ p = filename (font w1) \/
             (exists hb_face, ev_hb_face_create_for_tables p hb_face ∈ new) \/
             (exists handle len nread,
                ev_input_read handle p len nread ∈ new))
    | Jump _ _ _ => freed new = []
    end.
Proof.
  destruct (initialize_ft_effect pathname idx w)
    as (new & snew & Hcalls & _ & _ & Hsub & _ & _ & _ & Hend).
  exists new. split; [exact Hcalls|]. split; [exact Hsub|].
  destruct (initialize_ft pathname idx w) as [r w1|env val w1].
  - destruct Hend as (_ & Hdata & _ & Hok & Hkept).
    split; [exact Hdata|]. split; [|exact Hkept].
    intros Hr. destruct (Hok Hr) as (_ & _ & _ & Hset & Hown & _).
    by split.
  - by destruct Hend as (_ & _ & Hfreed & _).
Qed.

(** X16: [initialize_ft] returns 0 or -1 when it returns.  However it
    ends, [ft_face_count] has changed by the number of faces FreeType
    made minus the number given to [FT_Done_Face] during the call; at
    most one face is made, and only a face made is destroyed, so the
    count never decreases and grows by at most one.  A face destroyed
    leaves [ft_face] NULL.  After a return of 0, one face has been made
    and none destroyed, a file has been opened, and [index] is the
    argument as a [uint32_t]. *)
Theorem initialize_ft_counts_faces (pathname : list ascii) (idx : Z) w :
  exists new,
    calls (world_of (initialize_ft pathname idx w)) = calls w ++ new /\
    ft_face_count (world_of (initialize_ft pathname idx w))
      = ft_face_count w + Z.of_nat (length (faces_made new))
        - Z.of_nat (length (faces_done new)) /\
    (length (faces_done new) <= length (faces_made new) <= 1)%nat /\
    match initialize_ft pathname idx w with
    | Ret r w1 =>
        (r = 0 \/ r = -1) /\
        (faces_done new <> [] -> ft_face (font w1) = NULL) /\
        (r = 0 ->
           length (faces_made new) = 1%nat /\ faces_done new = [] /\
           ft_face_count w1 = ft_face_count w + 1 /\
           opened new <> [] /\ index (font w1) = idx mod 2 ^ 32)
    | Jump _ _ _ => True
    end.
Proof.
  destruct (initialize_ft_effect pathname idx w)
    as (new & snew & Hcalls & _ & _ & _ & Hcount & Hbound & _ & Hend).
  exists new. split; [exact Hcalls|]. split; [exact Hcount|].
  split; [exact Hbound|].
  destruct (initialize_ft pathname idx w) as [r w1|env val w1]; [|exact I].
  destruct Hend as (Hr & _ & Hdone & Hok & _).
  split; [exact Hr|]. split; [exact Hdone|].
  intros Hzero. destruct (Hok Hzero) as (Hone & Hnone & Hopen & _ & _ & Hidx).
  split; [exact Hone|]. split; [exact Hnone|]. split; [|by split].
  cbn [world_of] in Hcount. rewrite Hcount, Hone, Hnone. cbn [length]. lia.
Qed.

(** X17: [initialize_ft] never touches the error message buffer.  It
    fails to return only when the bridge refuses a close: control then
    goes to [jump_buffer] with value 1, the refused close is the last
    call made to the bridge through [support.c], and nothing the call
    has allocated has been freed.  With a bridge that never refuses a
    close, [initialize_ft] always returns. *)
Theorem initialize_ft_diverts_only_on_close (pathname : list ascii) (idx : Z) w :
  format_buf (support (world_of (initialize_ft pathname idx w)))
    = format_buf (support w) /\
  match initialize_ft pathname idx w with
  | Ret _ _ => True
  | Jump env val w1 =>
      env = jump_buffer (support w) /\ val = 1 /\
      exists new handle before,
        calls w1 = calls w ++ new /\ freed new = [] /\
        trace (support w1)
          = trace (support w) ++ before ++ [Support.ev_input_close handle] /\
        closed before ++ [handle] = opened new /\
        ttbc_input_close (trace (support w) ++ before) handle <> 0
  end /\
  ((forall t handle, ttbc_input_close t handle = 0) ->
   exists r w1, initialize_ft pathname idx w = Ret r w1).
Proof.
  destruct (initialize_ft_effect pathname idx w)
    as (new & snew & Hcalls & Htrace & Hclosed & _ & _ & _ & Hfmt & Hend).
  split; [exact Hfmt|].
  destruct (initialize_ft pathname idx w) as [r w1|env val w1].
  - split; [exact I|]. intros _. by exists r, w1.
  - destruct Hend as (-> & -> & Hfreed & handle & before & -> & Hrefused).
    split.
    + do 2 (split; [reflexivity|]). exists new, handle, before.
      split; [exact Hcalls|]. split; [exact Hfreed|].
      split; [exact Htrace|]. split; [|exact Hrefused].
      rewrite <- Hclosed. unfold closed. by rewrite omap_app.
    + intros Hnever. by destruct (Hrefused (Hnever _ _)).
Qed.

End LayoutFacts.

(** ** The font set-up on the example host *)

Lemma ft_library_is_singleton_witness :
  exists w1,
    Layout.get_ft_library (H0 := Layout.plain_fonts) Layout.fresh_world
      = Layout.Ret 64 w1 /\
    Layout.ft_lib w1 = 64 /\
    Layout.get_ft_library (H0 := Layout.plain_fonts) w1 = Layout.Ret 64 w1.
Proof.
  destruct (ft_library_is_singleton (H0 := Layout.plain_fonts)
              Layout.fresh_world) as (lib & w1 & Hrun & Hset & _).
  assert (lib = 64) as -> by (vm_compute in Hrun; congruence).
  exists w1. split; [exact Hrun|]. apply Hset. discriminate.
Defined.

Lemma shutdown_only_when_idle_witness :
  exists w1,
    Layout.maybe_shutdown_ft
      (Layout.with_ft_lib_shutdown_pending
         (Layout.with_ft_lib Layout.fresh_world 64) 1) = Layout.Ret tt w1 /\
    Layout.calls w1 = [Layout.ev_FT_Done_FreeType 64] /\
    Layout.ft_lib w1 = NULL /\ Layout.ft_lib_shutdown_pending w1 = 0.
Proof.
  destruct (shutdown_only_when_idle (H0 := Layout.plain_fonts)
              (Layout.with_ft_lib_shutdown_pending
                 (Layout.with_ft_lib Layout.fresh_world 64) 1))
    as (w1 & Hrun & _ & Hdone & _).
  exists w1. split; [exact Hrun|].
  destruct Hdone as (Hcalls & Hlib & Hpending & _);
    [reflexivity | discriminate | discriminate |].
  split; [exact Hcalls|]. split; [exact Hlib | exact Hpending].
Defined.

Lemma reference_table_owns_or_frees_witness :
  exists w1 new,
    Layout.hb_reference_table_func (H0 := Layout.plain_fonts) 128 77
      Layout.fresh_world
      = Layout.Ret (Layout.hb_blob_create_writable_free 4097 8 4097) w1 /\
    Layout.calls w1 = new /\
    Layout.allocated new = [4097] /\ Layout.freed new = [].
Proof.
  destruct (reference_table_owns_or_frees (H0 := Layout.plain_fonts) 128 77
              Layout.fresh_world)
    as (blob & w1 & new & Hrun & Hcalls & Hblob & _).
  assert (blob = Layout.hb_blob_create_writable_free 4097 8 4097) as ->
    by (vm_compute in Hrun; congruence).
  exists w1, new. split; [exact Hrun|]. split; [exact Hcalls|].
  destruct Hblob as (_ & _ & Hallocated & Hfreed & _). by split.
Defined.

Lemma hb_font_initialised_witness :
  exists w1 hb_face,
    Layout.initialize_hb_font (H0 := Layout.plain_fonts) Layout.fresh_world
      = Layout.Ret 0 w1 /\
    Layout.allocated (Layout.calls w1) = [4096] /\
    Layout.ev_hb_face_create_for_tables 4096 hb_face ∈ Layout.calls w1 /\
    Layout.ev_hb_face_destroy hb_face ∈ Layout.calls w1.
Proof.
  destruct (hb_font_initialised (H0 := Layout.plain_fonts) Layout.fresh_world)
    as (r & w1 & new & Hrun & Hcalls & _ & _ & Hmade & _).
  assert (r = 0) as -> by (vm_compute in Hrun; congruence).
  destruct Hmade as (_ & hb_data & hb_face & rest & _ & Hallocated & Hnew & _);
    [discriminate|].
  assert (hb_data = 4096) as ->.
  { assert (Layout.allocated new = [4096]) as Hblock.
    { vm_compute in Hrun. injection Hrun as <-. vm_compute in Hcalls.
      by subst new. }
    congruence. }
  exists w1, hb_face. split; [exact Hrun|].
  rewrite Hcalls. cbn [Layout.calls Layout.fresh_world app].
  split; [exact Hallocated|]. rewrite Hnew.
  split; [do 2 right; left | do 6 right; left].
Defined.

Lemma initialize_ft_closes_every_handle_witness :
  exists new snew,
    Layout.calls
      (Layout.world_of
         (@Layout.initialize_ft unit Support.quiet_host Layout.plain_fonts
            Layout.font_path 0 Layout.fresh_world)) = new /\
    Support.trace
      (Layout.support
         (Layout.world_of
            (@Layout.initialize_ft unit Support.quiet_host Layout.plain_fonts
               Layout.font_path 0 Layout.fresh_world))) = snew /\
    Layout.closed snew = Layout.opened new /\
    Layout.opened new = [257; 263].
Proof.
  destruct (initialize_ft_closes_every_handle (H := Support.quiet_host)
              (H0 := Layout.plain_fonts) Layout.font_path 0
              Layout.fresh_world) as (new & snew & Hcalls & Htrace & Hclosed).
  exists new, snew. split; [exact Hcalls|]. split; [exact Htrace|].
  split; [exact Hclosed|].
  vm_compute in Hcalls. by subst new.
Defined.

Lemma initialize_ft_frees_only_its_own_witness :
  exists new w1,
    @Layout.initialize_ft unit Support.quiet_host Layout.plain_fonts
      Layout.font_path 0 Layout.fresh_world = Layout.Ret 0 w1 /\
    Layout.font_data (Layout.font w1) <> NULL /\
    Layout.font_data (Layout.font w1) :: Layout.freed new
      ⊆+ Layout.allocated new /\
    Layout.freed new = [4102].
Proof.
  destruct (initialize_ft_frees_only_its_own (H := Support.quiet_host)
              (H0 := Layout.plain_fonts) Layout.font_path 0
              Layout.fresh_world) as (new & Hcalls & _ & Hend).
  destruct (@Layout.initialize_ft unit Support.quiet_host Layout.plain_fonts
              Layout.font_path 0 Layout.fresh_world)
    as [r w1|env val w1] eqn:Hrun; [|vm_compute in Hrun; discriminate].
  assert (r = 0) as -> by (vm_compute in Hrun; congruence).
  destruct Hend as (_ & Hok & _). destruct (Hok eq_refl) as [Hset Hown].
  exists new, w1. split; [reflexivity|]. split; [exact Hset|].
  split; [exact Hown|].
  cbn [Layout.world_of] in Hcalls. vm_compute in Hrun.
  injection Hrun as <-. vm_compute in Hcalls. by subst new.
Defined.

Lemma initialize_ft_counts_faces_witness :
  exists w1,
    @Layout.initialize_ft unit Support.quiet_host Layout.plain_fonts
      Layout.font_path 0 Layout.fresh_world = Layout.Ret 0 w1 /\
    Layout.ft_face_count w1 = 1 /\ Layout.index (Layout.font w1) = 0.
Proof.
  destruct (initialize_ft_counts_faces (H := Support.quiet_host)
              (H0 := Layout.plain_fonts) Layout.font_path 0
              Layout.fresh_world) as (new & _ & _ & _ & Hend).
  destruct (@Layout.initialize_ft unit Support.quiet_host Layout.plain_fonts
              Layout.font_path 0 Layout.fresh_world)
    as [r w1|env val w1] eqn:Hrun; [|vm_compute in Hrun; discriminate].
  assert (r = 0) as -> by (vm_compute in Hrun; congruence).
  destruct Hend as (_ & _ & Hok).
  destruct (Hok eq_refl) as (_ & _ & Hcount & _ & Hidx).
  exists w1. split; [reflexivity|]. split; [exact Hcount | exact Hidx].
Defined.

Lemma initialize_ft_diverts_only_on_close_witness :
  (exists w1 new,
     @Layout.initialize_ft unit Support.failing_host Layout.plain_fonts
       Layout.font_path 0 Layout.fresh_world = Layout.Jump None 1 w1 /\
     Layout.calls w1 = new /\ Layout.freed new = [] /\
     Layout.allocated new = [4099]) /\
  (exists r w1,
     @Layout.initialize_ft unit Support.quiet_host Layout.plain_fonts
       Layout.font_path 0 Layout.fresh_world = Layout.Ret r w1).
Proof.
  split.
  - destruct (initialize_ft_diverts_only_on_close (H := Support.failing_host)
                (H0 := Layout.plain_fonts) Layout.font_path 0
                Layout.fresh_world) as (_ & Hend & _).
    destruct (@Layout.initialize_ft unit Support.failing_host
                Layout.plain_fonts Layout.font_path 0 Layout.fresh_world)
      as [r w1|env val w1] eqn:Hrun; [vm_compute in Hrun; discriminate|].
    destruct Hend as (-> & -> & new & handle & before & Hcalls & Hfreed & _).
    exists w1, new. split; [reflexivity|]. split; [exact Hcalls|].
    split; [exact Hfreed|].
    vm_compute in Hrun. injection Hrun as <-. vm_compute in Hcalls.
    by subst new.
  - apply (initialize_ft_diverts_only_on_close (H := Support.quiet_host)
             (H0 := Layout.plain_fonts) Layout.font_path 0
             Layout.fresh_world).
    reflexivity.
Defined.

(** * Properties of [mkstemp] *)
Section PosixFacts.
Import Posix.
Context `{Libc}.

Lemma fill_suffix_app (n : nat) : forall val written,
  fill_suffix n val written = fill_suffix n val [] ++ written.
Proof.
  induction n as [|n IH]; intros val written; [reflexivity|].
  cbn [fill_suffix]. rewrite (IH _ (_ :: written)), (IH _ [_]).
  by rewrite <- app_assoc.
Qed.

Lemma fill_suffix_length (n : nat) : forall val,
  length (fill_suffix n val []) = n.
Proof.
  induction n as [|n IH]; intros val; [reflexivity|].
  cbn [fill_suffix]. rewrite fill_suffix_app, length_app, IH. cbn. lia.
Qed.

Lemma charset_nth (k : nat) :
  (k < 36)%nat ->
  nth k charset Ascii.zero ∈ charset /\
  position (nth k charset Ascii.zero) charset = k.
Proof.
  intros Hk.
  do 36 (destruct k as [|k];
         [split; [apply list_elem_of_In; vm_compute; tauto | reflexivity]|]).
  lia.
Qed.

Lemma digit_bound (val : Z) : (Z.to_nat (val mod 36) < 36)%nat.
Proof. pose proof (Z.mod_pos_bound val 36). lia. Qed.

Lemma fill_suffix_charset (n : nat) : forall val,
  Forall (fun c => c ∈ charset) (fill_suffix n val []).
Proof.
  induction n as [|n IH]; intros val; [constructor|].
  cbn [fill_suffix]. rewrite fill_suffix_app. apply Forall_app. split; [apply IH|].
  constructor; [|constructor]. apply charset_nth, digit_bound.
Qed.

Lemma spelled_app (l : list ascii) (c : ascii) :
  spelled (l ++ [c]) = spelled l * 36 + Z.of_nat (position c charset).
Proof. unfold spelled. by rewrite fold_left_app. Qed.

Lemma fill_suffix_spelled (n : nat) : forall val,
  spelled (fill_suffix n val []) = val mod 36 ^ Z.of_nat n.
Proof.
  induction n as [|n IH]; intros val.
  - cbn. by rewrite Z.mod_1_r.
  - cbn [fill_suffix]. rewrite fill_suffix_app, spelled_app, IH.
    rewrite (proj2 (charset_nth _ (digit_bound val))).
    rewrite Nat2Z.inj_succ, Z.pow_succ_r by lia.
    rewrite Z.rem_mul_r by lia.
    pose proof (Z.mod_pos_bound val 36). lia.
Qed.

Lemma fill_suffix_congruent (n : nat) : forall v1 v2,
  v1 mod 36 ^ Z.of_nat n = v2 mod 36 ^ Z.of_nat n ->
  fill_suffix n v1 [] = fill_suffix n v2 [].
Proof.
  induction n as [|n IH]; intros v1 v2 Heq; [reflexivity|].
  rewrite Nat2Z.inj_succ, Z.pow_succ_r in Heq by lia.
  rewrite !(Z.rem_mul_r _ 36) in Heq by lia.
  pose proof (Z.mod_pos_bound v1 36).
  pose proof (Z.mod_pos_bound v2 36).
  assert (v1 mod 36 = v2 mod 36 /\
          (v1 / 36) mod 36 ^ Z.of_nat n = (v2 / 36) mod 36 ^ Z.of_nat n)
    as [Hd Hrest] by lia.
  cbn [fill_suffix]. rewrite (fill_suffix_app n (v1 / 36)),
    (fill_suffix_app n (v2 / 36)), Hd. f_equal. by apply IH.
Qed.

(** X21: the six characters [mkstemp] writes spell the mixed value
    modulo 36^6 in base 36, most significant digit first, with the
    characters of [charset] as digits.  So two attempts try the same
    name exactly when their values agree modulo 36^6 = 2176782336: the
    2^32 values of an [unsigned] share the names. *)
Theorem suffix_spells_value (v1 v2 : Z) :
  spelled (fill_suffix 6 v1 []) = v1 mod 36 ^ 6 /\
  (fill_suffix 6 v1 [] = fill_suffix 6 v2 [] <->
   v1 mod 36 ^ 6 = v2 mod 36 ^ 6).
Proof.
  change (36 ^ 6) with (36 ^ Z.of_nat 6).
  split; [exact (fill_suffix_spelled 6 v1)|].
  split.
  - intros Heq. rewrite <- (fill_suffix_spelled 6 v1),
      <- (fill_suffix_spelled 6 v2). by rewrite Heq.
  - exact (fill_suffix_congruent 6 v1 v2).
Qed.

(** What the retry loop does, from any state. *)
Lemma attempts_effect (addr : ptr) (prefix : list ascii) (n : nat) :
  forall (first : nat) tmpl s count,
    (count + Z.of_nat first) mod 2 ^ 32 = counter s ->
    exists before fd e,
      let k := (first + length before)%nat in
      let tried := before ++ [ev_open (name_tried count addr prefix k) fd e] in
      attempts (S n) (Z.of_nat first) addr prefix tmpl s
        = (if 0 <=? fd then fd else -1, name_tried count addr prefix k,
           {| counter := (count + Z.of_nat k + 1) mod 2 ^ 32;
              errno := e; opens := opens s ++ tried |}) /\
      (length tried <= S n)%nat /\
      (forall i ev, before !! i = Some ev ->
         exists fd', fd' < 0 /\
           ev = ev_open (name_tried count addr prefix (first + i)) fd'
                  EEXIST /\
           open_excl (opens s ++ take i before)
             (name_tried count addr prefix (first + i)) = (fd', EEXIST)) /\
      (fd, e) = open_excl (opens s ++ before)
                  (name_tried count addr prefix k) /\
      (0 <= fd \/ e <> EEXIST \/ length tried = S n).
Proof.
  induction n as [|n IH]; intros first tmpl s count Hcount.
  - exists [].
    destruct (open_excl (opens s) (name_tried count addr prefix first))
      as [fd e] eqn:Hopen.
    exists fd, e. cbn [length app]. rewrite Nat.add_0_r, app_nil_r.
    assert (Hname : prefix ++
              fill_suffix 6 (mixed ((counter s + 1) mod 2 ^ 32) addr
                               (Z.of_nat first)) []
            = name_tried count addr prefix first).
    { unfold name_tried. rewrite <- Hcount, Zplus_mod_idemp_l. reflexivity. }
    split.
    { cbn [attempts]. cbv zeta. rewrite Hname, Hopen. cbn [fst snd errno].
      rewrite <- Hcount, Zplus_mod_idemp_l.
      destruct (0 <=? fd); [reflexivity|].
      destruct (negb (e =? EEXIST)) eqn:He; [reflexivity|].
      apply negb_false_iff, Z.eqb_eq in He. subst e. reflexivity. }
    split; [lia|]. split; [intros i ev Hi; discriminate|].
    split; [by rewrite Hopen|]. right. right. reflexivity.
  - assert (Hname : prefix ++
              fill_suffix 6 (mixed ((counter s + 1) mod 2 ^ 32) addr
                               (Z.of_nat first)) []
            = name_tried count addr prefix first).
    { unfold name_tried. rewrite <- Hcount, Zplus_mod_idemp_l. reflexivity. }
    destruct (open_excl (opens s) (name_tried count addr prefix first))
      as [fd e] eqn:Hopen.
    change (attempts (S (S n)) (Z.of_nat first) addr prefix tmpl s)
      with (let count := (counter s + 1) mod 2 ^ 32 in
            let val := mixed count addr (Z.of_nat first) in
            let tmpl := prefix ++ fill_suffix 6 val [] in
            let r := open_excl (opens s) tmpl in
            let s := {| counter := count; errno := snd r;
                        opens := opens s ++ [ev_open tmpl (fst r) (snd r)] |} in
            let fd := fst r in
            if 0 <=? fd then (fd, tmpl, s)
            else if negb (errno s =? EEXIST) then (-1, tmpl, s)
            else attempts (S n) (Z.of_nat first + 1) addr prefix tmpl s).
    cbv zeta. rewrite Hname, Hopen. cbn [fst snd errno].
    destruct (0 <=? fd) eqn:Hfd.
    { exists [], fd, e. cbn [length app]. rewrite Nat.add_0_r, app_nil_r, Hfd.
      rewrite <- Hcount, Zplus_mod_idemp_l.
      split; [reflexivity|]. split; [lia|].
      split; [intros i ev Hi; discriminate|].
      split; [by rewrite Hopen|]. left. lia. }
    destruct (negb (e =? EEXIST)) eqn:He.
    { exists [], fd, e. cbn [length app]. rewrite Nat.add_0_r, app_nil_r, Hfd.
      rewrite <- Hcount, Zplus_mod_idemp_l.
      split; [reflexivity|]. split; [lia|].
      split; [intros i ev Hi; discriminate|].
      split; [by rewrite Hopen|]. right. left.
      by apply negb_true_iff, Z.eqb_neq in He. }
    apply negb_false_iff, Z.eqb_eq in He. subst e.
    replace (Z.of_nat first + 1) with (Z.of_nat (S first)) by lia.
    match goal with |- context [attempts (S n) _ addr prefix ?t ?s'] =>
      destruct (IH (S first) t s' count)
        as (before & fd2 & e2 & Hrun & Hlen & Hbefore & Hlast & Hend)
    end.
    { cbn [counter]. rewrite <- Hcount, Zplus_mod_idemp_l. f_equal. lia. }
    cbv zeta in Hrun, Hlen, Hend. cbn [opens] in Hrun, Hlast, Hbefore.
    exists (ev_open (name_tried count addr prefix first) fd EEXIST :: before),
      fd2, e2.
    cbv zeta. cbn [length app].
    replace (first + S (length before))%nat
      with (S first + length before)%nat by lia.
    split.
    { rewrite Hrun. rewrite <- app_assoc. reflexivity. }
    split; [rewrite length_app in *; cbn [length] in *; lia|].
    split.
    { intros [|i] ev Hi.
      - injection Hi as <-. rewrite Nat.add_0_r. exists fd.
        split; [lia|]. split; [reflexivity|].
        cbn [take]. by rewrite app_nil_r.
      - replace (first + S i)%nat with (S first + i)%nat by lia.
        destruct (Hbefore i ev Hi) as (fd' & Hneg & Hev & Hanswer).
        exists fd'. split; [exact Hneg|]. split; [exact Hev|].
        cbn [take]. rewrite <- Hanswer, <- app_assoc. reflexivity. }
    split.
    { rewrite Hlast, <- app_assoc. reflexivity. }
    rewrite length_app in *. cbn [length] in *. lia.
Qed.

Lemma template_split (tmpl : list ascii) :
  (length tmpl <? 6)%nat = false ->
  forallb (fun c => Ascii.eqb c "X") (drop (length tmpl - 6) tmpl) = true ->
  tmpl = take (length tmpl - 6) tmpl ++ six_x.
Proof.
  intros Hlen Hall. apply Nat.ltb_ge in Hlen.
  rewrite <- (take_drop (length tmpl - 6) tmpl) at 1. f_equal.
  assert (Hsix : length (drop (length tmpl - 6) tmpl) = 6%nat)
    by (rewrite length_drop; lia).
  revert Hall Hsix. generalize (drop (length tmpl - 6) tmpl). intros l Hall.
  do 7 (destruct l as [|? l]; try discriminate).
  cbn [forallb] in Hall. intros _.
  repeat match goal with
         | Hx : _ && _ = true |- _ => apply andb_prop in Hx as [? Hx]
         | Hx : Ascii.eqb _ _ = true |- _ => apply Ascii.eqb_eq in Hx as ->
         end.
  reflexivity.
Qed.

Lemma template_suffix (prefix : list ascii) :
  let tmpl := prefix ++ six_x in
  (length tmpl <? 6)%nat = false /\
  take (length tmpl - 6) tmpl = prefix /\
  forallb (fun c => Ascii.eqb c "X") (drop (length tmpl - 6) tmpl) = true.
Proof.
  cbv zeta. rewrite length_app.
  replace (length prefix + length six_x - 6)%nat with (length prefix)
    by (cbn; lia).
  split; [apply Nat.ltb_ge; cbn; lia|].
  split; [by rewrite take_app_length|].
  by rewrite drop_app_length.
Qed.

(** X18: a template that does not end in [XXXXXX], in particular one
    shorter than six characters, is refused: [mkstemp] returns -1 with
    [errno] set to [EINVAL], and has then opened nothing, left the
    template as it was and not advanced its counter. *)
Theorem mkstemp_refuses_bad_template (addr : ptr) (tmpl : list ascii) (s : state) :
  (forall prefix, tmpl <> prefix ++ six_x) ->
  mkstemp addr tmpl s
    = (-1, tmpl, {| counter := counter s; errno := EINVAL; opens := opens s |}).
Proof.
  intros Hbad. unfold mkstemp, with_errno.
  destruct (length tmpl <? 6)%nat eqn:Hlen; [reflexivity|].
  destruct (forallb _ _) eqn:Hall; [|reflexivity].
  destruct (Hbad _ (template_split tmpl Hlen Hall)).
Qed.

(** X19: given a template [prefix ++ "XXXXXX"], [mkstemp] calls [open]
    between 1 and 100 times.  Attempt [k] asks for the prefix followed
    by six characters of [charset], the base 36 digits of the counter
    mixed with the template's address and [k]; the counter advances by
    one for each attempt, modulo 2^32.  Every attempt but the last found
    its name taken ([EEXIST]); the template is left holding the last
    name tried, [errno] the error of the last [open].  The result is the
    descriptor of the last [open] if that is not negative, and -1
    otherwise; the loop ends at the first [open] that succeeds or fails
    with an error other than [EEXIST], or after 100 attempts. *)
Theorem mkstemp_tries_names (addr : ptr) (prefix : list ascii) (s : state) :
  0 <= counter s < 2 ^ 32 ->
  exists before fd e,
    let k := length before in
    let name := name_tried (counter s) addr prefix k in
    let tried := before ++ [ev_open name fd e] in
    mkstemp addr (prefix ++ six_x) s
      = (if 0 <=? fd then fd else -1, name,
         {| counter := (counter s + Z.of_nat k + 1) mod 2 ^ 32;
            errno := e; opens := opens s ++ tried |}) /\
    (1 <= length tried <= 100)%nat /\
    (forall i ev, before !! i = Some ev ->
       exists fd', fd' < 0 /\
         ev = ev_open (name_tried (counter s) addr prefix i) fd' EEXIST /\
         open_excl (opens s ++ take i before)
           (name_tried (counter s) addr prefix i) = (fd', EEXIST)) /\
    (fd, e) = open_excl (opens s ++ before) name /\
    (0 <= fd \/ e <> EEXIST \/ length tried = 100%nat) /\
    (forall i, exists suffix,
       name_tried (counter s) addr prefix i = prefix ++ suffix /\
       length suffix = 6%nat /\ Forall (fun c => c ∈ charset) suffix).
Proof.
  intros Hrange.
  destruct (template_suffix prefix) as (Hlen & Hprefix & Hall).
  cbv zeta in Hlen, Hprefix, Hall.
  unfold mkstemp. rewrite Hlen, Hall, Hprefix.
  destruct (attempts_effect addr prefix 99 0 (prefix ++ six_x) s (counter s))
    as (before & fd & e & Hrun & Hlength & Hbefore & Hlast & Hend).
  { rewrite Z.add_0_r. by apply Z.mod_small. }
  cbv zeta in Hrun, Hlength, Hend. cbn [Nat.add] in Hrun, Hlast, Hbefore.
  exists before, fd, e. cbv zeta.
  split; [exact Hrun|].
  split; [rewrite length_app in *; cbn [length] in *; lia|].
  split.
  { intros i ev Hi. exact (Hbefore i ev Hi). }
  split; [exact Hlast|]. split; [exact Hend|].
  intros i. eexists. split; [reflexivity|].
  split; [apply fill_suffix_length | apply fill_suffix_charset].
Qed.

Lemma lxor_low_bits (c a : Z) :
  0 <= c -> c mod 4 = 0 ->
  Z.lxor (Z.lxor (c + 3) a) 2 = Z.lxor (Z.lxor (c + 1) a) 0.
Proof.
  intros Hc Hmod.
  rewrite Z.lxor_0_r, Z.lxor_assoc, (Z.lxor_comm a 2), <- Z.lxor_assoc.
  f_equal.
  assert (Hland : Z.land (c + 1) 2 = 0).
  { apply Z.bits_inj'. intros n Hn. rewrite Z.land_spec, Z.bits_0.
    destruct (Z.eq_dec n 1) as [->|Hne].
    - assert (Z.testbit (c + 1) 1 = false) as ->; [|reflexivity].
      replace (c + 1) with (2 * (2 * (c / 4)) + 1)
        by (pose proof (Z.div_mod c 4); lia).
      exact (eq_trans (Z.testbit_odd_succ (2 * (c / 4)) 0 (Z.le_refl 0))
               (Z.testbit_even_0 (c / 4))).
    - replace 2 with (2 ^ 1) by reflexivity.
      rewrite Z.pow2_bits_eqb by lia.
      destruct (Z.eqb_spec 1 n); [lia|]. by rewrite andb_false_r. }
  replace (c + 3) with ((c + 1) + 2) by lia.
  rewrite (Z.add_nocarry_lxor _ _ Hland).
  by rewrite Z.lxor_assoc, Z.lxor_nilpotent, Z.lxor_0_r.
Qed.

Lemma name_tried_repeats (addr : ptr) (prefix : list ascii) (count : Z) :
  0 <= count < 2 ^ 32 -> count mod 4 = 0 ->
  name_tried count addr prefix 2 = name_tried count addr prefix 0.
Proof.
  intros Hrange Hmod. unfold name_tried, mixed. f_equal. f_equal.
  assert (count + 3 < 2 ^ 32).
  { pose proof (Z.div_mod count 4). pose proof (Z.div_mod (2 ^ 32) 4).
    change (2 ^ 32 mod 4) with 0 in *. change (2 ^ 32 / 4) with 1073741824 in *.
    change (2 ^ 32) with 4294967296 in *. lia. }
  change (Z.of_nat 2) with 2. change (Z.of_nat 0) with 0.
  rewrite (Z.mod_small (count + 2 + 1)), (Z.mod_small (count + 0 + 1)) by lia.
  replace (count + 2 + 1) with (count + 3) by lia.
  replace (count + 0 + 1) with (count + 1) by lia.
  exact (lxor_low_bits count (addr mod 2 ^ 32) (proj1 Hrange) Hmod).
Qed.

(** X20: the retries do not try 100 different names.  When the counter
    is a multiple of 4 on entry and [mkstemp] gets as far as a third
    attempt, the third [open] asks for the very name the first [open]
    asked for, and has found taken. *)
Theorem mkstemp_retry_repeats_name (addr : ptr) (prefix : list ascii) (s : state) :
  0 <= counter s < 2 ^ 32 -> counter s mod 4 = 0 ->
  exists tried,
    opens (snd (mkstemp addr (prefix ++ six_x) s)) = opens s ++ tried /\
    forall first third,
      tried !! 0%nat = Some first -> tried !! 2%nat = Some third ->
      path_of third = path_of first /\
      exists fd, fd < 0 /\ first = ev_open (path_of first) fd EEXIST.
Proof.
  intros Hrange Hmod.
  destruct (mkstemp_tries_names addr prefix s Hrange)
    as (before & fd & e & Hrun & _ & Hbefore & _).
  cbv zeta in Hrun. rewrite Hrun. cbn [snd opens].
  eexists. split; [reflexivity|].
  intros first third Hfirst Hthird.
  destruct before as [|e0 [|e1 [|e2 rest]]]; try discriminate.
  - destruct (Hbefore 0%nat e0 eq_refl) as (fd0 & Hneg & Hev0 & _).
    cbn in Hfirst, Hthird. injection Hfirst as <-. injection Hthird as <-.
    rewrite Hev0. cbn [path_of length].
    split; [by apply name_tried_repeats|]. by exists fd0.
  - destruct (Hbefore 0%nat e0 eq_refl) as (fd0 & Hneg & Hev0 & _).
    destruct (Hbefore 2%nat e2 eq_refl) as (fd2 & _ & Hev2 & _).
    cbn in Hfirst, Hthird. injection Hfirst as <-. injection Hthird as <-.
    rewrite Hev0, Hev2. cbn [path_of].
    split; [by apply name_tried_repeats|]. by exists fd0.
Qed.

End PosixFacts.

Lemma mkstemp_refuses_bad_template_witness :
  @Posix.mkstemp Posix.empty_directory 4096 (list_ascii_of_string "tmpXXXXX")
    Posix.initial_state
  = (-1, list_ascii_of_string "tmpXXXXX",
     {| Posix.counter := 0; Posix.errno := 28; Posix.opens := [] |}).
Proof.
  apply (mkstemp_refuses_bad_template (H := Posix.empty_directory) 4096
           (list_ascii_of_string "tmpXXXXX") Posix.initial_state).
  intros prefix Heq.
  destruct prefix as [|a [|b [|c prefix]]]; try discriminate.
  apply (f_equal length) in Heq. cbn in Heq. rewrite length_app in Heq.
  cbn in Heq. lia.
Defined.

Lemma mkstemp_tries_names_witness :
  exists name,
    @Posix.mkstemp Posix.empty_directory 4096
      (list_ascii_of_string "tmp" ++ Posix.six_x) Posix.initial_state
    = (3, name,
       {| Posix.counter := 1; Posix.errno := 0;
          Posix.opens := [Posix.ev_open name 3 0] |}) /\
    length name = 9%nat.
Proof.
  destruct (mkstemp_tries_names (H := Posix.empty_directory) 4096
              (list_ascii_of_string "tmp") Posix.initial_state)
    as (before & fd & e & Hrun & _ & Hbefore & Hlast & _);
    [cbn; lia|].
  cbv zeta in Hrun, Hlast. injection Hlast as -> ->.
  destruct before as [|ev before].
  - eexists. split; [exact Hrun | reflexivity].
  - destruct (Hbefore 0%nat ev eq_refl) as (fd' & _ & _ & Hanswer).
    discriminate.
Defined.

Lemma mkstemp_retry_repeats_name_witness :
  exists tried first third,
    Posix.opens
      (snd (@Posix.mkstemp Posix.full_directory 4096
              (list_ascii_of_string "tmp" ++ Posix.six_x)
              Posix.initial_state)) = tried /\
    length tried = 100%nat /\
    tried !! 0%nat = Some first /\ tried !! 2%nat = Some third /\
    Posix.path_of third = Posix.path_of first.
Proof.
  destruct (mkstemp_retry_repeats_name (H := Posix.full_directory) 4096
              (list_ascii_of_string "tmp") Posix.initial_state)
    as (tried & Hopens & Hsame); [cbn; lia | reflexivity |].
  vm_compute in Hopens. subst tried.
  eexists _, _, _. split; [vm_compute; reflexivity|].
  do 3 (split; [reflexivity|]).
  exact (proj1 (Hsame _ _ eq_refl eq_refl)).
Defined.
